(** * Toon by Eneco for Homey: session handling, webhook renewal and status
    reconciliation

    A shallow embedding of [app.js] (class [ToonApp]), [lib/Util.js] (class
    [Util]) and [drivers/toon/device.js] (class [ToonDevice]), with the
    properties of the specification stated and proved over it.

    Conventions of the embedding.
    - A JavaScript value is a term of [JS.value]; a JavaScript number is an
      exact rational or [NaN] (no rounding error, no infinities, no negative
      zero).  Objects are lists of own properties; there is no prototype
      chain.
    - An [async] function is a function from the outcomes of the promises it
      awaits to its own outcome and the state it leaves.  Where invocations
      interleave ([registerWebhookSubscription], timers) the device is a
      transition system whose events are the invocations and the
      settlements of awaited promises.
    - Calls into the Homey SDK and into [homey-oauth2app] are modelled next
      to their first use; what the embedding cannot compute (translations,
      string-to-number coercion) is a field of [JS.Host]. *)

From Stdlib Require Import ZArith QArith Qround Lia.
From stdpp Require Import base option list gmap strings pretty.

Open Scope string_scope.

(* ================================================================== *)
(** * The JavaScript fragment *)
(* ================================================================== *)

Module JS.

(** Numbers.  [Num q] keeps [q] as the operations below leave it: every
    operation reduces its result, so equal numbers have equal terms. *)
Inductive number :=
| NaN
| Num (q : Q).

Definition num_of_Z (z : Z) : number := Num (inject_Z z).

Definition num_add (a b : number) : number :=
  match a, b with
  | Num x, Num y => Num (Qred (x + y))
  | _, _ => NaN
  end.

Definition num_mul (a b : number) : number :=
  match a, b with
  | Num x, Num y => Num (Qred (x * y))
  | _, _ => NaN
  end.

(** [a / c] for a positive literal [c]. *)
Definition num_div (a : number) (c : positive) : number :=
  match a with
  | Num x => Num (Qred (x / inject_Z (Zpos c)))
  | NaN => NaN
  end.

(** [Math.round]: the nearest integer, halves towards plus infinity. *)
Definition Math_round (a : number) : number :=
  match a with
  | Num x => num_of_Z (Qfloor (x + (1 # 2)))
  | NaN => NaN
  end.

(** [a === b] on numbers. *)
Definition num_eqb (a b : number) : bool :=
  match a, b with
  | Num x, Num y => Qeq_bool x y
  | _, _ => false
  end.

(** [a >= b] on numbers. *)
Definition num_geb (a b : number) : bool :=
  match a, b with
  | Num x, Num y => Qle_bool y x
  | _, _ => false
  end.

#[local] Unset Elimination Schemes.
Inductive value :=
| VUndefined
| VNull
| VBool (b : bool)
| VNum (n : number)
| VStr (s : string)
| VArr (items : list value)
| VObj (props : list (string * value)).
#[local] Set Elimination Schemes.

Inductive type_name := TUndefined | TObject | TBoolean | TNumber | TString.

Definition typeof (v : value) : type_name :=
  match v with
  | VUndefined => TUndefined
  | VNull | VArr _ | VObj _ => TObject
  | VBool _ => TBoolean
  | VNum _ => TNumber
  | VStr _ => TString
  end.

(** [typeof v === 'number']. *)
Definition is_number (v : value) : bool :=
  match typeof v with TNumber => true | _ => false end.

(** [ToBoolean]. *)
Definition truthy (v : value) : bool :=
  match v with
  | VUndefined | VNull => false
  | VBool b => b
  | VNum NaN => false
  | VNum (Num q) => negb (Qeq_bool q 0)
  | VStr s => negb (String.eqb s "")
  | VArr _ | VObj _ => true
  end.

Definition nullish (v : value) : bool :=
  match v with VUndefined | VNull => true | _ => false end.

Fixpoint assoc {A} (k : string) (ps : list (string * A)) : option A :=
  match ps with
  | [] => None
  | (k', x) :: ps' => if String.eqb k k' then Some x else assoc k ps'
  end.

(** [o[k] = x] on a property list: an existing property keeps its place. *)
Fixpoint assoc_set {A} (k : string) (x : A) (ps : list (string * A))
  : list (string * A) :=
  match ps with
  | [] => [(k, x)]
  | (k', y) :: ps' =>
      if String.eqb k k' then (k, x) :: ps' else (k', y) :: assoc_set k x ps'
  end.

Definition chars (s : string) : list value :=
  (fun c => VStr (String c EmptyString)) <$> String.list_ascii_of_string s.

(** The own enumerable properties, as the spread [{...v}] copies them. *)
Definition own_props (v : value) : list (string * value) :=
  match v with
  | VObj ps => ps
  | VArr l => imap (fun i x => (pretty i, x)) l
  | VStr s => imap (fun i x => (pretty i, x)) (chars s)
  | _ => []
  end.

(** [v.k] for a receiver that is neither [undefined] nor [null]; the code
    reads a property of such a receiver only behind a truthiness test, or
    in the destructuring of [processStatusUpdate], where the embedding
    tests [nullish] first. *)
Definition prop (v : value) (k : string) : value :=
  match assoc k (own_props v) with
  | Some x => x
  | None =>
      if String.eqb k "length" then
        match v with
        | VArr l => VNum (num_of_Z (Z.of_nat (length l)))
        | VStr s => VNum (num_of_Z (Z.of_nat (String.length s)))
        | _ => VUndefined
        end
      else VUndefined
  end.

(** What the embedding does not compute. *)
Record Host := {
  (** [StringToNumber] of the language. *)
  string_to_number : string -> number;
  (** [Number::toString] for a number that is not an integer. *)
  fraction_to_string : Q -> string;
  (** [ToString] of an array or an object. *)
  object_to_string : value -> string;
  (** [homey.__(key, { error })]. *)
  translate : string -> option string -> string;
  (** Whether Homey takes a value for a capability it knows. *)
  capability_accepts : string -> value -> bool;
}.

Section Coercions.
Variable host : Host.

Definition number_to_string (n : number) : string :=
  match n with
  | NaN => "NaN"
  | Num q =>
      if Qeq_bool q (inject_Z (Qfloor q)) then pretty (Qfloor q)
      else fraction_to_string host q
  end.

Definition ToString (v : value) : string :=
  match v with
  | VUndefined => "undefined"
  | VNull => "null"
  | VBool true => "true"
  | VBool false => "false"
  | VNum n => number_to_string n
  | VStr s => s
  | VArr _ | VObj _ => object_to_string host v
  end.

Definition ToNumber (v : value) : number :=
  match v with
  | VUndefined => NaN
  | VNull => Num 0
  | VBool true => Num 1
  | VBool false => Num 0
  | VNum n => n
  | VStr s => string_to_number host s
  | VArr _ | VObj _ => string_to_number host (object_to_string host v)
  end.
End Coercions.

(** Thrown values.  Every rejection in these files carries an [Error]
    object; [err.message || err.toString()] is its message, or
    ["Error"]-prefixed name when the message is empty. *)
Inductive error :=
| Error (message : string)
| TypeError (message : string).

Definition message (e : error) : string :=
  match e with Error m | TypeError m => m end.

Definition error_toString (e : error) : string :=
  match e with
  | Error "" => "Error"
  | TypeError "" => "TypeError"
  | Error m => "Error: " ++ m
  | TypeError m => "TypeError: " ++ m
  end.

(** [err.message || err.toString()]. *)
Definition message_or_toString (e : error) : string :=
  if String.eqb (message e) "" then error_toString e else message e.

(** The outcome of an awaited promise. *)
Inductive outcome (A : Type) :=
| Fulfilled (a : A)
| Failed (e : error).
Arguments Fulfilled {A} a.
Arguments Failed {A} e.

Definition is_failed {A} (o : outcome A) : bool :=
  match o with Failed _ => true | Fulfilled _ => false end.

End JS.

Import JS.

(* ================================================================== *)
(** * lib/Util.js *)
(* ================================================================== *)

Module Util.

(** What a caller of [wrapAsyncWithRetry] can observe of one run: the
    executions of [method] and the timers [Util.wait] sat out. *)
Inductive event :=
| Called
| Waited (ms : number).

(** The promise [wrapAsyncWithRetry] returns: resolved, rejected, or left
    pending for ever (when [Util.wait] throws, the rejection lands on a
    promise nobody listens to and neither [resolve] nor [reject] runs). *)
Inductive settled (A : Type) :=
| Resolved (a : A)
| Rejected (e : error)
| Pending.
Arguments Resolved {A} a.
Arguments Rejected {A} e.
Arguments Pending {A}.

(** [interval]: a number, or a function of the retry count. *)
Inductive interval_policy :=
| Static (n : number)
| Dynamic (f : Z -> value).

(** [Util.wait(timeout)]: a [TypeError] unless [timeout] is a number,
    otherwise the timer of that many milliseconds. *)
Definition wait (timeout : value) : error + number :=
  match timeout with
  | VNum ms => inr ms
  | _ => inl (TypeError "expected_timeout_number")
  end.

(** [typeof interval === 'function' ? interval(retries) : interval]. *)
Definition waitTime (interval : interval_policy) (retries : Z) : value :=
  match interval with
  | Dynamic f => f retries
  | Static n => VNum n
  end.

(** The [catch] handler of [executeMethod], up to the point where it
    either starts the timer or rejects. *)
Inductive decision :=
| RetryAfter (retries : Z) (timeout : value)
| GiveUp (err : error).

Definition on_failure (times : Z) (interval : interval_policy)
    (retries : Z) (err : error) : decision :=
  if (times >? retries)%Z then
    let retries := (retries + 1)%Z in
    RetryAfter retries (waitTime interval retries)
  else GiveUp err.

Section Retry.
Context {W A : Type}.
(** [method], an async function: it acts on the state [W] of whatever it
    closes over and its promise settles with an [outcome]. *)
Variable method : W -> outcome A * W.
Variable times : Z.
Variable interval : interval_policy.

(** [executeMethod].  [fuel] bounds the retries still possible; the
    branch that runs out of it is dead for the fuel [wrapAsyncWithRetry]
    passes ([executeMethod_unfold]). *)
Fixpoint executeMethod (fuel : nat) (retries : Z) (w : W)
  : settled A * W * list event :=
  let '(r, w) := method w in
  match r with
  | Fulfilled a => (Resolved a, w, [Called])
  | Failed err =>
      match on_failure times interval retries err with
      | RetryAfter retries timeout =>
          match wait timeout, fuel with
          | inr ms, S fuel =>
              let '(s, w, tr) := executeMethod fuel retries w in
              (s, w, Called :: Waited ms :: tr)
          | inr _, O => (Rejected err, w, [Called])
          | inl _, _ => (Pending, w, [Called])
          end
      | GiveUp err => (Rejected err, w, [Called])
      end
  end.

(** [wrapAsyncWithRetry(method, times, interval)], for a function
    [method], a number [times], taken to be an integer, and an [interval]
    that is a number or a function (the three [TypeError]s of the prologue
    are excluded by the types). *)
Definition wrapAsyncWithRetry (w : W) : settled A * W * list event :=
  executeMethod (Z.to_nat times) 0 w.

(** The state after [k] executions of [method], and the outcome of the
    execution that follows them. *)
Fixpoint state_after (k : nat) (w : W) : W :=
  match k with
  | O => w
  | S k => state_after k (snd (method w))
  end.

Definition outcome_after (k : nat) (w : W) : outcome A :=
  fst (method (state_after k w)).


End Retry.

End Util.

(* ================================================================== *)
(** * drivers/toon/device.js *)
(* ================================================================== *)

Module Device.

Definition TEMPERATURE_STATES : list (string * Z) :=
  [("comfort", 0); ("home", 1); ("sleep", 2); ("away", 3); ("none", -1)]%Z.

Inductive log_entry :=
| Log (text : string)
| Err (text : string).

(** The methods of [ToonOAuth2Client] the device calls. *)
Inductive request :=
| Subscribe (id : string)
| Unsubscribe (id : string)
| GetStatus (id : string)
| PutThermostat (id : string) (data : value).

(** A timer of [processStatusUpdate]; its callback is always
    [this.registerWebhookSubscription.bind(this)]. *)
Record timer := { handle : nat; delay : number }.

(** Where an invocation of [registerWebhookSubscription] is suspended. *)
Inductive pc :=
| AwaitSubscribe
| AwaitUnsetWarning
| AwaitBackoff (ms : number)
| AwaitSetWarning (err : error)
| Hung
| Returned (r : outcome unit).

(** One invocation: its counter [i], the [retries] of its retry loop and
    its suspension point. *)
Record task := { task_i : Z; task_retries : Z; task_pc : pc }.

Record Device := {
  (** [getData().id], the display's common name *)
  data_id : string;
  (** [getData().agreementId], the getter [id] *)
  agreementId : string;
  (** whether [this.oAuth2Client] is set *)
  oAuth2Client : bool;
  gasUsage : value;
  powerUsage : value;
  thermostatInfo : value;
  temperatureStatesMap : gmap string value;
  _registeringWebhooks : bool;
  _webhookRegistrationTimeout : option nat;
  (** Homey: the capabilities of the device and their values *)
  capabilities : gmap string value;
  (** Homey: the warning shown on the device *)
  warning : option string;
  (** Homey: whether the device is available *)
  available : bool;
  (** the event loop: renewal timers not yet run or cleared *)
  timers : list timer;
  (** the event loop: the handle of the next timer *)
  next_handle : nat;
  (** invocations of [registerWebhookSubscription], oldest first *)
  tasks : list task;
  (** calls made on the OAuth2 client, oldest first *)
  requests : list request;
  (** [this.log] and [this.error], oldest first *)
  logs : list log_entry;
}.

Definition with_gasUsage (x : value) (d : Device) : Device :=
  {| data_id := data_id d; agreementId := agreementId d;
     oAuth2Client := oAuth2Client d; gasUsage := x;
     powerUsage := powerUsage d; thermostatInfo := thermostatInfo d;
     temperatureStatesMap := temperatureStatesMap d;
     _registeringWebhooks := _registeringWebhooks d;
     _webhookRegistrationTimeout := _webhookRegistrationTimeout d;
     capabilities := capabilities d; warning := warning d;
     available := available d; timers := timers d;
     next_handle := next_handle d; tasks := tasks d;
     requests := requests d; logs := logs d |}.

Definition with_powerUsage (x : value) (d : Device) : Device :=
  {| data_id := data_id d; agreementId := agreementId d;
     oAuth2Client := oAuth2Client d; gasUsage := gasUsage d;
     powerUsage := x; thermostatInfo := thermostatInfo d;
     temperatureStatesMap := temperatureStatesMap d;
     _registeringWebhooks := _registeringWebhooks d;
     _webhookRegistrationTimeout := _webhookRegistrationTimeout d;
     capabilities := capabilities d; warning := warning d;
     available := available d; timers := timers d;
     next_handle := next_handle d; tasks := tasks d;
     requests := requests d; logs := logs d |}.

Definition with_thermostatInfo (x : value) (d : Device) : Device :=
  {| data_id := data_id d; agreementId := agreementId d;
     oAuth2Client := oAuth2Client d; gasUsage := gasUsage d;
     powerUsage := powerUsage d; thermostatInfo := x;
     temperatureStatesMap := temperatureStatesMap d;
     _registeringWebhooks := _registeringWebhooks d;
     _webhookRegistrationTimeout := _webhookRegistrationTimeout d;
     capabilities := capabilities d; warning := warning d;
     available := available d; timers := timers d;
     next_handle := next_handle d; tasks := tasks d;
     requests := requests d; logs := logs d |}.

Definition with_temperatureStatesMap (x : gmap string value) (d : Device) : Device :=
  {| data_id := data_id d; agreementId := agreementId d;
     oAuth2Client := oAuth2Client d; gasUsage := gasUsage d;
     powerUsage := powerUsage d; thermostatInfo := thermostatInfo d;
     temperatureStatesMap := x;
     _registeringWebhooks := _registeringWebhooks d;
     _webhookRegistrationTimeout := _webhookRegistrationTimeout d;
     capabilities := capabilities d; warning := warning d;
     available := available d; timers := timers d;
     next_handle := next_handle d; tasks := tasks d;
     requests := requests d; logs := logs d |}.

Definition with_registeringWebhooks (x : bool) (d : Device) : Device :=
  {| data_id := data_id d; agreementId := agreementId d;
     oAuth2Client := oAuth2Client d; gasUsage := gasUsage d;
     powerUsage := powerUsage d; thermostatInfo := thermostatInfo d;
     temperatureStatesMap := temperatureStatesMap d;
     _registeringWebhooks := x;
     _webhookRegistrationTimeout := _webhookRegistrationTimeout d;
     capabilities := capabilities d; warning := warning d;
     available := available d; timers := timers d;
     next_handle := next_handle d; tasks := tasks d;
     requests := requests d; logs := logs d |}.

Definition with_webhookRegistrationTimeout (x : option nat) (d : Device) : Device :=
  {| data_id := data_id d; agreementId := agreementId d;
     oAuth2Client := oAuth2Client d; gasUsage := gasUsage d;
     powerUsage := powerUsage d; thermostatInfo := thermostatInfo d;
     temperatureStatesMap := temperatureStatesMap d;
     _registeringWebhooks := _registeringWebhooks d;
     _webhookRegistrationTimeout := x; capabilities := capabilities d;
     warning := warning d; available := available d; timers := timers d;
     next_handle := next_handle d; tasks := tasks d;
     requests := requests d; logs := logs d |}.

Definition with_capabilities (x : gmap string value) (d : Device) : Device :=
  {| data_id := data_id d; agreementId := agreementId d;
     oAuth2Client := oAuth2Client d; gasUsage := gasUsage d;
     powerUsage := powerUsage d; thermostatInfo := thermostatInfo d;
     temperatureStatesMap := temperatureStatesMap d;
     _registeringWebhooks := _registeringWebhooks d;
     _webhookRegistrationTimeout := _webhookRegistrationTimeout d;
     capabilities := x; warning := warning d; available := available d;
     timers := timers d; next_handle := next_handle d; tasks := tasks d;
     requests := requests d; logs := logs d |}.

Definition with_warning (x : option string) (d : Device) : Device :=
  {| data_id := data_id d; agreementId := agreementId d;
     oAuth2Client := oAuth2Client d; gasUsage := gasUsage d;
     powerUsage := powerUsage d; thermostatInfo := thermostatInfo d;
     temperatureStatesMap := temperatureStatesMap d;
     _registeringWebhooks := _registeringWebhooks d;
     _webhookRegistrationTimeout := _webhookRegistrationTimeout d;
     capabilities := capabilities d; warning := x;
     available := available d; timers := timers d;
     next_handle := next_handle d; tasks := tasks d;
     requests := requests d; logs := logs d |}.

Definition with_available (x : bool) (d : Device) : Device :=
  {| data_id := data_id d; agreementId := agreementId d;
     oAuth2Client := oAuth2Client d; gasUsage := gasUsage d;
     powerUsage := powerUsage d; thermostatInfo := thermostatInfo d;
     temperatureStatesMap := temperatureStatesMap d;
     _registeringWebhooks := _registeringWebhooks d;
     _webhookRegistrationTimeout := _webhookRegistrationTimeout d;
     capabilities := capabilities d; warning := warning d; available := x;
     timers := timers d; next_handle := next_handle d; tasks := tasks d;
     requests := requests d; logs := logs d |}.

Definition with_timers (x : list timer) (d : Device) : Device :=
  {| data_id := data_id d; agreementId := agreementId d;
     oAuth2Client := oAuth2Client d; gasUsage := gasUsage d;
     powerUsage := powerUsage d; thermostatInfo := thermostatInfo d;
     temperatureStatesMap := temperatureStatesMap d;
     _registeringWebhooks := _registeringWebhooks d;
     _webhookRegistrationTimeout := _webhookRegistrationTimeout d;
     capabilities := capabilities d; warning := warning d;
     available := available d; timers := x; next_handle := next_handle d;
     tasks := tasks d; requests := requests d; logs := logs d |}.

Definition with_next_handle (x : nat) (d : Device) : Device :=
  {| data_id := data_id d; agreementId := agreementId d;
     oAuth2Client := oAuth2Client d; gasUsage := gasUsage d;
     powerUsage := powerUsage d; thermostatInfo := thermostatInfo d;
     temperatureStatesMap := temperatureStatesMap d;
     _registeringWebhooks := _registeringWebhooks d;
     _webhookRegistrationTimeout := _webhookRegistrationTimeout d;
     capabilities := capabilities d; warning := warning d;
     available := available d; timers := timers d; next_handle := x;
     tasks := tasks d; requests := requests d; logs := logs d |}.

Definition with_tasks (x : list task) (d : Device) : Device :=
  {| data_id := data_id d; agreementId := agreementId d;
     oAuth2Client := oAuth2Client d; gasUsage := gasUsage d;
     powerUsage := powerUsage d; thermostatInfo := thermostatInfo d;
     temperatureStatesMap := temperatureStatesMap d;
     _registeringWebhooks := _registeringWebhooks d;
     _webhookRegistrationTimeout := _webhookRegistrationTimeout d;
     capabilities := capabilities d; warning := warning d;
     available := available d; timers := timers d;
     next_handle := next_handle d; tasks := x; requests := requests d;
     logs := logs d |}.

Definition with_requests (x : list request) (d : Device) : Device :=
  {| data_id := data_id d; agreementId := agreementId d;
     oAuth2Client := oAuth2Client d; gasUsage := gasUsage d;
     powerUsage := powerUsage d; thermostatInfo := thermostatInfo d;
     temperatureStatesMap := temperatureStatesMap d;
     _registeringWebhooks := _registeringWebhooks d;
     _webhookRegistrationTimeout := _webhookRegistrationTimeout d;
     capabilities := capabilities d; warning := warning d;
     available := available d; timers := timers d;
     next_handle := next_handle d; tasks := tasks d; requests := x;
     logs := logs d |}.

Definition with_logs (x : list log_entry) (d : Device) : Device :=
  {| data_id := data_id d; agreementId := agreementId d;
     oAuth2Client := oAuth2Client d; gasUsage := gasUsage d;
     powerUsage := powerUsage d; thermostatInfo := thermostatInfo d;
     temperatureStatesMap := temperatureStatesMap d;
     _registeringWebhooks := _registeringWebhooks d;
     _webhookRegistrationTimeout := _webhookRegistrationTimeout d;
     capabilities := capabilities d; warning := warning d;
     available := available d; timers := timers d;
     next_handle := next_handle d; tasks := tasks d;
     requests := requests d; logs := x |}.

(** The device as its constructor and the first lines of [onOAuth2Init]
    leave it. *)
Definition fresh (id agreement : string) (client : bool)
    (caps : gmap string value) : Device :=
  {| data_id := id; agreementId := agreement; oAuth2Client := client;
     gasUsage := VObj []; powerUsage := VObj []; thermostatInfo := VObj [];
     temperatureStatesMap := ∅;
     _registeringWebhooks := false; _webhookRegistrationTimeout := None;
     capabilities := caps; warning := None; available := false;
     timers := []; next_handle := 0; tasks := [];
     requests := []; logs := [] |}.

(** [this.log(...)] and [this.error(...)]; an entry keeps the fixed text
    of the call. *)
Definition this_log (text : string) (d : Device) : Device :=
  with_logs (logs d ++ [Log text]) d.

Definition this_error (text : string) (d : Device) : Device :=
  with_logs (logs d ++ [Err text]) d.

(** A call on [this.oAuth2Client] goes out. *)
Definition call (r : request) (d : Device) : Device :=
  with_requests (requests d ++ [r]) d.

(** ** The event loop *)

(** [setTimeout(this.registerWebhookSubscription.bind(this), ms)]: the
    handle it returns, which is an object and so truthy. *)
Definition setTimeout (ms : number) (d : Device) : nat * Device :=
  let h := next_handle d in
  (h, with_next_handle (S h)
        (with_timers (timers d ++ [{| handle := h; delay := ms |}]) d)).

(** [clearTimeout(x)]; nothing happens for [undefined] or a timer that ran. *)
Definition clearTimeout (x : option nat) (d : Device) : Device :=
  match x with
  | Some h =>
      with_timers (filter (fun t => handle t ≠ h) (timers d)) d
  | None => d
  end.

Section WithHost.
Variable host : Host.

(** ** Homey's side of the device *)

Definition hasCapability (c : string) (d : Device) : bool :=
  bool_decide (is_Some (capabilities d !! c)).

(** [setCapabilityValue]: Homey rejects a capability the device does not
    have and a value it does not take. *)
Definition setCapabilityValue (c : string) (v : value) (d : Device)
  : outcome unit * Device :=
  if hasCapability c d && capability_accepts host c v then
    (Fulfilled (), with_capabilities (<[c := v]> (capabilities d)) d)
  else (Failed (Error "invalid_capability"), d).

(** [addCapability]: the new capability has no value yet. *)
Definition addCapability (c : string) (d : Device) : outcome unit * Device :=
  if hasCapability c d then (Fulfilled (), d)
  else (Fulfilled (), with_capabilities (<[c := VNull]> (capabilities d)) d).

(** [promise.catch(this.error)]. *)
Definition catch_error (r : outcome unit * Device) : Device :=
  match r with
  | (Fulfilled _, d) => d
  | (Failed e, d) => this_error (error_toString e) d
  end.

(** [setUnavailable()]: Homey takes it in whatever state the device
    is. *)
Definition setUnavailable (d : Device) : outcome unit * Device :=
  (Fulfilled (), with_available false d).

(** ** Reconciliation

    A test [typeof x === 'number'] that guards a use of [x] is a match on
    [VNum]. *)

(** [Math.round((x / 100) * 10) / 10]. *)
Definition round_tenth (x : number) : number :=
  num_div (Math_round (num_mul (num_div x 100) (Num 10))) 10.

(** [getKey(obj, val)]: the first key whose value is [val], or
    [undefined]. *)
Definition getKey (obj : list (string * Z)) (val : number) : value :=
  match find (fun kv => num_eqb (num_of_Z kv.2) val) obj with
  | Some (k, _) => VStr k
  | None => VUndefined
  end.

Definition _processPowerUsageData (data : value) (d : Device) : Device :=
  let d := with_powerUsage data d in
  let d :=
    match prop data "value" with
    | VNum n =>
        let d := this_log "getThermostatData() -> powerUsage -> measure_power -> value:" d in
        catch_error (setCapabilityValue "measure_power" (VNum n) d)
    | _ => d
    end in
  match prop data "dayUsage", prop data "dayLowUsage" with
  | VNum dayUsage, VNum dayLowUsage =>
      let usage := num_div (num_add dayUsage dayLowUsage) 1000 in
      let d := this_log "getThermostatData() -> powerUsage -> meter_power -> dayUsage:" d in
      catch_error (setCapabilityValue "meter_power" (VNum usage) d)
  | _, _ => d
  end.

Definition _processGasUsageData (data : value) (d : Device) : Device :=
  let d := with_gasUsage data d in
  match prop data "dayUsage" with
  | VNum dayUsage =>
      let meterGas := num_div dayUsage 1000 in
      let d := this_log "getThermostatData() -> gasUsage -> meter_gas" d in
      catch_error (setCapabilityValue "meter_gas" (VNum meterGas) d)
  | _ => d
  end.

Definition _processThermostatInfoData (data : value) (d : Device) : Device :=
  let d := with_thermostatInfo data d in
  let d :=
    match prop data "currentDisplayTemp" with
    | VNum n =>
        catch_error
          (setCapabilityValue "measure_temperature" (VNum (round_tenth n)) d)
    | _ => d
    end in
  let d :=
    match prop data "currentSetpoint" with
    | VNum n =>
        catch_error
          (setCapabilityValue "target_temperature" (VNum (round_tenth n)) d)
    | _ => d
    end in
  let d :=
    match prop data "activeState" with
    | VNum n =>
        catch_error
          (setCapabilityValue "temperature_state"
             (getKey TEMPERATURE_STATES n) d)
    | _ => d
    end in
  match prop data "currentHumidity" with
  | VNum n =>
      if negb (hasCapability "measure_humidity" d) then
        catch_error (addCapability "measure_humidity" d)
      else
        catch_error (setCapabilityValue "measure_humidity" (VNum n) d)
  | _ => d
  end.

(** [for (const { id, tempValue } of state) this.temperatureStatesMap[id]
    = tempValue]; destructuring [undefined] or [null] throws. *)
Fixpoint store_states (state : list value) (d : Device)
  : option error * Device :=
  match state with
  | [] => (None, d)
  | x :: state =>
      if nullish x then
        (Some (TypeError "Cannot destructure property 'id'"), d)
      else
        store_states state
          (with_temperatureStatesMap
             (<[ToString host (prop x "id") := prop x "tempValue"]>
                (temperatureStatesMap d)) d)
  end.

(** [typeof data.body.commonName === 'string'
    && data.body.commonName !== this.getData().id]. *)
Definition from_other_display (body : value) (d : Device) : bool :=
  match prop body "commonName" with
  | VStr commonName => negb (String.eqb commonName (data_id d))
  | _ => false
  end.

(** The renewal timer of [processStatusUpdate]. *)
Definition arm_renewal (body : value) (d : Device) : Device :=
  match prop body "timeToLiveSeconds" with
  | VNum timeToLiveSeconds =>
      let d :=
        match _webhookRegistrationTimeout d with
        | Some h => clearTimeout (Some h) d
        | None => d
        end in
      let '(h, d) := setTimeout (num_mul timeToLiveSeconds (Num 1000)) d in
      with_webhookRegistrationTimeout (Some h) d
  | _ => d
  end.

(** "Keep updated list of thermostat state temperatures". *)
Definition keep_thermostatStates (dataRootObject : value) (d : Device)
  : option error * Device :=
  if truthy (prop dataRootObject "thermostatStates") then
    match prop (prop dataRootObject "thermostatStates") "state" with
    | VArr state => store_states state d
    | _ => (None, d)
    end
  else (None, d).

(** The checks for power usage, gas usage and thermostat
    information. *)
Definition process_sections (dataRootObject : value) (d : Device)
  : Device :=
  let d :=
    if truthy (prop dataRootObject "powerUsage") then
      _processPowerUsageData (prop dataRootObject "powerUsage") d
    else d in
  let d :=
    if truthy (prop dataRootObject "gasUsage") then
      _processGasUsageData (prop dataRootObject "gasUsage") d
    else d in
  if truthy (prop dataRootObject "thermostatInfo") then
    _processThermostatInfoData (prop dataRootObject "thermostatInfo") d
  else d.

(** [processStatusUpdate(data)]: the error it throws, if any, and the
    device it leaves. *)
Definition processStatusUpdate (data : value) (d : Device)
  : option error * Device :=
  let d := this_log "processStatusUpdate" d in
  if truthy data && truthy (prop data "body")
     && truthy (prop (prop data "body") "updateDataSet") then
    let body := prop data "body" in
    let d := this_log "data.body" d in
    if from_other_display body d then (None, d)
    else
      let d := arm_renewal body d in
      let dataRootObject := prop body "updateDataSet" in
      match keep_thermostatStates dataRootObject d with
      | (Some err, d) => (Some err, d)
      | (None, d) => (None, process_sections dataRootObject d)
      end
  else (None, d).

(** [getStatusUpdate()], given how [getStatus] settles. *)
Definition getStatusUpdate (status : outcome value) (d : Device) : Device :=
  let d := this_log "getStatusUpdate()" d in
  let failed (err : error) (d : Device) :=
    this_error "getStatusUpdate() -> error, failed to retrieve status update" d in
  if oAuth2Client d then
    let d := call (GetStatus (agreementId d)) d in
    match status with
    | Fulfilled data =>
        let '(thrown, d) :=
          processStatusUpdate
            (VObj [("body", VObj [("updateDataSet", data)])]) d in
        match thrown with
        | Some err => failed err d
        | None => d
        end
    | Failed err => failed err d
    end
  else failed (TypeError "Cannot read properties of undefined") d.

(** ** The write path *)

Definition stateId_value (stateId : option Z) : value :=
  match stateId with
  | Some z => VNum (num_of_Z z)
  | None => VUndefined
  end.

(** [stateId >= 0]. *)
Definition stateId_known (stateId : option Z) : bool :=
  match stateId with
  | Some z => num_geb (num_of_Z z) (Num 0)
  | None => false
  end.

(** [this.temperatureStatesMap[stateId]]. *)
Definition state_temperature (stateId : option Z) (d : Device) : value :=
  default VUndefined
    (temperatureStatesMap d !! ToString host (stateId_value stateId)).

(** [updateState(state, keepProgram)], given how the PUT settles. *)
Definition updateState (state keepProgram : value) (put : outcome unit)
    (d : Device) : outcome value * Device :=
  let stateId := assoc (ToString host state) TEMPERATURE_STATES in
  let data :=
    VObj (assoc_set "programState"
            (VNum (if truthy keepProgram then Num 2 else Num 0))
            (assoc_set "activeState" (stateId_value stateId)
               (own_props (thermostatInfo d)))) in
  let d := this_log "updateState() -> set state" d in
  let failed (err : error) (d : Device) : outcome value * Device :=
    let d :=
      this_error "updateState() -> error, failed to set temperature state" d in
    (Failed (Error (translate host "capability.error_set_temperature_state"
                      (Some (message_or_toString err)))), d) in
  if oAuth2Client d then
    let d := call (PutThermostat (agreementId d) data) d in
    match put with
    | Fulfilled _ =>
        let '(set, d) :=
          if stateId_known stateId then
            setCapabilityValue "target_temperature"
              (VNum (round_tenth (ToNumber host (state_temperature stateId d))))
              d
          else (Fulfilled (), d) in
        match set with
        | Fulfilled _ =>
            let d :=
              this_log "updateState() -> success setting temperature state" d in
            (Fulfilled state, d)
        | Failed err => failed err d
        end
    | Failed err => failed err d
    end
  else failed (TypeError "Cannot read properties of undefined") d.

(** [setTargetTemperature(temperature)], given how the PUT settles. *)
Definition setTargetTemperature (temperature : value) (put : outcome unit)
    (d : Device) : outcome value * Device :=
  let data :=
    VObj (assoc_set "activeState" (VNum (Num (-1)))
            (assoc_set "programState" (VNum (Num 2))
               (assoc_set "currentSetpoint"
                  (VNum (num_mul (ToNumber host temperature) (Num 100)))
                  (own_props (thermostatInfo d))))) in
  let d := this_log "setTargetTemperature() ->" d in
  if negb (is_number temperature) then
    let d := this_error "setTargetTemperature() -> error, invalid temperature" d in
    (Failed (Error (translate host "capability.error_set_target_temperature"
                      (Some "invalid_temperature"))), d)
  else
    let d := catch_error (setCapabilityValue "target_temperature" temperature d) in
    if oAuth2Client d then
      let d := call (PutThermostat (agreementId d) data) d in
      match put with
      | Fulfilled _ =>
          let d :=
            this_log "setTargetTemperature() -> success setting temperature" d in
          let d :=
            catch_error (setCapabilityValue "temperature_state" (VStr "none") d) in
          (Fulfilled temperature, d)
      | Failed err =>
          let d :=
            this_error "setTargetTemperature() -> error, failed to set temperature" d in
          (Failed (Error (translate host "capability.error_set_target_temperature"
                            (Some (message_or_toString err)))), d)
      end
    else (Failed (TypeError "Cannot read properties of undefined"), d).

(** [onOAuth2Deleted()], given how the unsubscribe settles. *)
Definition onOAuth2Deleted (unsubscribe : outcome unit) (d : Device)
  : outcome unit * Device :=
  let d := this_log "onOAuth2Deleted()" d in
  let '(awaited, d) :=
    if oAuth2Client d then
      (unsubscribe, call (Unsubscribe (agreementId d)) d)
    else (Fulfilled (), d) in
  match awaited with
  | Fulfilled _ =>
      (Fulfilled (), clearTimeout (_webhookRegistrationTimeout d) d)
  | Failed err => (Failed err, d)
  end.

(** ** The webhook subscription *)

Definition retryTimes : Z := 10.

(** [retryCount => 6000 * (2 ** retryCount)]. *)
Definition backoff : Util.interval_policy :=
  Util.Dynamic (fun retryCount => VNum (num_of_Z (6000 * 2 ^ retryCount))).

Definition put_task (t : nat) (tk : task) (d : Device) : Device :=
  with_tasks (<[t := tk]> (tasks d)) d.

Definition suspend (tk : task) (at_ : pc) : task :=
  {| task_i := task_i tk; task_retries := task_retries tk; task_pc := at_ |}.

(** The promise of the retried closure rejects with [err]: the [catch]
    handler of [Util.executeMethod], and behind it the [catch] block of
    [registerWebhookSubscription] up to its [await]. *)
Definition method_failed (t : nat) (tk : task) (err : error) (d : Device)
  : Device :=
  match Util.on_failure retryTimes backoff (task_retries tk) err with
  | Util.RetryAfter retries timeout =>
      let tk :=
        {| task_i := task_i tk; task_retries := retries;
           task_pc := task_pc tk |} in
      match Util.wait timeout with
      | inr ms => put_task t (suspend tk (AwaitBackoff ms)) d
      | inl _ => put_task t (suspend tk Hung) d
      end
  | Util.GiveUp err =>
      let d :=
        this_error "Failed to register webhook subscription, reason" d in
      let d := with_registeringWebhooks false d in
      put_task t (suspend tk (AwaitSetWarning err)) d
  end.

(** The retried closure, up to its first [await]. *)
Definition method_start (t : nat) (tk : task) (d : Device) : Device :=
  let tk :=
    {| task_i := task_i tk + 1; task_retries := task_retries tk;
       task_pc := task_pc tk |} in
  let d := this_log "registerWebhookSubscription()" d in
  if oAuth2Client d then
    let d := call (Subscribe (agreementId d)) d in
    put_task t (suspend tk AwaitSubscribe) d
  else
    method_failed t tk (TypeError "Cannot read properties of undefined") d.

(** [registerWebhookSubscription()], up to its first [await] or its
    [return]. *)
Definition registerWebhookSubscription (d : Device) : Device :=
  let t := length (tasks d) in
  let tk := {| task_i := 0; task_retries := 0;
               task_pc := Returned (Fulfilled ()) |} in
  let d := with_tasks (tasks d ++ [tk]) d in
  if _registeringWebhooks d then d
  else
    let d := with_registeringWebhooks true d in
    method_start t tk d.

(** The promise invocation [t] awaits settles with [o], and the
    invocation runs to its next [await] or to its end. *)
Definition resume (t : nat) (o : outcome unit) (d : Device) : Device :=
  match tasks d !! t with
  | None => d
  | Some tk =>
      match task_pc tk, o with
      | AwaitSubscribe, Fulfilled _ =>
          let d := with_registeringWebhooks false d in
          put_task t (suspend tk AwaitUnsetWarning) d
      | AwaitSubscribe, Failed err => method_failed t tk err d
      | AwaitUnsetWarning, Fulfilled _ =>
          let d := with_warning None d in
          put_task t (suspend tk (Returned (Fulfilled ()))) d
      | AwaitUnsetWarning, Failed err => method_failed t tk err d
      | AwaitBackoff _, _ =>
          (* the promise of [Util.wait] resolves; it cannot reject *)
          method_start t tk d
      | AwaitSetWarning err, Fulfilled _ =>
          let d :=
            with_warning
              (Some (translate host "api.error_webhook_registration" None)) d in
          put_task t (suspend tk (Returned (Failed err))) d
      | AwaitSetWarning _, Failed err =>
          put_task t (suspend tk (Returned (Failed err))) d
      | Hung, _ | Returned _, _ => d
      end
  end.

(** ** The device as a transition system *)

Inductive event :=
(** [onOAuth2Init] calls [registerWebhookSubscription()] *)
| Invoked
(** the event loop runs the callback of timer [h] *)
| TimerFired (h : nat)
(** the promise invocation [t] awaits settles *)
| Settled (t : nat) (o : outcome unit)
(** the webhook delivers a message *)
| Message (data : value)
(** [getStatusUpdate()] is called and [getStatus] settles *)
| StatusFetched (status : outcome value)
(** [updateState(state, keepProgram)] is called and the PUT settles *)
| StateRequested (state keepProgram : value) (put : outcome unit)
(** [setTargetTemperature(temperature)] is called and the PUT settles *)
| TemperatureRequested (temperature : value) (put : outcome unit)
(** [onOAuth2Deleted()] is called and the unsubscribe settles *)
| Deleted (unsubscribe : outcome unit).

Definition step (d : Device) (e : event) : Device :=
  match e with
  | Invoked => registerWebhookSubscription d
  | TimerFired h =>
      if bool_decide (h ∈ handle <$> timers d) then
        registerWebhookSubscription (clearTimeout (Some h) d)
      else d
  | Settled t o => resume t o d
  | Message data => (processStatusUpdate data d).2
  | StatusFetched status => getStatusUpdate status d
  | StateRequested state keepProgram put =>
      (updateState state keepProgram put d).2
  | TemperatureRequested temperature put =>
      (setTargetTemperature temperature put d).2
  | Deleted unsubscribe => (onOAuth2Deleted unsubscribe d).2
  end.

Definition run (d : Device) (es : list event) : Device :=
  foldl step d es.

(** An invocation that has a subscribe call pending at the provider, or
    will issue one when its back-off timer ends. *)
Definition attempting (tk : task) : bool :=
  match task_pc tk with
  | AwaitSubscribe | AwaitBackoff _ => true
  | _ => false
  end.

Definition attempts (d : Device) : nat :=
  sum_list_with (fun tk => if attempting tk then 1 else 0) (tasks d).

(** The subscribe calls the provider has not answered yet. *)
Definition subscribing (tk : task) : bool :=
  match task_pc tk with
  | AwaitSubscribe => true
  | _ => false
  end.

Definition pending_subscribes (d : Device) : nat :=
  sum_list_with (fun tk => if subscribing tk then 1 else 0) (tasks d).

(** What [processStatusUpdate] requires of a payload before it reads
    it: the envelope, and a common name that is this display's when it
    is a string. *)
Definition accepted (data : value) (d : Device) : bool :=
  truthy data && truthy (prop data "body")
  && truthy (prop (prop data "body") "updateDataSet")
  && negb (from_other_display (prop data "body") d).

(** At most one renewal timer is pending, the device holds its handle,
    and the handle is older than the next one. *)
Definition single_slot (d : Device) : Prop :=
  length (timers d) <= 1
  /\ (forall t, t ∈ timers d ->
        _webhookRegistrationTimeout d = Some (handle t))
  /\ (forall t, t ∈ timers d -> handle t < next_handle d).

(** At most one invocation is attempting, and none when the flag is
    down. *)
Definition single_attempt (d : Device) : Prop :=
  attempts d <= 1
  /\ (_registeringWebhooks d = false -> attempts d = 0).

(** Homey rejects [setWarning(null)]. *)
Definition unset_warning_rejected (d : Device) (e : event) : bool :=
  match e with
  | Settled t (Failed _) =>
      match tasks d !! t with
      | Some tk =>
          match task_pc tk with AwaitUnsetWarning => true | _ => false end
      | None => false
      end
  | _ => false
  end.

(** No [setWarning(null)] is rejected in the run of [es] from [d]. *)
Fixpoint unset_warning_kept (d : Device) (es : list event) : bool :=
  match es with
  | [] => true
  | e :: es =>
      negb (unset_warning_rejected d e) && unset_warning_kept (step d e) es
  end.
End WithHost.

End Device.

(* ================================================================== *)
(** * app.js *)
(* ================================================================== *)

Module App.

(** A saved session of [homey-oauth2app], stored under its session id. *)
Record Session := { configId : string; title : value; token : value }.

Record ToonApp := {
  (** the persisted sessions, by session id *)
  saved : gmap string Session;
  (** the error [getSavedOAuth2Sessions()] throws, if it throws *)
  read_error : option error;
  (** [this.ToonDriver.getDevices()] *)
  devices : list Device.Device;
  (** [this.log] and [this.error], oldest first *)
  logs : list Device.log_entry;
}.

Definition with_saved (x : gmap string Session) (a : ToonApp) : ToonApp :=
  {| saved := x; read_error := read_error a; devices := devices a;
     logs := logs a |}.

Definition with_devices (x : list Device.Device) (a : ToonApp) : ToonApp :=
  {| saved := saved a; read_error := read_error a; devices := x;
     logs := logs a |}.

Definition this_log (text : string) (a : ToonApp) : ToonApp :=
  {| saved := saved a; read_error := read_error a; devices := devices a;
     logs := logs a ++ [Device.Log text] |}.

Definition this_error (text : string) (a : ToonApp) : ToonApp :=
  {| saved := saved a; read_error := read_error a; devices := devices a;
     logs := logs a ++ [Device.Err text] |}.

(** ** homey-oauth2app *)

Definition getSavedOAuth2Sessions (a : ToonApp)
  : outcome (gmap string Session) :=
  match read_error a with
  | Some err => Failed err
  | None => Fulfilled (saved a)
  end.

(** [deleteOAuth2Client({ sessionId, configId })] removes the session saved
    under [sessionId]; [configId] only selects the client object kept in
    memory, which the embedding does not follow. *)
Definition deleteOAuth2Client (sessionId : option string)
    (configId : option Session) (a : ToonApp) : ToonApp :=
  with_saved (delete (default "undefined" sessionId) (saved a)) a.

(** ** The language *)

(** [Object.keys] of the sessions object (the order plays no role below:
    the keys are counted, or there is one). *)
Definition Object_keys (sessions : gmap string Session) : list string :=
  (map_to_list sessions).*1.

(** [Promise.all]: the results, or the first rejection. *)
Fixpoint Promise_all {A} (ps : list (outcome A)) : outcome (list A) :=
  match ps with
  | [] => Fulfilled []
  | Failed err :: _ => Failed err
  | Fulfilled x :: ps =>
      match Promise_all ps with
      | Fulfilled xs => Fulfilled (x :: xs)
      | Failed err => Failed err
      end
  end.

(** ** ToonApp *)

(** [_getSession()]: the sessions object when it holds one session,
    [null] when it holds none. *)
Definition _getSession (a : ToonApp)
  : outcome (option (gmap string Session)) * ToonApp :=
  match getSavedOAuth2Sessions a with
  | Failed err => (Failed err, this_error "isAuthenticated() -> error" a)
  | Fulfilled sessions =>
      if (1 <? length (Object_keys sessions))%nat then
        (Failed (Error "Multiple OAuth2 sessions found, not allowed."), a)
      else
        let a := this_log "_getSession() ->" a in
        (Fulfilled
           (if (length (Object_keys sessions) =? 1)%nat then Some sessions
            else None), a)
  end.

(** [isAuthenticated()]; [!!session] is [true] for an object and [false]
    for [null]. *)
Definition isAuthenticated (a : ToonApp) : outcome bool * ToonApp :=
  match _getSession a with
  | (Fulfilled session, a) =>
      let a := this_log "isAuthenticated() ->" a in
      (Fulfilled (bool_decide (is_Some session)), a)
  | (Failed err, a) =>
      let a :=
        this_error "isAuthenticated() -> could not get current session:" a in
      (Failed (Error "Could not get current OAuth2 session"), a)
  end.

(** [logout()]. *)
Definition logout (a : ToonApp) : outcome (list unit) * ToonApp :=
  let a := this_log "logout()" a in
  match _getSession a with
  | (Failed err, a) => (Failed err, a)
  | (Fulfilled None, a) =>
      (Failed (TypeError "Cannot convert undefined or null to object"), a)
  | (Fulfilled (Some session), a) =>
      let sessionId := head (Object_keys session) in
      let a := deleteOAuth2Client sessionId (session !! "configId") a in
      let results := Device.setUnavailable <$> devices a in
      (Promise_all (fst <$> results), with_devices (snd <$> results) a)
  end.

End App.

(* ================================================================== *)
(** * Concrete hosts, devices and payloads *)
(* ================================================================== *)

Module Sample.

(** A host that takes every capability value and translates a key to
    itself. *)
Definition host : Host :=
  {| string_to_number := fun _ => NaN;
     fraction_to_string := fun _ => "";
     object_to_string := fun _ => "[object Object]";
     translate := fun key _ => key;
     capability_accepts := fun _ _ => true |}.

(** A host like [host] that does not take [NaN] for a capability. *)
Definition strict_host : Host :=
  {| string_to_number := fun _ => NaN;
     fraction_to_string := fun _ => "";
     object_to_string := fun _ => "[object Object]";
     translate := fun key _ => key;
     capability_accepts :=
       fun _ v => match v with VNum NaN => false | _ => true end |}.

Definition thermostat_capabilities : gmap string value :=
  list_to_map
    [("target_temperature", VNum (Num 20)); ("measure_temperature", VNull);
     ("temperature_state", VNull); ("measure_power", VNull);
     ("meter_power", VNull); ("meter_gas", VNull)].

(** A paired device with a client and no humidity capability. *)
Definition device : Device.Device :=
  Device.fresh "eneco-001-123456" "agreement-1" true thermostat_capabilities.

Definition failure : error := Error "503 Service Unavailable".

(** A webhook message of this display: a lease of an hour and a humidity
    reading. *)
Definition message : value :=
  VObj [("body",
         VObj [("commonName", VStr "eneco-001-123456");
               ("timeToLiveSeconds", VNum (Num 3600));
               ("updateDataSet",
                VObj [("thermostatInfo",
                       VObj [("currentHumidity", VNum (Num 55))])])])].

(** A webhook message of another display. *)
Definition foreign_message : value :=
  VObj [("body",
         VObj [("commonName", VStr "eneco-001-999999");
               ("timeToLiveSeconds", VNum (Num 3600));
               ("updateDataSet",
                VObj [("thermostatInfo",
                       VObj [("currentSetpoint", VNum (Num 1500))])])])].

(** The device after the first message of its display. *)
Definition leased_device : Device.Device :=
  Device.run host device [Device.Message message].

(** The subscribe call resolves, Homey rejects [setWarning(null)], the
    renewal timer (or [onOAuth2Init]) invokes the method again, and the
    back-off timer of the first invocation ends. *)
Definition overlap : list Device.event :=
  [Device.Invoked;
   Device.Settled 0 (Fulfilled ());
   Device.Settled 0 (Failed failure);
   Device.Invoked;
   Device.Settled 0 (Fulfilled ())].

(** An operation that fails its first two executions and then succeeds;
    its state is the number of executions so far. *)
Definition flaky (n : nat) : outcome string * nat :=
  (if (n <? 2)%nat then Failed failure else Fulfilled "done", S n).

Definition session : App.Session :=
  {| App.configId := "default"; App.title := VStr "Toon";
     App.token := VObj [("access_token", VStr "a")] |}.

Definition app (sessions : gmap string App.Session) : App.ToonApp :=
  {| App.saved := sessions; App.read_error := None;
     App.devices := [device; Device.with_available true device];
     App.logs := [] |}.

End Sample.

(* ================================================================== *)
(** * drivers/toon/device.js: the capability listeners, the program
      switches, the client switch and the migration *)
(* ================================================================== *)

Module DeviceRest.
Import Device.

Definition with_oAuth2Client (x : bool) (d : Device) : Device :=
  {| data_id := data_id d; agreementId := agreementId d;
     oAuth2Client := x; gasUsage := gasUsage d;
     powerUsage := powerUsage d; thermostatInfo := thermostatInfo d;
     temperatureStatesMap := temperatureStatesMap d;
     _registeringWebhooks := _registeringWebhooks d;
     _webhookRegistrationTimeout := _webhookRegistrationTimeout d;
     capabilities := capabilities d; warning := warning d;
     available := available d; timers := timers d;
     next_handle := next_handle d; tasks := tasks d;
     requests := requests d; logs := logs d |}.

(** [setAvailable()]. *)
Definition setAvailable (d : Device) : outcome unit * Device :=
  (Fulfilled (), with_available true d).

(** [agreements.find(agreement => agreement.agreementId === this.id)]:
    whether an element is found, or the [TypeError] of reading a property
    of [undefined] or [null]. *)
Fixpoint find_agreement (id : string) (agreements : list value)
  : error + bool :=
  match agreements with
  | [] => inr false
  | agreement :: agreements =>
      if nullish agreement then
        inl (TypeError "Cannot read properties of undefined")
      else
        match prop agreement "agreementId" with
        | VStr a =>
            if String.eqb a id then inr true
            else find_agreement id agreements
        | _ => find_agreement id agreements
        end
  end.

(** What [resetOAuth2Client] does outside the device: the store values it
    sets, and whether it asked for the agreements. *)
Record reset_effects := {
  stored : list (string * value);
  asked_agreements : bool;
}.

Section WithHost.
Variable host : Host.

(** [Math.round(temperature * 2) / 2]. *)
Definition round_half (temperature : value) : number :=
  num_div (Math_round (num_mul (ToNumber host temperature) (Num 2))) 2.

(** [onCapabilityTargetTemperature(temperature, options)], given how the
    PUT settles. *)
Definition onCapabilityTargetTemperature (temperature options : value)
    (put : outcome unit) (d : Device) : outcome value * Device :=
  let d := this_log "onCapabilityTargetTemperature() ->" d in
  setTargetTemperature host (VNum (round_half temperature)) put d.

(** [enableProgram()], given how the PUT settles. *)
Definition enableProgram (put : outcome unit) (d : Device)
  : outcome unit * Device :=
  let d := this_log "enableProgram()" d in
  let data :=
    VObj (assoc_set "programState" (VNum (Num 1))
            (own_props (thermostatInfo d))) in
  let failed (err : error) (d : Device) : outcome unit * Device :=
    let d := this_error "enableProgram() -> error" d in
    (Failed (Error (translate host "capability.error_enable_program"
                      (Some (message_or_toString err)))), d) in
  if oAuth2Client d then
    let d := call (PutThermostat (agreementId d) data) d in
    match put with
    | Fulfilled _ => (Fulfilled (), this_log "enableProgram() -> success" d)
    | Failed err => failed err d
    end
  else failed (TypeError "Cannot read properties of undefined") d.

(** [disableProgram()], given how the PUT settles. *)
Definition disableProgram (put : outcome unit) (d : Device)
  : outcome unit * Device :=
  let d := this_log "disableProgram()" d in
  let data :=
    VObj (assoc_set "programState" (VNum (Num 0))
            (own_props (thermostatInfo d))) in
  let failed (err : error) (d : Device) : outcome unit * Device :=
    let d := this_error "disableProgram() -> error" d in
    (Failed (Error (translate host "capability.error_disable_program"
                      (Some (message_or_toString err)))), d) in
  if oAuth2Client d then
    let d := call (PutThermostat (agreementId d) data) d in
    match put with
    | Fulfilled _ => (Fulfilled (), this_log "disableProgram() -> success" d)
    | Failed err => failed err d
    end
  else failed (TypeError "Cannot read properties of undefined") d.

(** [resetOAuth2Client({ sessionId, configId })], given whether the app
    has a client for that session and how [getAgreements] settles; the
    two [setStoreValue] calls are taken to resolve. *)
Definition resetOAuth2Client (sessionId configId : value)
    (hasOAuth2Client : bool) (agreements : outcome value) (d : Device)
  : outcome unit * Device * reset_effects :=
  let stored :=
    [("OAuth2SessionId", sessionId); ("OAuth2ConfigId", configId)] in
  if hasOAuth2Client then
    let d := with_oAuth2Client true d in
    let effects := {| stored := stored; asked_agreements := true |} in
    match agreements with
    | Failed err => (Failed err, d, effects)
    | Fulfilled (VArr items) =>
        match find_agreement (agreementId d) items with
        | inl err => (Failed err, d, effects)
        | inr true => (setAvailable d, effects)
        | inr false => (setUnavailable d, effects)
        end
    | Fulfilled _ => (setUnavailable d, effects)
    end
  else
    let d := this_error "OAuth2Client reset failed" d in
    (setUnavailable d, {| stored := stored; asked_agreements := false |}).

End WithHost.

(** The life of one invocation in the subscription machinery: the
    closure has run [task_i] times, after [task_retries] retries, and a
    back-off timer is the one the policy gives. *)
Definition task_ok (tk : task) : Prop :=
  (0 <= task_retries tk <= retryTimes)%Z
  /\ match task_pc tk with
     | AwaitSubscribe | AwaitUnsetWarning =>
         task_i tk = (task_retries tk + 1)%Z
     | AwaitBackoff ms =>
         task_i tk = task_retries tk
         /\ (1 <= task_retries tk)%Z
         /\ ms = num_of_Z (6000 * 2 ^ task_retries tk)
     | AwaitSetWarning _ | Returned (Failed _) =>
         task_i tk = (retryTimes + 1)%Z /\ task_retries tk = retryTimes
     | Returned (Fulfilled _) =>
         task_i tk = 0%Z \/ task_i tk = (task_retries tk + 1)%Z
     | Hung => False
     end.

(** The flag is up only while an invocation is attempting. *)
Definition flag_live (d : Device) : Prop :=
  _registeringWebhooks d = true -> attempts d = 1.

End DeviceRest.

(* ================================================================== *)
(** * drivers/toon/device.js: debounce *)
(* ================================================================== *)

Module Debounce.
Section Debounce.
Context {Args R W : Type}.
(** [fn], acting on the state [W] of whatever it closes over, and
    [wait]. *)
Variable fn : Args -> W -> R * W.
Variable wait : number.

(** A timer of the debounced function: its handle, its delay and the
    arguments its callback closes over. *)
Record timer := { handle : nat; delay : number; args : Args }.

Record state := {
  (** [let timer], the handle of the last timer set *)
  timer_ : option nat;
  (** [let resolves], the promises handed out and not resolved yet *)
  resolves : list nat;
  (** the event loop: timers not yet run or cleared *)
  timers : list timer;
  next_handle : nat;
  (** the promise the next call returns *)
  next_promise : nat;
  (** the promises resolved, with their values, oldest first *)
  resolved : list (nat * R);
  (** the calls of [fn], oldest first *)
  applied : list Args;
  world : W;
}.

(** [debounce(fn, wait)]: no timer, no promise. *)
Definition debounce (w : W) : state :=
  {| timer_ := None; resolves := []; timers := []; next_handle := 0;
     next_promise := 0; resolved := []; applied := []; world := w |}.

(** A call of the debounced function: the promise it returns and the
    state it leaves. *)
Definition call (a : Args) (s : state) : nat * state :=
  let cleared :=
    match timer_ s with
    | Some h => filter (fun t => handle t ≠ h) (timers s)
    | None => timers s
    end in
  let h := next_handle s in
  let p := next_promise s in
  (p,
   {| timer_ := Some h; resolves := resolves s ++ [p];
      timers := cleared ++ [{| handle := h; delay := wait; args := a |}];
      next_handle := S h; next_promise := S p;
      resolved := resolved s; applied := applied s; world := world s |}).

(** The event loop runs the callback of timer [h]. *)
Definition fire (h : nat) (s : state) : state :=
  match find (fun t => bool_decide (handle t = h)) (timers s) with
  | Some t =>
      let '(result, w) := fn (args t) (world s) in
      {| timer_ := timer_ s; resolves := [];
         timers := filter (fun t => handle t ≠ h) (timers s);
         next_handle := next_handle s; next_promise := next_promise s;
         resolved := resolved s ++ ((fun p => (p, result)) <$> resolves s);
         applied := applied s ++ [args t]; world := w |}
  | None => s
  end.

Inductive event :=
| Call (a : Args)
| Fire (h : nat).

Definition step (s : state) (e : event) : state :=
  match e with
  | Call a => (call a s).2
  | Fire h => fire h s
  end.

Definition run (s : state) (es : list event) : state := foldl step s es.

(** The calls among the events. *)
Definition calls (es : list event) : nat :=
  sum_list_with (fun e => match e with Call _ => 1 | Fire _ => 0 end) es.

(** At most one timer is pending, the closure holds its handle, and a
    promise is waiting exactly when a timer is pending. *)
Definition coalescing (s : state) : Prop :=
  (timers s = [] /\ resolves s = [])
  \/ (exists t, timers s = [t] /\ timer_ s = Some (handle t)
                /\ resolves s <> []).
End Debounce.
End Debounce.

(* ================================================================== *)
(** * drivers/toon/driver.js *)
(* ================================================================== *)

Module Driver.
Section WithHost.
Variable host : Host.
(** [String.prototype.toLowerCase]. *)
Variable toLowerCase : string -> string.

(** [city.charAt(0)] and [city.slice(1)]. *)
Definition charAt0 (s : string) : string :=
  match s with
  | String c _ => String c EmptyString
  | EmptyString => ""
  end.

Definition slice1 (s : string) : string :=
  match s with
  | String _ rest => rest
  | EmptyString => ""
  end.

(** The [name] of the device of one agreement, among [n] agreements. *)
Definition device_name (n : nat) (agreement : value) : error + string :=
  if (1 <? n)%nat then
    match prop agreement "city" with
    | VStr city =>
        inr ("Toon: " ++ ToString host (prop agreement "street") ++ " "
             ++ ToString host (prop agreement "houseNumber") ++ " , "
             ++ ToString host (prop agreement "postalCode") ++ " "
             ++ charAt0 city ++ toLowerCase (slice1 city))
    | _ => inl (TypeError "agreement.city.charAt is not a function")
    end
  else inr "Toon".

(** The callback of [agreements.map]. *)
Definition pair_device (n : nat) (agreement : value) : error + value :=
  if nullish agreement then
    inl (TypeError "Cannot read properties of undefined")
  else
    match device_name n agreement with
    | inl err => inl err
    | inr name =>
        inr (VObj [("name", VStr name);
                   ("data",
                    VObj [("id", prop agreement "displayCommonName");
                          ("agreementId", prop agreement "agreementId")]);
                   ("store", VObj [("apiVersion", VNum (Num 3))])])
    end.

(** [agreements.map(...)]: the devices, or the first error thrown. *)
Fixpoint pair_devices (n : nat) (agreements : list value)
  : error + list value :=
  match agreements with
  | [] => inr []
  | agreement :: agreements =>
      match pair_device n agreement with
      | inl err => inl err
      | inr device =>
          match pair_devices n agreements with
          | inl err => inl err
          | inr devices => inr (device :: devices)
          end
      end
  end.

(** [onPairListDevices({ oAuth2Client })], given how [getAgreements]
    settles: the list of devices, or the error it rejects with. *)
Definition onPairListDevices (getAgreements : outcome value)
  : error + list value :=
  match getAgreements with
  | Failed _ => inl (Error (translate host "pairing.agreement_error" None))
  | Fulfilled agreements =>
      if nullish agreements then
        inl (TypeError "Cannot read properties of undefined (reading 'length')")
      else
        match agreements with
        | VArr items => pair_devices (length items) items
        | _ => inr []
        end
  end.
End WithHost.
End Driver.

(* ================================================================== *)
(** * app.js and api.js: the devices of a display, and the web API *)
(* ================================================================== *)

Module Api.
Section WithHost.
Variable host : Host.
(** [homey.app.login()]. *)
Variable login : App.ToonApp -> outcome unit * App.ToonApp.

(** [getToonDevicesByCommonName(commonName)]. *)
Definition getToonDevicesByCommonName (commonName : string)
    (a : App.ToonApp) : list Device.Device :=
  filter (fun d => Device.data_id d = commonName) (App.devices a).

(** [getLogin({ homey })].  The promise of [isAuthenticated()] is
    returned, not awaited, so its rejection passes the [catch] by. *)
Definition getLogin (a : App.ToonApp) : outcome bool * App.ToonApp :=
  App.isAuthenticated a.

(** [postLogin({ homey, body })]; [body] is [{}] when it is
    [undefined]. *)
Definition postLogin (body : value) (a : App.ToonApp)
  : outcome bool * App.ToonApp :=
  let body := match body with VUndefined => VObj [] | _ => body end in
  if nullish body then
    (Failed (TypeError "Cannot read properties of null (reading 'state')"), a)
  else
    match prop body "state" with
    | VBool true =>
        match login a with
        | (Fulfilled _, a) => (Fulfilled true, a)
        | (Failed err, a) =>
            (Failed (Error (translate host "api.error_login_failed"
                              (Some (message_or_toString err)))), a)
        end
    | VBool false =>
        match App.logout a with
        | (Fulfilled _, a) => (Fulfilled true, a)
        | (Failed err, a) =>
            (Failed (Error (translate host "api.error_logout_failed"
                              (Some (message_or_toString err)))), a)
        end
    | _ => (Failed (Error "Body > State should be a boolean"), a)
    end.
End WithHost.
End Api.

(* ================================================================== *)
(** * drivers/toon/device.js: what a payload and a write amount to *)
(* ================================================================== *)

(** [this.temperatureStatesMap[id] = tempValue] for one entry. *)
Definition keep_state (host : Host) (m : gmap string value) (x : value)
  : gmap string value :=
  <[ToString host (prop x "id") := prop x "tempValue"]> m.

(** The data a payload can replace, apart from the temperatures of the
    presets. *)
Definition readings (d : Device.Device) :=
  (Device.powerUsage d, Device.gasUsage d, Device.thermostatInfo d,
   Device.capabilities d).

(** [data] is [baseline] with the properties of [changes] set and every
    other property as it is in [baseline]. *)
Definition merged (baseline : value) (changes : list (string * value))
    (data : value) : Prop :=
  (forall k v, assoc k changes = Some v -> prop data k = v)
  /\ (forall k, assoc k changes = None ->
        prop data k = prop (VObj (own_props baseline)) k).

(* ================================================================== *)
(** * lib/Util.js: what a trace counts *)
(* ================================================================== *)

Definition is_called (e : Util.event) : bool :=
  match e with Util.Called => true | Util.Waited _ => false end.

(** The executions of the operation, and the timers sat out, in a
    trace. *)
Definition executions (tr : list Util.event) : nat :=
  sum_list_with (fun e => if is_called e then 1 else 0) tr.


(* ================================================================== *)
(** * More concrete inputs *)
(* ================================================================== *)

Module SampleRest.

(** A payload with the temperatures of two presets, and one whose second
    entry is [null]. *)
Definition states_message (state : list value) : value :=
  VObj [("body",
         VObj [("updateDataSet",
                VObj [("thermostatStates", VObj [("state", VArr state)]);
                      ("powerUsage", VObj [("value", VNum (Num 450))])])])].

Definition home_2150 : value :=
  VObj [("id", VNum (Num 1)); ("tempValue", VNum (Num 2150))].

(** Thermostat information as the provider sends it. *)
Definition info : value :=
  VObj [("currentSetpoint", VNum (Num 2000));
        ("currentDisplayTemp", VNum (Num 1950));
        ("programState", VNum (Num 1));
        ("activeState", VNum (Num 1));
        ("nextProgram", VNum (Num 1));
        ("realSetpoint", VNum (Num 2000))].

Definition agreement (name id city : string) : value :=
  VObj [("agreementId", VStr id); ("displayCommonName", VStr name);
        ("street", VStr "Dorpsstraat"); ("houseNumber", VNum (Num 1));
        ("postalCode", VStr "1234AB"); ("city", VStr city)].

(** A debounced function that records nothing and answers with its
    argument. *)
Definition echo (a : nat) (w : unit) : nat * unit := (a, w).

(** A login that fails. *)
Definition no_login (a : App.ToonApp) : outcome unit * App.ToonApp :=
  (Failed Sample.failure, a).

End SampleRest.

(* ================================================================== *)
(** * Views of the device *)
(* ================================================================== *)

(** The fields the event loop and the subscription machinery live in. *)
Definition kernel (d : Device.Device) :=
  (Device.timers d, Device._webhookRegistrationTimeout d,
   Device.next_handle d, Device.tasks d, Device._registeringWebhooks d).

(** The renewal slot, and the subscription state. *)
Definition slot (d : Device.Device) :=
  (Device.timers d, Device._webhookRegistrationTimeout d,
   Device.next_handle d).

Definition subscription (d : Device.Device) :=
  (Device.tasks d, Device._registeringWebhooks d).

(** What an invocation counts for among the attempts. *)
Definition weight (tk : Device.task) : nat :=
  if Device.attempting tk then 1 else 0.

(* ================================================================== *)
(** * The embedding on the examples of the specification *)
(* ================================================================== *)

Example round_tenth_2150 : Device.round_tenth (Num 2150) = Num (43 # 2).
Proof. reflexivity. Qed.

Example getKey_home :
  Device.getKey Device.TEMPERATURE_STATES (Num 1) = VStr "home".
Proof. reflexivity. Qed.

Example getKey_none :
  Device.getKey Device.TEMPERATURE_STATES (Num (-1)) = VStr "none".
Proof. reflexivity. Qed.

Example getKey_unmapped :
  Device.getKey Device.TEMPERATURE_STATES (Num 99) = VUndefined.
Proof. reflexivity. Qed.

Example meter_power_example :
  Device.capabilities
    (Device._processPowerUsageData Sample.host
       (VObj [("dayUsage", VNum (Num 500)); ("dayLowUsage", VNum (Num 300))])
       Sample.device)
  !! "meter_power" = Some (VNum (Num (4 # 5))).
Proof. reflexivity. Qed.

Example meter_gas_example :
  Device.capabilities
    (Device._processGasUsageData Sample.host
       (VObj [("dayUsage", VNum (Num 1000))]) Sample.device)
  !! "meter_gas" = Some (VNum (Num 1)).
Proof. reflexivity. Qed.

Example backoff_first_and_last :
  Util.waitTime Device.backoff 1 = VNum (Num 12000)
  /\ Util.waitTime Device.backoff 10 = VNum (Num 6144000).
Proof. split; reflexivity. Qed.

(* ================================================================== *)
(** * The retry runner *)
(* ================================================================== *)

Section RetryFacts.
Context {W A : Type}.
Variable method : W -> outcome A * W.
Variable times : Z.
Variable interval : Util.interval_policy.
Variable delay : Z -> number.
Hypothesis interval_delay :
  forall n, Util.waitTime interval n = VNum (delay n).


Lemma on_failure_retry retries err :
  (retries < times)%Z ->
  Util.on_failure times interval retries err
  = Util.RetryAfter (retries + 1) (VNum (delay (retries + 1))).
Proof.
  intros Hlt. unfold Util.on_failure.
  destruct (Z.gtb_spec times retries) as [_|Hle]; [|lia].
  by rewrite interval_delay.
Qed.

Lemma on_failure_give_up retries err :
  (times <= retries)%Z ->
  Util.on_failure times interval retries err = Util.GiveUp err.
Proof.
  intros Hle. unfold Util.on_failure.
  destruct (Z.gtb_spec times retries); [lia | done].
Qed.



(** The fuel [wrapAsyncWithRetry] passes is never used up: with it,
    [executeMethod] satisfies the equation of the source's function. *)
Lemma executeMethod_unfold fuel retries w :
  (Z.to_nat (times - retries) <= fuel)%nat ->
  Util.executeMethod method times interval fuel retries w
  = let '(r, w) := method w in
    match r with
    | Fulfilled a => (Util.Resolved a, w, [Util.Called])
    | Failed err =>
        if (times >? retries)%Z then
          let '(s, w, tr) :=
            Util.executeMethod method times interval (pred fuel)
              (retries + 1) w in
          (s, w, Util.Called :: Util.Waited (delay (retries + 1)) :: tr)
        else (Util.Rejected err, w, [Util.Called])
    end.
Proof.
  intros Hfuel. destruct (Z.gtb_spec times retries) as [Hlt|Hle].
  - destruct fuel as [|fuel]; [lia|]. simpl.
    destruct (method w) as [[a|err] w1]; [done|].
    by rewrite on_failure_retry by lia.
  - destruct fuel; simpl; destruct (method w) as [[a|err] w1]; try done;
      by rewrite on_failure_give_up by lia.
Qed.
End RetryFacts.



(* ================================================================== *)
(** * The session manager *)
(* ================================================================== *)

Section AppFacts.
Implicit Types (a : App.ToonApp) (m : gmap string App.Session).

Lemma Object_keys_length m : length (App.Object_keys m) = size m.
Proof.
  unfold App.Object_keys. by rewrite length_fmap, length_map_to_list.
Qed.

Lemma size_1_singleton m :
  size m = 1 -> exists k s, m = {[k := s]}.
Proof.
  intros Hsize. rewrite <- length_map_to_list in Hsize.
  destruct (map_to_list m) as [|[k s] [|? ?]] eqn:Hl; try done.
  exists k, s. rewrite <- (list_to_map_to_list m), Hl. done.
Qed.

Lemma Object_keys_singleton k (s : App.Session) :
  App.Object_keys {[k := s]} = [k].
Proof. unfold App.Object_keys. by rewrite map_to_list_singleton. Qed.

Lemma _getSession_none a :
  App.read_error a = None -> size (App.saved a) = 0 ->
  App._getSession a = (Fulfilled None, App.this_log "_getSession() ->" a).
Proof.
  intros Hread Hsize. unfold App._getSession, App.getSavedOAuth2Sessions.
  by rewrite Hread, Object_keys_length, Hsize.
Qed.

Lemma _getSession_one a :
  App.read_error a = None -> size (App.saved a) = 1 ->
  App._getSession a
  = (Fulfilled (Some (App.saved a)), App.this_log "_getSession() ->" a).
Proof.
  intros Hread Hsize. unfold App._getSession, App.getSavedOAuth2Sessions.
  by rewrite Hread, Object_keys_length, Hsize.
Qed.

Lemma _getSession_many a :
  App.read_error a = None -> 2 <= size (App.saved a) ->
  App._getSession a
  = (Failed (Error "Multiple OAuth2 sessions found, not allowed."), a).
Proof.
  intros Hread Hsize. unfold App._getSession, App.getSavedOAuth2Sessions.
  rewrite Hread, Object_keys_length.
  destruct (Nat.ltb_spec 1 (size (App.saved a))); [done | lia].
Qed.

(** Marking a device unavailable never rejects, and leaves a device that
    is unavailable already as it is. *)
Lemma setUnavailable_idempotent (d : Device.Device) :
  Device.available d = false ->
  Device.setUnavailable d = (Fulfilled (), d).
Proof. intros Hd. destruct d; simpl in *. by subst. Qed.

Lemma Promise_all_setUnavailable (ds : list Device.Device) :
  App.Promise_all ((Device.setUnavailable <$> ds).*1)
  = Fulfilled (replicate (length ds) ()).
Proof. induction ds as [|d ds IH]; csimpl; [done|]. by rewrite IH. Qed.

Lemma setUnavailable_all (ds : list Device.Device) :
  Forall (fun d => Device.available d = false)
    ((Device.setUnavailable <$> ds).*2).
Proof. induction ds; csimpl; constructor; auto. Qed.
End AppFacts.

(** C1.  When the sessions can be read: [isAuthenticated()] resolves with
    [false] for a store of no session and with [true] for a store of one
    session, and rejects for a store of two or more sessions; in each case
    the store is left as it was. *)
Theorem C1_isAuthenticated (a : App.ToonApp) :
  App.read_error a = None ->
  (size (App.saved a) = 0 ->
     (App.isAuthenticated a).1 = Fulfilled false)
  /\ (size (App.saved a) = 1 ->
     (App.isAuthenticated a).1 = Fulfilled true)
  /\ (2 <= size (App.saved a) ->
     (App.isAuthenticated a).1
     = Failed (Error "Could not get current OAuth2 session"))
  /\ App.saved (App.isAuthenticated a).2 = App.saved a.
Proof.
  intros Hread. unfold App.isAuthenticated. repeat split.
  - intros Hsize. by rewrite _getSession_none.
  - intros Hsize. by rewrite _getSession_one.
  - intros Hsize. by rewrite _getSession_many.
  - unfold App._getSession, App.getSavedOAuth2Sessions. rewrite Hread.
    destruct (1 <? _)%nat; done.
Qed.

(** Stores of none, one and two sessions. *)
Lemma C1_isAuthenticated_witness :
  (App.isAuthenticated (Sample.app ∅)).1 = Fulfilled false
  /\ (App.isAuthenticated (Sample.app {["s1" := Sample.session]})).1
     = Fulfilled true
  /\ (App.isAuthenticated
        (Sample.app {["s1" := Sample.session; "s2" := Sample.session]})).1
     = Failed (Error "Could not get current OAuth2 session").
Proof.
  split; [|split].
  - apply (C1_isAuthenticated (Sample.app ∅)); reflexivity.
  - apply (C1_isAuthenticated (Sample.app {["s1" := Sample.session]}));
      reflexivity.
  - apply (C1_isAuthenticated
             (Sample.app {["s1" := Sample.session; "s2" := Sample.session]}));
      [reflexivity | vm_compute; lia].
Defined.

(** C6.  When the sessions can be read: [logout()] rejects for a store of
    no session and changes neither the store nor the devices; for a store
    of one session it resolves, leaves the store empty and every device
    unavailable, and a second [logout()] then rejects with an error.
    Marking an unavailable device unavailable resolves and changes
    nothing. *)
Theorem C6_logout (a : App.ToonApp) :
  App.read_error a = None ->
  (size (App.saved a) = 0 ->
     (App.logout a).1
     = Failed (TypeError "Cannot convert undefined or null to object")
     /\ App.saved (App.logout a).2 = App.saved a
     /\ App.devices (App.logout a).2 = App.devices a)
  /\ (size (App.saved a) = 1 ->
     (App.logout a).1 = Fulfilled (replicate (length (App.devices a)) ())
     /\ App.saved (App.logout a).2 = ∅
     /\ length (App.devices (App.logout a).2) = length (App.devices a)
     /\ Forall (fun d => Device.available d = false)
          (App.devices (App.logout a).2)
     /\ (App.logout (App.logout a).2).1
        = Failed (TypeError "Cannot convert undefined or null to object"))
  /\ (forall d, Device.available d = false ->
        Device.setUnavailable d = (Fulfilled (), d)).
Proof.
  intros Hread.
  assert (Hnone : forall b, App.read_error b = None ->
            size (App.saved b) = 0 ->
            App.logout b
            = (Failed (TypeError "Cannot convert undefined or null to object"),
               App.this_log "_getSession() ->" (App.this_log "logout()" b))).
  { intros b Hb Hsize. unfold App.logout. by rewrite _getSession_none. }
  split; [|split].
  - intros Hsize. by rewrite Hnone.
  - intros Hsize.
    destruct (size_1_singleton _ Hsize) as (k & s & Hm).
    assert (Hout : App.logout a
              = (Fulfilled (replicate (length (App.devices a)) ()),
                 App.with_devices ((Device.setUnavailable <$> App.devices a).*2)
                   (App.deleteOAuth2Client (Some k) (App.saved a !! "configId")
                      (App.this_log "_getSession() ->"
                         (App.this_log "logout()" a))))).
    { unfold App.logout. rewrite _getSession_one by done. simpl.
      rewrite Hm, Object_keys_singleton. simpl.
      by rewrite Promise_all_setUnavailable. }
    rewrite Hout. simpl. rewrite Hm, delete_singleton_eq.
    repeat split.
    + by rewrite !length_fmap.
    + apply setUnavailable_all.
    + rewrite Hnone; [done | done |].
      simpl. by rewrite Hm, delete_singleton_eq.
  - apply setUnavailable_idempotent.
Qed.

(** A store of one session and two devices, one of them unavailable. *)
Lemma C6_logout_witness :
  (App.logout (Sample.app ∅)).1
  = Failed (TypeError "Cannot convert undefined or null to object")
  /\ App.saved (App.logout (Sample.app {["s1" := Sample.session]})).2 = ∅
  /\ Forall (fun d => Device.available d = false)
       (App.devices (App.logout (Sample.app {["s1" := Sample.session]})).2).
Proof.
  split; [|split].
  - apply (C6_logout (Sample.app ∅)); reflexivity.
  - apply (C6_logout (Sample.app {["s1" := Sample.session]})); reflexivity.
  - apply (C6_logout (Sample.app {["s1" := Sample.session]})); reflexivity.
Defined.

(* ================================================================== *)
(** * The device: what each method leaves alone *)
(* ================================================================== *)

Lemma kernel_slot d d' : kernel d' = kernel d -> slot d' = slot d.
Proof. unfold kernel, slot. congruence. Qed.

Lemma kernel_subscription d d' :
  kernel d' = kernel d -> subscription d' = subscription d.
Proof. unfold kernel, subscription. congruence. Qed.

Section Frames.
Variable host : Host.
Implicit Types (d : Device.Device) (data v : value).

Lemma this_log_twice a b d :
  Device.this_log b (Device.this_log a d)
  = Device.with_logs (Device.logs d ++ [Device.Log a; Device.Log b]) d.
Proof.
  unfold Device.this_log. destruct d; simpl. by rewrite <- app_assoc.
Qed.

Lemma this_log_error a b d :
  Device.this_error b (Device.this_log a d)
  = Device.with_logs (Device.logs d ++ [Device.Log a; Device.Err b]) d.
Proof.
  unfold Device.this_log, Device.this_error. destruct d; simpl.
  by rewrite <- app_assoc.
Qed.

Lemma kernel_log a d : kernel (Device.this_log a d) = kernel d.
Proof. done. Qed.

Lemma kernel_error a d : kernel (Device.this_error a d) = kernel d.
Proof. done. Qed.

Lemma kernel_call r d : kernel (Device.call r d) = kernel d.
Proof. done. Qed.

Lemma kernel_set c v d :
  kernel (Device.catch_error (Device.setCapabilityValue host c v d))
  = kernel d.
Proof.
  unfold Device.setCapabilityValue.
  by destruct (Device.hasCapability c d && capability_accepts host c v).
Qed.

Lemma kernel_add c d :
  kernel (Device.catch_error (Device.addCapability c d)) = kernel d.
Proof.
  unfold Device.addCapability. by destruct (Device.hasCapability c d).
Qed.

Ltac frame :=
  repeat first
    [ rewrite kernel_set | rewrite kernel_add | rewrite kernel_log
    | rewrite kernel_error | rewrite kernel_call ].

Lemma kernel_power data d :
  kernel (Device._processPowerUsageData host data d) = kernel d.
Proof.
  unfold Device._processPowerUsageData. repeat case_match; by frame.
Qed.

Lemma kernel_gas data d :
  kernel (Device._processGasUsageData host data d) = kernel d.
Proof.
  unfold Device._processGasUsageData. repeat case_match; by frame.
Qed.

Lemma kernel_thermostat data d :
  kernel (Device._processThermostatInfoData host data d) = kernel d.
Proof.
  unfold Device._processThermostatInfoData. repeat case_match; by frame.
Qed.

Lemma kernel_states state :
  forall d, kernel (Device.store_states host state d).2 = kernel d.
Proof.
  induction state as [|x state IH]; intros d; simpl; [done|].
  destruct (nullish x); [done|]. by rewrite IH.
Qed.

Lemma kernel_updateState state keepProgram put d :
  kernel (Device.updateState host state keepProgram put d).2 = kernel d.
Proof.
  unfold Device.updateState, Device.setCapabilityValue.
  repeat case_match; simplify_eq; done.
Qed.

Lemma kernel_setTargetTemperature temperature put d :
  kernel (Device.setTargetTemperature host temperature put d).2 = kernel d.
Proof.
  unfold Device.setTargetTemperature.
  repeat case_match; simpl; by frame.
Qed.
End Frames.

(* ================================================================== *)
(** * The renewal timer *)
(* ================================================================== *)

Section Renewal.
Variable host : Host.
Implicit Types (d : Device.Device) (data body : value).

Lemma single_slot_ext d d' :
  slot d' = slot d -> Device.single_slot d -> Device.single_slot d'.
Proof.
  unfold slot, Device.single_slot. intros [= Ht Hh Hn].
  by rewrite Ht, Hh, Hn.
Qed.

Lemma single_slot_fresh id agreement client caps :
  Device.single_slot (Device.fresh id agreement client caps).
Proof.
  split; simpl; [lia|]. split; intros t Ht; by apply elem_of_nil in Ht.
Qed.

Lemma clearTimeout_single_slot x d :
  Device.single_slot d -> Device.single_slot (Device.clearTimeout x d).
Proof.
  intros (Hlen & Hin & Hold). destruct x as [h|]; [|done].
  split; [|split]; simpl.
  - etrans; [apply length_filter | done].
  - intros t [_ Ht]%list_elem_of_filter. by apply Hin.
  - intros t [_ Ht]%list_elem_of_filter. by apply Hold.
Qed.

Lemma clearTimeout_subscription x d :
  subscription (Device.clearTimeout x d) = subscription d.
Proof. by destruct x. Qed.

(** Clearing the held handle leaves no timer. *)
Lemma clearTimeout_held d h :
  Device.single_slot d ->
  Device._webhookRegistrationTimeout d = Some h ->
  Device.timers (Device.clearTimeout (Some h) d) = [].
Proof.
  intros (_ & Hin & _) Hh. simpl.
  destruct (filter _ _) as [|t ts] eqn:Hf; [done|].
  assert (Ht : t ∈ filter (fun t => Device.handle t ≠ h) (Device.timers d))
    by (rewrite Hf; left).
  apply list_elem_of_filter in Ht as [Hne Ht].
  specialize (Hin t Ht). congruence.
Qed.

Lemma single_slot_unheld d :
  Device.single_slot d ->
  Device._webhookRegistrationTimeout d = None ->
  Device.timers d = [].
Proof.
  intros (_ & Hin & _) Hh. destruct (Device.timers d) as [|t ts]; [done|].
  specialize (Hin t ltac:(left)). congruence.
Qed.

(** Arming: the held timer goes, one timer comes. *)
Lemma arm_renewal_timers body d ttl :
  Device.single_slot d ->
  prop body "timeToLiveSeconds" = VNum ttl ->
  slot (Device.arm_renewal body d)
  = ([{| Device.handle := Device.next_handle d;
         Device.delay := num_mul ttl (Num 1000) |}],
     Some (Device.next_handle d), S (Device.next_handle d)).
Proof.
  intros Hd Hb. unfold Device.arm_renewal. rewrite Hb.
  destruct (Device._webhookRegistrationTimeout d) as [h|] eqn:Hh.
  - unfold slot, Device.setTimeout.
    rewrite (clearTimeout_held d h Hd Hh). done.
  - unfold slot, Device.setTimeout.
    by rewrite (single_slot_unheld d Hd Hh).
Qed.

Lemma arm_renewal_single_slot body d :
  Device.single_slot d -> Device.single_slot (Device.arm_renewal body d).
Proof.
  intros Hd.
  destruct (prop body "timeToLiveSeconds") as [| | |ttl| | |] eqn:Hb;
    try (unfold Device.arm_renewal; by rewrite Hb).
  pose proof (arm_renewal_timers body d ttl Hd Hb) as [= Ht Hh Hn].
  split; [|split]; rewrite Ht, ?Hh, ?Hn; simpl; [lia| |].
  - by intros t ->%list_elem_of_singleton.
  - intros t ->%list_elem_of_singleton. simpl. lia.
Qed.

Lemma arm_renewal_subscription body d :
  subscription (Device.arm_renewal body d) = subscription d.
Proof.
  unfold Device.arm_renewal, Device.setTimeout.
  repeat case_match; simplify_eq; done.
Qed.

Lemma arm_renewal_logged body a d :
  kernel (Device.arm_renewal body (Device.this_log a d))
  = kernel (Device.arm_renewal body d).
Proof.
  unfold Device.arm_renewal, Device.setTimeout. destruct d; simpl.
  repeat case_match; simplify_eq; done.
Qed.

Lemma kernel_keep root d :
  kernel (Device.keep_thermostatStates host root d).2 = kernel d.
Proof.
  unfold Device.keep_thermostatStates.
  repeat case_match; by rewrite ?kernel_states.
Qed.

Lemma kernel_sections root d :
  kernel (Device.process_sections host root d) = kernel d.
Proof.
  unfold Device.process_sections.
  repeat case_match;
    by rewrite ?kernel_thermostat, ?kernel_gas, ?kernel_power.
Qed.

(** The kernel [processStatusUpdate] leaves: that of [arm_renewal] for a
    payload it accepts, the one it found otherwise. *)
Lemma processStatusUpdate_kernel data d :
  kernel (Device.processStatusUpdate host data d).2
  = if Device.accepted data d
    then kernel (Device.arm_renewal (prop data "body") d)
    else kernel d.
Proof.
  unfold Device.processStatusUpdate, Device.accepted.
  destruct (truthy data && truthy (prop data "body")
            && truthy (prop (prop data "body") "updateDataSet")); [|done].
  cbv zeta. rewrite andb_true_l.
  change (Device.from_other_display (prop data "body")
            (Device.this_log "data.body"
               (Device.this_log "processStatusUpdate" d)))
    with (Device.from_other_display (prop data "body") d).
  destruct (Device.from_other_display (prop data "body") d); [done|].
  rewrite <- (arm_renewal_logged _ "processStatusUpdate" d).
  rewrite <- (arm_renewal_logged _ "data.body").
  cbv zeta.
  destruct (Device.keep_thermostatStates host _ _) as [[err|] d1] eqn:Hk;
    apply (f_equal snd) in Hk; simpl in *; subst d1;
    by rewrite ?kernel_sections, kernel_keep.
Qed.
End Renewal.

(* ================================================================== *)
(** * The webhook subscription *)
(* ================================================================== *)

Section Subscription.
Variable host : Host.
Implicit Types (d : Device.Device) (tk : Device.task).

Lemma sum_list_with_insert {A} (f : A -> nat) (l : list A) i x y :
  l !! i = Some y ->
  sum_list_with f (<[i := x]> l) + f y = sum_list_with f l + f x.
Proof.
  revert i. induction l as [|z l IH]; intros [|i] Hi; simplify_eq/=.
  - lia.
  - specialize (IH i Hi). lia.
Qed.

Lemma attempts_put t tk0 tk d :
  Device.tasks d !! t = Some tk0 ->
  Device.attempts (Device.put_task t tk d) + weight tk0
  = Device.attempts d + weight tk.
Proof. intros Ht. by apply sum_list_with_insert. Qed.

Lemma attempts_new tk d :
  Device.attempts (Device.with_tasks (Device.tasks d ++ [tk]) d)
  = Device.attempts d + weight tk.
Proof.
  unfold Device.attempts. simpl. rewrite sum_list_with_app. simpl.
  unfold weight. lia.
Qed.

Lemma weight_suspend tk at_ :
  weight (Device.suspend tk at_)
  = match at_ with
    | Device.AwaitSubscribe | Device.AwaitBackoff _ => 1
    | _ => 0
    end.
Proof. by destruct at_. Qed.

(** ** The subscription machinery leaves the renewal slot alone *)

Lemma slot_method_failed t tk err d :
  slot (Device.method_failed t tk err d) = slot d.
Proof. unfold Device.method_failed. by repeat case_match. Qed.

Lemma slot_method_start t tk d :
  slot (Device.method_start t tk d) = slot d.
Proof.
  unfold Device.method_start. case_match; [done|].
  by rewrite slot_method_failed.
Qed.

Lemma slot_register d :
  slot (Device.registerWebhookSubscription d) = slot d.
Proof.
  unfold Device.registerWebhookSubscription. cbv zeta.
  case_match; [done|]. by rewrite slot_method_start.
Qed.

Lemma slot_resume t o d : slot (Device.resume host t o d) = slot d.
Proof.
  unfold Device.resume.
  repeat case_match; rewrite ?slot_method_failed, ?slot_method_start; done.
Qed.

(** ** The guard *)

(** With the flag up, an invocation returns where it stands: it is
    recorded as returned, and nothing else changes; in particular no
    request goes out. *)
Lemma register_guard d :
  Device._registeringWebhooks d = true ->
  Device.registerWebhookSubscription d
  = Device.with_tasks
      (Device.tasks d
       ++ [{| Device.task_i := 0; Device.task_retries := 0;
              Device.task_pc := Device.Returned (Fulfilled ()) |}]) d.
Proof.
  intros Hflag. unfold Device.registerWebhookSubscription. cbv zeta.
  simpl. by rewrite Hflag.
Qed.

(** ** One attempt at a time, while [setWarning(null)] is accepted *)

Lemma method_failed_attempt t tk0 tk err d :
  Device.tasks d !! t = Some tk0 ->
  Device.attempting tk0 = true ->
  Device.single_attempt d ->
  Device.single_attempt (Device.method_failed t tk err d).
Proof.
  intros Ht Hw [Hle Hflag]. unfold Device.method_failed.
  assert (Hw0 : weight tk0 = 1) by (unfold weight; by rewrite Hw).
  repeat case_match; unfold Device.single_attempt; simpl;
    match goal with
    | |- context [Device.put_task t ?x ?y] =>
        pose proof (attempts_put t tk0 x y Ht) as Hput
    end;
    rewrite weight_suspend in Hput;
    change (Device.attempts (Device.with_registeringWebhooks _ ?y))
      with (Device.attempts y) in *;
    change (Device.attempts (Device.this_error _ ?y))
      with (Device.attempts y) in *;
    split; try intros Hf; try lia.
  specialize (Hflag Hf). lia.
Qed.

Lemma method_start_attempt t tk0 tk d :
  Device.tasks d !! t = Some tk0 ->
  Device.attempting tk0 = true ->
  Device.single_attempt d ->
  Device.single_attempt (Device.method_start t tk d).
Proof.
  intros Ht Hw Hd. unfold Device.method_start. case_match.
  - destruct Hd as [Hle Hflag].
    assert (Hw0 : weight tk0 = 1) by (unfold weight; by rewrite Hw).
    match goal with
    | |- context [Device.put_task t ?x ?y] =>
        pose proof (attempts_put t tk0 x y Ht) as Hput
    end.
    rewrite weight_suspend in Hput.
    change (Device.attempts (Device.call _ (Device.this_log _ d)))
      with (Device.attempts d) in Hput.
    split; [lia|]. intros Hf. specialize (Hflag Hf). lia.
  - by apply (method_failed_attempt t tk0).
Qed.
End Subscription.

Section Machine.
Variable host : Host.
Implicit Types (d : Device.Device) (e : Device.event).

Lemma single_attempt_ext d d' :
  subscription d' = subscription d ->
  Device.single_attempt d -> Device.single_attempt d'.
Proof.
  unfold subscription, Device.single_attempt, Device.attempts.
  intros [= Ht Hf]. by rewrite Ht, Hf.
Qed.

Lemma single_attempt_fresh id agreement client caps :
  Device.single_attempt (Device.fresh id agreement client caps).
Proof. split; [unfold Device.attempts; simpl; lia | done]. Qed.

Lemma register_attempt d :
  Device.single_attempt d ->
  Device.single_attempt (Device.registerWebhookSubscription d).
Proof.
  intros [Hle Hflag].
  destruct (Device._registeringWebhooks d) eqn:Hf.
  - rewrite register_guard by done. split.
    + rewrite attempts_new. unfold weight. simpl. lia.
    + simpl. congruence.
  - specialize (Hflag eq_refl).
    unfold Device.registerWebhookSubscription. cbv zeta. simpl.
    rewrite Hf.
    set (tk := {| Device.task_i := 0; Device.task_retries := 0;
                  Device.task_pc := Device.Returned (Fulfilled ()) |}).
    set (d1 := Device.with_registeringWebhooks true
                 (Device.with_tasks (Device.tasks d ++ [tk]) d)).
    assert (Ht : Device.tasks d1 !! length (Device.tasks d) = Some tk).
    { simpl. by rewrite lookup_app_r, Nat.sub_diag by lia. }
    assert (H1 : Device.attempts d1 = 0).
    { change (Device.attempts d1)
        with (Device.attempts
                (Device.with_tasks (Device.tasks d ++ [tk]) d)).
      rewrite attempts_new. unfold weight. simpl. lia. }
    unfold Device.method_start. case_match.
    + match goal with
      | |- context [Device.put_task ?t ?x ?y] =>
          pose proof (attempts_put t tk x y Ht) as Hput
      end.
      rewrite weight_suspend in Hput.
      change (Device.attempts (Device.call _ (Device.this_log _ d1)))
        with (Device.attempts d1) in Hput.
      change (weight tk) with 0 in Hput. split; [lia | done].
    + unfold Device.method_failed.
      repeat case_match;
        match goal with
        | |- context [Device.put_task ?t ?x ?y] =>
            pose proof (attempts_put t tk x y Ht) as Hput
        end;
        rewrite weight_suspend in Hput;
        change (Device.attempts (Device.with_registeringWebhooks _ ?y))
          with (Device.attempts y) in *;
        change (Device.attempts (Device.this_error _ ?y))
          with (Device.attempts y) in *;
        change (Device.attempts (Device.this_log _ ?y))
          with (Device.attempts y) in *;
        change (weight tk) with 0 in Hput;
        (split; [lia | intros Hfl; first [lia | by simpl in Hfl]]).
Qed.

Lemma resume_attempt t o d :
  Device.unset_warning_rejected d (Device.Settled t o) = false ->
  Device.single_attempt d ->
  Device.single_attempt (Device.resume host t o d).
Proof.
  intros Hok Hd. unfold Device.resume. simpl in Hok.
  destruct (Device.tasks d !! t) as [tk|] eqn:Ht; [|done].
  destruct (Device.task_pc tk) as [| |ms|err0| |r] eqn:Hpc; try done.
  - (* the subscribe call settles *)
    assert (Hw : Device.attempting tk = true)
      by (unfold Device.attempting; by rewrite Hpc).
    destruct o as [[]|err].
    + destruct Hd as [Hle Hflag].
      pose proof (attempts_put t tk
                    (Device.suspend tk Device.AwaitUnsetWarning)
                    (Device.with_registeringWebhooks false d) Ht) as Hput.
      rewrite weight_suspend in Hput. unfold weight in Hput.
      rewrite Hw in Hput.
      change (Device.attempts (Device.with_registeringWebhooks false d))
        with (Device.attempts d) in Hput.
      split; [lia | intros _; lia].
    + by apply (method_failed_attempt t tk).
  - (* setWarning(null) settles *)
    destruct o as [[]|err]; [|done].
    destruct Hd as [Hle Hflag].
    pose proof (attempts_put t tk
                  (Device.suspend tk (Device.Returned (Fulfilled ())))
                  (Device.with_warning None d) Ht) as Hput.
    rewrite weight_suspend in Hput. unfold weight in Hput.
    assert (Hw : Device.attempting tk = false)
      by (unfold Device.attempting; by rewrite Hpc).
    rewrite Hw in Hput.
    change (Device.attempts (Device.with_warning None d))
      with (Device.attempts d) in Hput.
    split; [lia|]. intros Hf. specialize (Hflag Hf). lia.
  - (* the back-off timer ends *)
    assert (Hw : Device.attempting tk = true)
      by (unfold Device.attempting; by rewrite Hpc).
    assert (Hgoal : Device.single_attempt (Device.method_start t tk d))
      by (by apply (method_start_attempt t tk)).
    by destruct o.
  - (* setWarning(message) settles *)
    assert (Hw : Device.attempting tk = false)
      by (unfold Device.attempting; by rewrite Hpc).
    destruct Hd as [Hle Hflag].
    destruct o as [[]|err];
      match goal with
      | |- context [Device.put_task t ?x ?y] =>
          pose proof (attempts_put t tk x y Ht) as Hput
      end;
      rewrite weight_suspend in Hput; unfold weight in Hput;
      rewrite Hw in Hput;
      change (Device.attempts (Device.with_warning _ d))
        with (Device.attempts d) in Hput;
      (split; [lia|]; intros Hf; specialize (Hflag Hf); lia).
Qed.

(** ** What the other methods do to the renewal slot and to the
    subscription *)

Lemma processStatusUpdate_single_slot data d :
  Device.single_slot d ->
  Device.single_slot (Device.processStatusUpdate host data d).2.
Proof.
  intros Hd. pose proof (processStatusUpdate_kernel host data d) as Hk.
  destruct (Device.accepted data d).
  - apply (single_slot_ext (Device.arm_renewal (prop data "body") d));
      [by apply kernel_slot | by apply arm_renewal_single_slot].
  - by apply (single_slot_ext d); [apply kernel_slot|].
Qed.

Lemma processStatusUpdate_subscription data d :
  subscription (Device.processStatusUpdate host data d).2 = subscription d.
Proof.
  pose proof (processStatusUpdate_kernel host data d) as Hk.
  destruct (Device.accepted data d).
  - rewrite <- (arm_renewal_subscription (prop data "body") d).
    by apply kernel_subscription.
  - by apply kernel_subscription.
Qed.

Lemma getStatusUpdate_single_slot status d :
  Device.single_slot d ->
  Device.single_slot (Device.getStatusUpdate host status d).
Proof.
  intros Hd. unfold Device.getStatusUpdate. cbv zeta.
  destruct (Device.oAuth2Client _); [|done].
  destruct status as [data|err]; [|done].
  set (d0 := Device.call _ _).
  pose proof (processStatusUpdate_single_slot
                (VObj [("body", VObj [("updateDataSet", data)])]) d0 Hd)
    as Hp.
  by destruct (Device.processStatusUpdate host _ d0) as [[err|] d1].
Qed.

Lemma getStatusUpdate_subscription status d :
  subscription (Device.getStatusUpdate host status d) = subscription d.
Proof.
  unfold Device.getStatusUpdate. cbv zeta.
  destruct (Device.oAuth2Client _); [|done].
  destruct status as [data|err]; [|done].
  set (d0 := Device.call _ _).
  pose proof (processStatusUpdate_subscription
                (VObj [("body", VObj [("updateDataSet", data)])]) d0)
    as Hp.
  by destruct (Device.processStatusUpdate host _ d0) as [[err|] d1].
Qed.

Lemma onOAuth2Deleted_single_slot unsubscribe d :
  Device.single_slot d ->
  Device.single_slot (Device.onOAuth2Deleted unsubscribe d).2.
Proof.
  intros Hd. unfold Device.onOAuth2Deleted. cbv zeta.
  repeat case_match; simplify_eq; simpl; try done;
    apply clearTimeout_single_slot; exact Hd.
Qed.

Lemma onOAuth2Deleted_subscription unsubscribe d :
  subscription (Device.onOAuth2Deleted unsubscribe d).2 = subscription d.
Proof.
  unfold Device.onOAuth2Deleted. cbv zeta.
  repeat case_match; simplify_eq; simpl; try done;
    by destruct (Device._webhookRegistrationTimeout d).
Qed.

(** ** The invariants of the transition system *)

Lemma step_single_slot d e :
  Device.single_slot d -> Device.single_slot (Device.step host d e).
Proof.
  intros Hd. destruct e as [|h|t o|data|status|s k p|temp p|u]; simpl.
  - by apply (single_slot_ext d); [apply slot_register|].
  - case_bool_decide; [|done].
    apply (single_slot_ext (Device.clearTimeout (Some h) d));
      [apply slot_register | by apply clearTimeout_single_slot].
  - by apply (single_slot_ext d); [apply slot_resume|].
  - by apply processStatusUpdate_single_slot.
  - by apply getStatusUpdate_single_slot.
  - apply (single_slot_ext d); [|done].
    apply kernel_slot, kernel_updateState.
  - apply (single_slot_ext d); [|done].
    apply kernel_slot, kernel_setTargetTemperature.
  - by apply onOAuth2Deleted_single_slot.
Qed.

Lemma run_single_slot es :
  forall d, Device.single_slot d ->
    Device.single_slot (Device.run host d es).
Proof.
  induction es as [|e es IH]; intros d Hd; simpl; [done|].
  by apply IH, step_single_slot.
Qed.

Lemma step_single_attempt d e :
  Device.unset_warning_rejected d e = false ->
  Device.single_attempt d -> Device.single_attempt (Device.step host d e).
Proof.
  intros Hok Hd.
  destruct e as [|h|t o|data|status|s k p|temp p|u]; simpl.
  - by apply register_attempt.
  - case_bool_decide; [|done]. apply register_attempt.
    by apply (single_attempt_ext d);
      [apply (clearTimeout_subscription (Some h) d)|].
  - by apply resume_attempt.
  - by apply (single_attempt_ext d);
      [apply processStatusUpdate_subscription|].
  - by apply (single_attempt_ext d);
      [apply getStatusUpdate_subscription|].
  - apply (single_attempt_ext d); [|done].
    apply kernel_subscription, kernel_updateState.
  - apply (single_attempt_ext d); [|done].
    apply kernel_subscription, kernel_setTargetTemperature.
  - by apply (single_attempt_ext d);
      [apply onOAuth2Deleted_subscription|].
Qed.

(** While Homey accepts every [setWarning(null)], one invocation at most
    is attempting to subscribe. *)
Lemma run_single_attempt es :
  forall d, Device.single_attempt d ->
    Device.unset_warning_kept host d es = true ->
    Device.single_attempt (Device.run host d es).
Proof.
  induction es as [|e es IH]; intros d Hd Hes; simpl in *; [done|].
  apply andb_true_iff in Hes as [He Hes].
  apply negb_true_iff in He. by apply IH; [apply step_single_attempt|].
Qed.
End Machine.

(* ================================================================== *)
(** * The properties of the device *)
(* ================================================================== *)

(** C2.  The guard does not keep invocations apart when Homey rejects
    [setWarning(null)]: the closure has lowered the flag by then, the
    retry loop runs it again, and an invocation that arrives meanwhile
    starts a loop of its own.  After the events of [Sample.overlap] two
    invocations wait for the provider's answer to a subscribe call, and
    three subscribe calls have gone out. *)
Theorem C2_overlapping_attempts :
  let d := Device.run Sample.host Sample.device Sample.overlap in
  Device.pending_subscribes d = 2
  /\ Device.attempts d = 2
  /\ Device.requests d
     = [Device.Subscribe "agreement-1"; Device.Subscribe "agreement-1";
        Device.Subscribe "agreement-1"]
  /\ Device.unset_warning_kept Sample.host Sample.device Sample.overlap
     = false.
Proof. vm_compute. done. Qed.

(** C4.  In every state the device reaches, an accepted payload with a
    numeric [timeToLiveSeconds] leaves exactly one renewal timer: a new
    one, of that many seconds, held by the device, whose callback is
    [registerWebhookSubscription]; the timer pending before is gone.  In
    every state the device reaches at most one renewal timer is
    pending. *)
Theorem C4_renewal_timer (host : Host) id agreement client caps
    (es : list Device.event) (data : value) (ttl : number) :
  let d := Device.run host (Device.fresh id agreement client caps) es in
  let d' := (Device.processStatusUpdate host data d).2 in
  Device.accepted data d = true ->
  prop (prop data "body") "timeToLiveSeconds" = VNum ttl ->
  Device.timers d'
  = [{| Device.handle := Device.next_handle d;
        Device.delay := num_mul ttl (Num 1000) |}]
  /\ Device._webhookRegistrationTimeout d' = Some (Device.next_handle d)
  /\ (forall t, t ∈ Device.timers d -> t ∉ Device.timers d')
  /\ Device.step host d' (Device.TimerFired (Device.next_handle d))
     = Device.registerWebhookSubscription
         (Device.clearTimeout (Some (Device.next_handle d)) d')
  /\ length (Device.timers d) <= 1.
Proof.
  intros d d' Hacc Httl.
  assert (Hd : Device.single_slot d)
    by apply run_single_slot, single_slot_fresh.
  pose proof (processStatusUpdate_kernel host data d) as Hk.
  rewrite Hacc in Hk. apply kernel_slot in Hk.
  rewrite (arm_renewal_timers _ d ttl Hd Httl) in Hk.
  fold d' in Hk. injection Hk as Ht Hh Hn.
  split; [done|]. split; [done|]. split; [|split].
  - intros t Hin. rewrite Ht. intros ->%list_elem_of_singleton.
    destruct Hd as (_ & _ & Hold). specialize (Hold _ Hin). simpl in Hold.
    lia.
  - simpl. rewrite Ht. rewrite bool_decide_eq_true_2; [done|].
    simpl. by left.
  - apply Hd.
Qed.

(** A second lease: the timer of the first one goes. *)
Lemma C4_renewal_timer_witness :
  Device.timers Sample.leased_device
  = [{| Device.handle := 0; Device.delay := Num 3600000 |}]
  /\ Device.timers
       (Device.processStatusUpdate Sample.host Sample.message
          Sample.leased_device).2
     = [{| Device.handle := 1; Device.delay := Num 3600000 |}].
Proof.
  split; [reflexivity|].
  apply (C4_renewal_timer Sample.host "eneco-001-123456" "agreement-1" true
           Sample.thermostat_capabilities [Device.Message Sample.message]
           Sample.message (Num 3600)); reflexivity.
Defined.

(** C5.  A payload whose body has a string [commonName] other than the
    display's changes nothing but the log: no timer is armed, and the
    stored data and the capabilities are the ones before. *)
Theorem C5_other_display (host : Host) (data : value) (d : Device.Device)
    (commonName : string) :
  let d' := (Device.processStatusUpdate host data d).2 in
  prop (prop data "body") "commonName" = VStr commonName ->
  commonName <> Device.data_id d ->
  (exists entries,
     Device.processStatusUpdate host data d
     = (None, Device.with_logs (Device.logs d ++ entries) d))
  /\ Device.timers d' = Device.timers d
  /\ Device._webhookRegistrationTimeout d'
     = Device._webhookRegistrationTimeout d
  /\ Device.temperatureStatesMap d' = Device.temperatureStatesMap d
  /\ Device.powerUsage d' = Device.powerUsage d
  /\ Device.gasUsage d' = Device.gasUsage d
  /\ Device.thermostatInfo d' = Device.thermostatInfo d
  /\ Device.capabilities d' = Device.capabilities d.
Proof.
  intros d' Hname Hne.
  assert (Hout : exists entries,
            Device.processStatusUpdate host data d
            = (None, Device.with_logs (Device.logs d ++ entries) d)).
  { unfold Device.processStatusUpdate. cbv zeta.
    destruct (truthy data && truthy (prop data "body")
              && truthy (prop (prop data "body") "updateDataSet")).
    - unfold Device.from_other_display. rewrite Hname. simpl.
      destruct (String.eqb_spec commonName (Device.data_id d)); [done|].
      simpl. eexists. by rewrite this_log_twice.
    - by eexists. }
  split; [done|]. destruct Hout as [entries Hout].
  subst d'. by rewrite Hout.
Qed.

(** A message of another display reaches a device with a pending timer
    and stored data. *)
Lemma C5_other_display_witness :
  Device.timers
    (Device.processStatusUpdate Sample.host Sample.foreign_message
       Sample.leased_device).2
  = Device.timers Sample.leased_device
  /\ Device.capabilities
       (Device.processStatusUpdate Sample.host Sample.foreign_message
          Sample.leased_device).2
     = Device.capabilities Sample.leased_device.
Proof.
  split;
    apply (C5_other_display Sample.host Sample.foreign_message
             Sample.leased_device "eneco-001-999999");
    solve [reflexivity | discriminate].
Defined.

(** C7.  When the device has a client and the unsubscribe call fails,
    [onOAuth2Deleted] rejects with that failure: nothing is logged as an
    error, and [clearTimeout] is not reached, so the renewal timer stays
    pending. *)
Theorem C7_unsubscribe_failure (d : Device.Device) (err : error) :
  Device.oAuth2Client d = true ->
  Device.onOAuth2Deleted (Failed err) d
  = (Failed err,
     Device.call (Device.Unsubscribe (Device.agreementId d))
       (Device.this_log "onOAuth2Deleted()" d))
  /\ Device.timers (Device.onOAuth2Deleted (Failed err) d).2
     = Device.timers d
  /\ Device.logs (Device.onOAuth2Deleted (Failed err) d).2
     = (Device.logs d ++ [Device.Log "onOAuth2Deleted()"])%list.
Proof.
  intros Hclient. unfold Device.onOAuth2Deleted. cbv zeta. simpl.
  by rewrite Hclient.
Qed.

(** The removal of a device whose lease is running. *)
Lemma C7_unsubscribe_failure_witness :
  (Device.onOAuth2Deleted (Failed Sample.failure) Sample.leased_device).1
  = Failed Sample.failure
  /\ Device.timers
       (Device.onOAuth2Deleted (Failed Sample.failure)
          Sample.leased_device).2
     = [{| Device.handle := 0; Device.delay := Num 3600000 |}].
Proof.
  pose proof (C7_unsubscribe_failure Sample.leased_device Sample.failure
                eq_refl) as (Hout & Htimers & _).
  split; [by rewrite Hout | by rewrite Htimers].
Defined.

(** When the unsubscribe call succeeds, or there is no client, the timer
    the device holds is cleared. *)
Lemma onOAuth2Deleted_clears (d : Device.Device) :
  Device.single_slot d ->
  Device.timers (Device.onOAuth2Deleted (Fulfilled ()) d).2 = [].
Proof.
  intros Hd. unfold Device.onOAuth2Deleted. cbv zeta.
  destruct (Device.oAuth2Client _); simpl;
    (destruct (Device._webhookRegistrationTimeout d) as [h|] eqn:Hh;
     [by apply (clearTimeout_held d h) | by apply single_slot_unheld]).
Qed.

(** C10.  For a temperature that is not a number, [setTargetTemperature]
    rejects and changes nothing but the log: no capability is set and no
    request goes out. *)
Theorem C10_invalid_temperature (host : Host) (temperature : value)
    (put : outcome unit) (d : Device.Device) :
  is_number temperature = false ->
  Device.setTargetTemperature host temperature put d
  = (Failed (Error (translate host "capability.error_set_target_temperature"
                      (Some "invalid_temperature"))),
     Device.with_logs
       (Device.logs d
        ++ [Device.Log "setTargetTemperature() ->";
            Device.Err "setTargetTemperature() -> error, invalid temperature"])
       d)
  /\ Device.capabilities (Device.setTargetTemperature host temperature put d).2
     = Device.capabilities d
  /\ Device.requests (Device.setTargetTemperature host temperature put d).2
     = Device.requests d.
Proof.
  intros Hnum. unfold Device.setTargetTemperature. cbv zeta.
  rewrite Hnum. simpl. by rewrite this_log_error.
Qed.

(** The string ["21"] is not a number. *)
Lemma C10_invalid_temperature_witness :
  Device.capabilities
    (Device.setTargetTemperature Sample.host (VStr "21") (Fulfilled ())
       Sample.device).2
  = Device.capabilities Sample.device
  /\ Device.requests
       (Device.setTargetTemperature Sample.host (VStr "21") (Fulfilled ())
          Sample.device).2
     = [].
Proof.
  pose proof (C10_invalid_temperature Sample.host (VStr "21") (Fulfilled ())
                Sample.device eq_refl) as (_ & Hcaps & Hreqs).
  split; [exact Hcaps | exact Hreqs].
Defined.

Section Capabilities.
Variable host : Host.
Implicit Types (d : Device.Device) (c : string) (v : value).

Lemma hasCapability_lookup c d :
  Device.hasCapability c d = true <-> is_Some (Device.capabilities d !! c).
Proof. unfold Device.hasCapability. by rewrite bool_decide_eq_true. Qed.

(** Setting one capability leaves the others, and the set of
    capabilities, as they were. *)
Lemma set_other c c' v d :
  c <> c' ->
  Device.capabilities
    (Device.catch_error (Device.setCapabilityValue host c v d)) !! c'
  = Device.capabilities d !! c'.
Proof.
  intros Hne. unfold Device.setCapabilityValue.
  destruct (Device.hasCapability c d && capability_accepts host c v);
    simpl; [|done].
  by rewrite lookup_insert_ne.
Qed.

Lemma set_accepted c v d :
  Device.hasCapability c d = true ->
  capability_accepts host c v = true ->
  Device.setCapabilityValue host c v d
  = (Fulfilled (),
     Device.with_capabilities (<[c := v]> (Device.capabilities d)) d).
Proof.
  intros Hhas Hacc. unfold Device.setCapabilityValue.
  by rewrite Hhas, Hacc.
Qed.

(** The capabilities before the humidity is looked at. *)
Lemma thermostat_prefix_humidity data d :
  let d0 := Device.with_thermostatInfo data d in
  let d1 :=
    match prop data "currentDisplayTemp" with
    | VNum n =>
        Device.catch_error
          (Device.setCapabilityValue host "measure_temperature"
             (VNum (Device.round_tenth n)) d0)
    | _ => d0
    end in
  let d2 :=
    match prop data "currentSetpoint" with
    | VNum n =>
        Device.catch_error
          (Device.setCapabilityValue host "target_temperature"
             (VNum (Device.round_tenth n)) d1)
    | _ => d1
    end in
  let d3 :=
    match prop data "activeState" with
    | VNum n =>
        Device.catch_error
          (Device.setCapabilityValue host "temperature_state"
             (Device.getKey Device.TEMPERATURE_STATES n) d2)
    | _ => d2
    end in
  Device.capabilities d3 !! "measure_humidity"
  = Device.capabilities d !! "measure_humidity".
Proof.
  intros d0 d1 d2 d3. subst d3 d2 d1 d0.
  repeat case_match; rewrite ?set_other by done; done.
Qed.
End Capabilities.

(** The claim C8, as the specification states it, fails on a device
    without the humidity capability: after the message the capability
    exists and has no value. *)
Lemma C8_humidity_counterexample :
  Device.hasCapability "measure_humidity" Sample.device = false
  /\ prop (prop (prop (prop Sample.message "body") "updateDataSet")
             "thermostatInfo") "currentHumidity"
     = VNum (Num 55)
  /\ Device.capabilities
       (Device.processStatusUpdate Sample.host Sample.message Sample.device).2
     !! "measure_humidity" = Some VNull
  /\ Some VNull <> Some (VNum (Num 55)).
Proof. repeat split; first [discriminate | vm_compute; reflexivity]. Qed.

(** C8, amended.  For thermostat information with a numeric humidity: a
    device without the humidity capability gets the capability, with no
    value; a device with the capability gets the reported value, when
    Homey takes it. *)
Theorem C8_humidity (host : Host) (data : value) (d : Device.Device)
    (humidity : number) :
  let d' := Device._processThermostatInfoData host data d in
  prop data "currentHumidity" = VNum humidity ->
  (Device.hasCapability "measure_humidity" d = false ->
     Device.capabilities d' !! "measure_humidity" = Some VNull)
  /\ (Device.hasCapability "measure_humidity" d = true ->
      capability_accepts host "measure_humidity" (VNum humidity) = true ->
      Device.capabilities d' !! "measure_humidity" = Some (VNum humidity)).
Proof.
  intros d' Hh. subst d'. unfold Device._processThermostatInfoData.
  cbv zeta. rewrite Hh.
  pose proof (thermostat_prefix_humidity host data d) as Hpre.
  cbv zeta in Hpre. revert Hpre.
  set (d3 := match prop data "activeState" with
             | VNum n => _
             | _ => _
             end).
  intros Hpre.
  assert (Hhas : Device.hasCapability "measure_humidity" d3
                 = Device.hasCapability "measure_humidity" d)
    by (unfold Device.hasCapability; by rewrite Hpre).
  rewrite Hhas. split.
  - intros Hno. rewrite Hno. simpl. unfold Device.addCapability.
    rewrite Hhas, Hno. simpl. by rewrite lookup_insert_eq.
  - intros Hyes Hacc. rewrite Hyes. simpl.
    rewrite set_accepted by (by rewrite ?Hhas). simpl.
    by rewrite lookup_insert_eq.
Qed.

(** A first and a second humidity reading. *)
Lemma C8_humidity_witness :
  Device.capabilities
    (Device._processThermostatInfoData Sample.host
       (VObj [("currentHumidity", VNum (Num 55))]) Sample.device)
  !! "measure_humidity" = Some VNull
  /\ Device.capabilities
       (Device._processThermostatInfoData Sample.host
          (VObj [("currentHumidity", VNum (Num 56))]) Sample.leased_device)
     !! "measure_humidity" = Some (VNum (Num 56)).
Proof.
  split.
  - apply (C8_humidity Sample.host _ Sample.device (Num 55)); reflexivity.
  - apply (C8_humidity Sample.host _ Sample.leased_device (Num 56));
      reflexivity.
Defined.

Ltac open_updateState Hclient :=
  unfold Device.updateState; cbv zeta;
  change (Device.oAuth2Client (Device.this_log _ ?d))
    with (Device.oAuth2Client d);
  rewrite Hclient.

(** A preset whose temperature the device has not learnt: the only
    guard of [updateState] is [stateId >= 0], so after the PUT the target
    temperature is set all the same, to [NaN]; where Homey does not take
    [NaN], [updateState] rejects after the successful PUT. *)
Example updateState_unlearnt_preset :
  Device.temperatureStatesMap Sample.device = ∅
  /\ Device.capabilities Sample.device !! "target_temperature"
     = Some (VNum (Num 20))
  /\ Device.capabilities
       (Device.updateState Sample.host (VStr "home") (VBool false)
          (Fulfilled ()) Sample.device).2
     !! "target_temperature" = Some (VNum NaN)
  /\ (Device.updateState Sample.strict_host (VStr "home") (VBool false)
        (Fulfilled ()) Sample.device).1
     = Failed (Error "capability.error_set_temperature_state").
Proof. repeat split; vm_compute; reflexivity. Qed.



(* ================================================================== *)
(** * The retry runner: bounds and converses *)
(* ================================================================== *)

Section RetryBounds.
Context {W A : Type}.
Variable method : W -> outcome A * W.
Variable times : Z.
Variable interval : Util.interval_policy.

Lemma on_failure_cases retries err :
  (retries < times)%Z
  /\ Util.on_failure times interval retries err
     = Util.RetryAfter (retries + 1) (Util.waitTime interval (retries + 1))
  \/ (times <= retries)%Z
     /\ Util.on_failure times interval retries err = Util.GiveUp err.
Proof.
  unfold Util.on_failure.
  destruct (Z.gtb_spec times retries); [left | right]; split; auto; lia.
Qed.

Lemma outcome_after_next w w1 r j :
  method w = (r, w1) ->
  Util.outcome_after method (S j) w = Util.outcome_after method j w1.
Proof. intros Hm. unfold Util.outcome_after. simpl. by rewrite Hm. Qed.

Lemma outcome_after_first w w1 r :
  method w = (r, w1) -> Util.outcome_after method 0 w = r.
Proof. intros Hm. unfold Util.outcome_after. simpl. by rewrite Hm. Qed.


(** What the promise settled with says about the executions. *)
Lemma executeMethod_settled fuel :
  forall retries w,
    Z.to_nat (times - retries) <= fuel ->
    match Util.executeMethod method times interval fuel retries w with
    | (Util.Resolved v, w', tr) =>
        exists k, k <= Z.to_nat (times - retries)
          /\ (forall j, j < k ->
                is_failed (Util.outcome_after method j w) = true)
          /\ Util.outcome_after method k w = Fulfilled v
          /\ w' = Util.state_after method (S k) w
          /\ executions tr = k + 1
    | (Util.Rejected err, w', tr) =>
        let k := Z.to_nat (times - retries) in
        (forall j, j < k ->
           is_failed (Util.outcome_after method j w) = true)
        /\ Util.outcome_after method k w = Failed err
        /\ w' = Util.state_after method (S k) w
        /\ executions tr = k + 1
    | (Util.Pending, w', tr) =>
        exists k, 1 <= k <= Z.to_nat (times - retries)
          /\ (forall j, j < k ->
                is_failed (Util.outcome_after method j w) = true)
          /\ is_number (Util.waitTime interval (retries + Z.of_nat k))
             = false
          /\ executions tr = k
    end.
Proof.
  induction fuel as [|fuel IH]; intros retries w Hfuel; simpl;
    destruct (method w) as [[a|err] w1] eqn:Hm.
  - exists 0. rewrite (outcome_after_first _ _ _ Hm). simpl. rewrite ?Hm.
    repeat split; [lia | intros; lia].
  - destruct (on_failure_cases retries err) as [[Hlt ->]|[Hle ->]]; [lia|].
    replace (Z.to_nat (times - retries)) with 0 by lia.
    rewrite (outcome_after_first _ _ _ Hm). simpl. rewrite ?Hm.
    repeat split. intros; lia.
  - exists 0. rewrite (outcome_after_first _ _ _ Hm). simpl. rewrite ?Hm.
    repeat split; [lia | intros; lia].
  - pose proof (outcome_after_first _ _ _ Hm) as Hfirst.
    destruct (on_failure_cases retries err) as [[Hlt ->]|[Hle ->]].
    + destruct (Util.wait _) as [e|ms] eqn:Hwait.
      * exists 1. split; [lia|]. split; [|split].
        -- intros [|j] Hj; [by rewrite Hfirst | lia].
        -- replace (retries + Z.of_nat 1)%Z with (retries + 1)%Z by lia.
           unfold Util.wait in Hwait. by destruct (Util.waitTime _ _).
        -- done.
      * specialize (IH (retries + 1)%Z w1 ltac:(lia)).
        destruct (Util.executeMethod _ _ _ _ _ _) as [[[v|e|] w2] tr].
        -- destruct IH as (k & Hk & Hfail & Hok & Hw & Hex).
           exists (S k). repeat split.
           ++ lia.
           ++ intros [|j] Hj; [by rewrite Hfirst|].
              rewrite (outcome_after_next _ _ _ _ Hm). apply Hfail. lia.
           ++ by rewrite (outcome_after_next _ _ _ _ Hm).
           ++ simpl. by rewrite ?Hm.
           ++ unfold executions in *. simpl. lia.
        -- destruct IH as (Hfail & Hko & Hw & Hex).
           replace (Z.to_nat (times - retries))
             with (S (Z.to_nat (times - (retries + 1)))) by lia.
           repeat split.
           ++ intros [|j] Hj; [by rewrite Hfirst|].
              rewrite (outcome_after_next _ _ _ _ Hm). apply Hfail. lia.
           ++ by rewrite (outcome_after_next _ _ _ _ Hm).
           ++ simpl. by rewrite ?Hm.
           ++ unfold executions in *. simpl. lia.
        -- destruct IH as (k & Hk & Hfail & Hnum & Hex).
           exists (S k). repeat split.
           ++ lia.
           ++ lia.
           ++ intros [|j] Hj; [by rewrite Hfirst|].
              rewrite (outcome_after_next _ _ _ _ Hm). apply Hfail. lia.
           ++ by replace (retries + Z.of_nat (S k))%Z
                with (retries + 1 + Z.of_nat k)%Z by lia.
           ++ unfold executions in *. simpl. lia.
    + replace (Z.to_nat (times - retries)) with 0 by lia.
      rewrite Hfirst. simpl. rewrite ?Hm. repeat split. intros; lia.
Qed.
End RetryBounds.






(** X4.  The promise of [wrapAsyncWithRetry] stays pending for ever
    exactly when a retry was due and the interval policy gave something
    that is not a number for it: [Util.wait] rejects, and neither
    [resolve] nor [reject] is called.  With a policy that gives numbers
    the promise always settles. *)
Theorem retry_pending_policy {W A} (method : W -> outcome A * W)
    (times : Z) (interval : Util.interval_policy) (w : W) :
  (forall w' tr,
     Util.wrapAsyncWithRetry method times interval w
     = (Util.Pending, w', tr) ->
     exists k, 1 <= k <= Z.to_nat times
       /\ (forall j, j < k ->
             is_failed (Util.outcome_after method j w) = true)
       /\ is_number (Util.waitTime interval (Z.of_nat k)) = false
       /\ executions tr = k)
  /\ ((forall n, is_number (Util.waitTime interval n) = true) ->
      (Util.wrapAsyncWithRetry method times interval w).1.1
      <> Util.Pending)
  /\ (is_failed (Util.outcome_after method 0 w) = true ->
      (0 < times)%Z ->
      is_number (Util.waitTime interval 1) = false ->
      Util.wrapAsyncWithRetry method times interval w
      = (Util.Pending, Util.state_after method 1 w, [Util.Called])).
Proof.
  assert (Hpend : forall w' tr,
            Util.wrapAsyncWithRetry method times interval w
            = (Util.Pending, w', tr) ->
            exists k, 1 <= k <= Z.to_nat times
              /\ (forall j, j < k ->
                    is_failed (Util.outcome_after method j w) = true)
              /\ is_number (Util.waitTime interval (Z.of_nat k)) = false
              /\ executions tr = k).
  { intros w' tr Hrun. unfold Util.wrapAsyncWithRetry in Hrun.
    pose proof (executeMethod_settled method times interval (Z.to_nat times)
                  0 w ltac:(lia)) as H.
    rewrite Hrun in H. by replace (times - 0)%Z with times in H by lia. }
  split; [done|]. split.
  - intros Hnum Hp.
    destruct (Util.wrapAsyncWithRetry method times interval w)
      as [[s w'] tr] eqn:Hrun.
    simpl in Hp. subst s.
    destruct (Hpend w' tr eq_refl) as (k & _ & _ & Hk & _).
    by rewrite Hnum in Hk.
  - intros Hfail Hpos Hnum. unfold Util.wrapAsyncWithRetry.
    destruct (Z.to_nat times) as [|fuel] eqn:Hfuel; [lia|].
    unfold Util.outcome_after in Hfail. simpl in *.
    destruct (method w) as [[a|err] w1]; [done|].
    destruct (on_failure_cases times interval 0 err) as [[_ ->]|[Hle _]];
      [|lia].
    simpl. unfold Util.wait. change (0 + 1)%Z with 1%Z.
    by destruct (Util.waitTime interval 1).
Qed.

(** A policy that gives [undefined]. *)
Lemma retry_pending_policy_witness :
  Util.wrapAsyncWithRetry Sample.flaky 2
    (Util.Dynamic (fun _ => VUndefined)) 0
  = (Util.Pending, 1, [Util.Called]).
Proof.
  apply (retry_pending_policy Sample.flaky 2
           (Util.Dynamic (fun _ => VUndefined)) 0); reflexivity.
Defined.

(* ================================================================== *)
(** * The webhook subscription: retries, back-off and the flag *)
(* ================================================================== *)

Section SubscriptionBounds.
Variable host : Host.
Implicit Types (d : Device.Device) (tk : Device.task).

Lemma method_failed_eq t tk err d :
  Device.method_failed t tk err d
  = if (Device.retryTimes >? Device.task_retries tk)%Z then
      Device.put_task t
        {| Device.task_i := Device.task_i tk;
           Device.task_retries := Device.task_retries tk + 1;
           Device.task_pc :=
             Device.AwaitBackoff
               (num_of_Z (6000 * 2 ^ (Device.task_retries tk + 1))) |} d
    else
      Device.put_task t (Device.suspend tk (Device.AwaitSetWarning err))
        (Device.with_registeringWebhooks false
           (Device.this_error
              "Failed to register webhook subscription, reason" d)).
Proof.
  unfold Device.method_failed, Util.on_failure.
  by destruct (Device.retryTimes >? Device.task_retries tk)%Z.
Qed.

Lemma tasks_ext d d' :
  subscription d' = subscription d -> Device.tasks d' = Device.tasks d.
Proof. unfold subscription. congruence. Qed.

Lemma method_failed_ok t tk err d :
  Forall DeviceRest.task_ok (Device.tasks d) ->
  (0 <= Device.task_retries tk <= Device.retryTimes)%Z ->
  Device.task_i tk = (Device.task_retries tk + 1)%Z ->
  Forall DeviceRest.task_ok (Device.tasks (Device.method_failed t tk err d)).
Proof.
  intros Hd Hr Hi. rewrite method_failed_eq. unfold Device.retryTimes in *.
  destruct (Z.gtb_spec 10 (Device.task_retries tk)); simpl;
    apply Forall_insert; try done;
    unfold DeviceRest.task_ok, Device.retryTimes; simpl;
    repeat split; first [lia | done].
Qed.

Lemma method_start_ok t tk d :
  Forall DeviceRest.task_ok (Device.tasks d) ->
  (0 <= Device.task_retries tk <= Device.retryTimes)%Z ->
  Device.task_i tk = Device.task_retries tk ->
  Forall DeviceRest.task_ok (Device.tasks (Device.method_start t tk d)).
Proof.
  intros Hd Hr Hi. unfold Device.method_start. case_match.
  - simpl. apply Forall_insert; [done|].
    unfold DeviceRest.task_ok; simpl. lia.
  - apply method_failed_ok; simpl; try done. lia.
Qed.

Lemma register_ok d :
  Forall DeviceRest.task_ok (Device.tasks d) ->
  Forall DeviceRest.task_ok
    (Device.tasks (Device.registerWebhookSubscription d)).
Proof.
  intros Hd. unfold Device.registerWebhookSubscription. cbv zeta.
  set (tk := {| Device.task_i := 0; Device.task_retries := 0;
                Device.task_pc := Device.Returned (Fulfilled ()) |}).
  assert (Hnew : Forall DeviceRest.task_ok (Device.tasks d ++ [tk])).
  { apply Forall_app. split; [done|]. apply Forall_singleton.
    unfold DeviceRest.task_ok, Device.retryTimes. simpl.
    split; [lia | by left]. }
  case_match; [done|].
  by apply method_start_ok.
Qed.

Lemma resume_ok t o d :
  Forall DeviceRest.task_ok (Device.tasks d) ->
  Forall DeviceRest.task_ok (Device.tasks (Device.resume host t o d)).
Proof.
  intros Hd. unfold Device.resume.
  destruct (Device.tasks d !! t) as [tk|] eqn:Ht; [|done].
  pose proof (proj1 (Forall_lookup _ _) Hd t tk Ht) as [Hr Hpc].
  destruct (Device.task_pc tk) as [| |ms|err0| |r] eqn:Hk; try done.
  - destruct o as [[]|err].
    + simpl. apply Forall_insert; [done|].
      unfold DeviceRest.task_ok. simpl. lia.
    + by apply method_failed_ok.
  - destruct o as [[]|err].
    + simpl. apply Forall_insert; [done|].
      unfold DeviceRest.task_ok. simpl. lia.
    + by apply method_failed_ok.
  - assert (Hs : Forall DeviceRest.task_ok
                   (Device.tasks (Device.method_start t tk d)))
      by (apply method_start_ok; try done; lia).
    by destruct o.
  - destruct o as [[]|err]; simpl; (apply Forall_insert; [done|]);
      unfold DeviceRest.task_ok; simpl; lia.
Qed.

Lemma step_ok d e :
  Forall DeviceRest.task_ok (Device.tasks d) ->
  Forall DeviceRest.task_ok (Device.tasks (Device.step host d e)).
Proof.
  intros Hd. destruct e as [|h|t o|data|status|s k p|temp p|u]; simpl.
  - by apply register_ok.
  - case_bool_decide; [|done]. by apply register_ok.
  - by apply resume_ok.
  - by rewrite (tasks_ext _ _ (processStatusUpdate_subscription host data d)).
  - by rewrite (tasks_ext _ _ (getStatusUpdate_subscription host status d)).
  - by rewrite (tasks_ext _ _
                  (kernel_subscription _ _ (kernel_updateState host s k p d))).
  - by rewrite (tasks_ext _ _
                  (kernel_subscription _ _
                     (kernel_setTargetTemperature host temp p d))).
  - by rewrite (tasks_ext _ _ (onOAuth2Deleted_subscription u d)).
Qed.

Lemma run_ok es :
  forall d, Forall DeviceRest.task_ok (Device.tasks d) ->
    Forall DeviceRest.task_ok (Device.tasks (Device.run host d es)).
Proof.
  induction es as [|e es IH]; intros d Hd; simpl; [done|].
  by apply IH, step_ok.
Qed.
End SubscriptionBounds.

(** X5.  In every state the device reaches, an invocation of
    [registerWebhookSubscription] has run the subscribe closure at most
    11 times, and one that has given up (it awaits the warning, or has
    rejected) has run it exactly 11 times, after 10 retries. *)
Theorem subscription_retry_bound (host : Host) id agreement client caps
    (es : list Device.event) (t : nat) (tk : Device.task) :
  Device.tasks (Device.run host (Device.fresh id agreement client caps) es)
  !! t = Some tk ->
  (0 <= Device.task_i tk <= 11)%Z
  /\ (0 <= Device.task_retries tk <= 10)%Z
  /\ (forall err,
        Device.task_pc tk = Device.AwaitSetWarning err
        \/ Device.task_pc tk = Device.Returned (Failed err) ->
        Device.task_i tk = 11%Z /\ Device.task_retries tk = 10%Z).
Proof.
  intros Ht.
  pose proof (run_ok host es (Device.fresh id agreement client caps)
                (Forall_nil_2 _)) as Hall.
  pose proof (proj1 (Forall_lookup _ _) Hall t tk Ht) as [Hr Hpc].
  unfold Device.retryTimes in *.
  split; [|split; [done|]].
  - destruct (Device.task_pc tk) as [| |ms|err0| |[[]|err0]]; lia.
  - intros err [Hk|Hk]; rewrite Hk in Hpc; done.
Qed.

(** The first invocation of a device without a client, after its first
    back-off. *)
Lemma subscription_retry_bound_witness :
  (0 <= 1 <= 11)%Z /\ (0 <= 1 <= 10)%Z.
Proof.
  pose proof (subscription_retry_bound Sample.host "eneco-001-123456"
                "agreement-1" false Sample.thermostat_capabilities
                [Device.Invoked] 0
                {| Device.task_i := 1; Device.task_retries := 1;
                   Device.task_pc := Device.AwaitBackoff (Num 12000) |}
                eq_refl) as (Hi & Hr & _).
  exact (conj Hi Hr).
Defined.

(** X6.  In every state the device reaches, no invocation is left with a
    promise that never settles, and an invocation that sits out a
    back-off waits [6000 * 2 ^ n] milliseconds with [n] its retry count,
    between 1 and 10: from 12 seconds to 6144 seconds. *)
Theorem subscription_backoff (host : Host) id agreement client caps
    (es : list Device.event) (t : nat) (tk : Device.task) :
  Device.tasks (Device.run host (Device.fresh id agreement client caps) es)
  !! t = Some tk ->
  Device.task_pc tk <> Device.Hung
  /\ (forall ms, Device.task_pc tk = Device.AwaitBackoff ms ->
        (1 <= Device.task_retries tk <= 10)%Z
        /\ ms = num_of_Z (6000 * 2 ^ Device.task_retries tk)
        /\ exists z, ms = num_of_Z z /\ (12000 <= z <= 6144000)%Z).
Proof.
  intros Ht.
  pose proof (run_ok host es (Device.fresh id agreement client caps)
                (Forall_nil_2 _)) as Hall.
  pose proof (proj1 (Forall_lookup _ _) Hall t tk Ht) as [Hr Hpc].
  unfold Device.retryTimes in *. split.
  - intros Hk. by rewrite Hk in Hpc.
  - intros ms Hk. rewrite Hk in Hpc. destruct Hpc as (Hi & Hone & Hms).
    split; [lia|]. split; [done|].
    exists (6000 * 2 ^ Device.task_retries tk)%Z. split; [done|].
    assert (H1 : (2 ^ 1 <= 2 ^ Device.task_retries tk)%Z)
      by (apply Z.pow_le_mono_r; lia).
    assert (H2 : (2 ^ Device.task_retries tk <= 2 ^ 10)%Z)
      by (apply Z.pow_le_mono_r; lia).
    change (2 ^ 1)%Z with 2%Z in H1. change (2 ^ 10)%Z with 1024%Z in H2.
    lia.
Qed.

(** The first back-off of a device without a client. *)
Lemma subscription_backoff_witness :
  exists z, Num 12000 = num_of_Z z /\ (12000 <= z <= 6144000)%Z.
Proof.
  pose proof (subscription_backoff Sample.host "eneco-001-123456"
                "agreement-1" false Sample.thermostat_capabilities
                [Device.Invoked] 0
                {| Device.task_i := 1; Device.task_retries := 1;
                   Device.task_pc := Device.AwaitBackoff (Num 12000) |}
                eq_refl) as [_ Hms].
  exact (proj2 (proj2 (Hms (Num 12000) eq_refl))).
Defined.

Section FlagLive.
Variable host : Host.
Implicit Types (d : Device.Device) (tk : Device.task).

Lemma attempts_flag b d :
  Device.attempts (Device.with_registeringWebhooks b d) = Device.attempts d.
Proof. done. Qed.

(** A failure of the closure keeps the count of attempts when a retry is
    left, and lowers the flag otherwise. *)
Lemma method_failed_live t tk0 tk err d :
  Device.tasks d !! t = Some tk0 ->
  Device.attempts d + 1 = 1 + weight tk0 ->
  Device._registeringWebhooks d = true ->
  (Device.task_retries tk < Device.retryTimes)%Z
  \/ Device.attempting tk0 = true ->
  DeviceRest.flag_live (Device.method_failed t tk err d).
Proof.
  intros Ht Hcount Hflag Hcase. rewrite method_failed_eq.
  destruct (Z.gtb_spec Device.retryTimes (Device.task_retries tk)).
  - intros _.
    pose proof (attempts_put t tk0
                  {| Device.task_i := Device.task_i tk;
                     Device.task_retries := Device.task_retries tk + 1;
                     Device.task_pc :=
                       Device.AwaitBackoff
                         (num_of_Z (6000 * 2 ^ (Device.task_retries tk + 1)))
                  |} d Ht) as Hput.
    change (weight {| Device.task_i := _; Device.task_retries := _;
                      Device.task_pc := Device.AwaitBackoff _ |})
      with 1 in Hput.
    lia.
  - by intros Hf.
Qed.

Lemma method_start_live t tk0 tk d :
  Device.tasks d !! t = Some tk0 ->
  Device.attempts d + 1 = 1 + weight tk0 ->
  Device._registeringWebhooks d = true ->
  (Device.task_retries tk < Device.retryTimes)%Z
  \/ Device.attempting tk0 = true ->
  DeviceRest.flag_live (Device.method_start t tk d).
Proof.
  intros Ht Hcount Hflag Hcase. unfold Device.method_start. case_match.
  - intros _.
    match goal with
    | |- context [Device.put_task t ?x ?y] =>
        pose proof (attempts_put t tk0 x y Ht) as Hput
    end.
    rewrite weight_suspend in Hput.
    change (Device.attempts (Device.call _ (Device.this_log _ d)))
      with (Device.attempts d) in Hput.
    lia.
  - by apply (method_failed_live t tk0).
Qed.

Lemma register_live d :
  Device.single_attempt d -> DeviceRest.flag_live d ->
  DeviceRest.flag_live (Device.registerWebhookSubscription d).
Proof.
  intros [Hle Hdown] Hlive.
  destruct (Device._registeringWebhooks d) eqn:Hf.
  - rewrite register_guard by done. intros _.
    rewrite attempts_new. change (weight _) with 0.
    specialize (Hlive Hf). lia.
  - specialize (Hdown eq_refl).
    unfold Device.registerWebhookSubscription. cbv zeta. simpl.
    rewrite Hf.
    set (tk := {| Device.task_i := 0; Device.task_retries := 0;
                  Device.task_pc := Device.Returned (Fulfilled ()) |}).
    set (d1 := Device.with_registeringWebhooks true
                 (Device.with_tasks (Device.tasks d ++ [tk]) d)).
    assert (Ht : Device.tasks d1 !! length (Device.tasks d) = Some tk).
    { simpl. by rewrite lookup_app_r, Nat.sub_diag by lia. }
    assert (H1 : Device.attempts d1 = 0).
    { change (Device.attempts d1)
        with (Device.attempts
                (Device.with_tasks (Device.tasks d ++ [tk]) d)).
      rewrite attempts_new. change (weight tk) with 0. lia. }
    apply (method_start_live _ tk); try done.
    + change (weight tk) with 0. lia.
    + left. unfold Device.retryTimes. simpl. lia.
Qed.

Lemma resume_live t o d :
  Device.unset_warning_rejected d (Device.Settled t o) = false ->
  Device.single_attempt d -> DeviceRest.flag_live d ->
  DeviceRest.flag_live (Device.resume host t o d).
Proof.
  intros Hok [Hle Hdown] Hlive. unfold Device.resume. simpl in Hok.
  destruct (Device.tasks d !! t) as [tk|] eqn:Ht; [|done].
  assert (Hin : weight tk <= Device.attempts d).
  { unfold Device.attempts.
    apply (sum_list_with_in tk (fun tk => if Device.attempting tk
                                          then 1 else 0)).
    by apply list_elem_of_lookup_2 in Ht. }
  destruct (Device.task_pc tk) as [| |ms|err0| |r] eqn:Hpc; try done.
  - assert (Hw : Device.attempting tk = true)
      by (unfold Device.attempting; by rewrite Hpc).
    assert (Hw1 : weight tk = 1) by (unfold weight; by rewrite Hw).
    destruct o as [[]|err]; [by intros Hf|].
    destruct (Device._registeringWebhooks d) eqn:Hf;
      [|specialize (Hdown eq_refl); lia].
    apply (method_failed_live t tk); try done; [lia | by right].
  - destruct o as [[]|err]; [|done]. intros Hf.
    assert (Hw : weight tk = 0)
      by (unfold weight, Device.attempting; by rewrite Hpc).
    pose proof (attempts_put t tk
                  (Device.suspend tk (Device.Returned (Fulfilled ())))
                  (Device.with_warning None d) Ht) as Hput.
    rewrite weight_suspend, Hw in Hput.
    change (Device.attempts (Device.with_warning None d))
      with (Device.attempts d) in Hput.
    specialize (Hlive Hf). lia.
  - assert (Hw : Device.attempting tk = true)
      by (unfold Device.attempting; by rewrite Hpc).
    assert (Hw1 : weight tk = 1) by (unfold weight; by rewrite Hw).
    assert (Hgoal : DeviceRest.flag_live (Device.method_start t tk d)).
    { destruct (Device._registeringWebhooks d) eqn:Hf;
        [|specialize (Hdown eq_refl); lia].
      apply (method_start_live t tk); try done; [lia | by right]. }
    by destruct o.
  - assert (Hw : weight tk = 0)
      by (unfold weight, Device.attempting; by rewrite Hpc).
    destruct o as [[]|err]; intros Hf;
      match goal with
      | |- context [Device.put_task t ?x ?y] =>
          pose proof (attempts_put t tk x y Ht) as Hput
      end;
      rewrite weight_suspend, Hw in Hput;
      change (Device.attempts (Device.with_warning _ d))
        with (Device.attempts d) in Hput;
      specialize (Hlive Hf); lia.
Qed.

Lemma flag_live_ext d d' :
  subscription d' = subscription d ->
  DeviceRest.flag_live d -> DeviceRest.flag_live d'.
Proof.
  unfold subscription, DeviceRest.flag_live, Device.attempts.
  intros [= Ht Hf]. by rewrite Ht, Hf.
Qed.

Lemma step_live d e :
  Device.unset_warning_rejected d e = false ->
  Device.single_attempt d -> DeviceRest.flag_live d ->
  DeviceRest.flag_live (Device.step host d e).
Proof.
  intros Hok Hd Hlive.
  destruct e as [|h|t o|data|status|s k p|temp p|u]; simpl.
  - by apply register_live.
  - case_bool_decide; [|done]. apply register_live.
    + by apply (single_attempt_ext d);
        [apply (clearTimeout_subscription (Some h) d)|].
    + by apply (flag_live_ext d);
        [apply (clearTimeout_subscription (Some h) d)|].
  - by apply resume_live.
  - by apply (flag_live_ext d);
      [apply processStatusUpdate_subscription|].
  - by apply (flag_live_ext d); [apply getStatusUpdate_subscription|].
  - apply (flag_live_ext d); [|done].
    apply kernel_subscription, kernel_updateState.
  - apply (flag_live_ext d); [|done].
    apply kernel_subscription, kernel_setTargetTemperature.
  - by apply (flag_live_ext d); [apply onOAuth2Deleted_subscription|].
Qed.

Lemma run_live es :
  forall d, Device.single_attempt d -> DeviceRest.flag_live d ->
    Device.unset_warning_kept host d es = true ->
    DeviceRest.flag_live (Device.run host d es).
Proof.
  induction es as [|e es IH]; intros d Hd Hlive Hes; simpl in *; [done|].
  apply andb_true_iff in Hes as [He Hes].
  apply negb_true_iff in He.
  by apply IH; [apply step_single_attempt | apply step_live |].
Qed.
End FlagLive.

(** X7.  While Homey accepts every [setWarning(null)], the flag
    [_registeringWebhooks] is up exactly when one invocation is attempting
    to subscribe (it awaits the provider or sits out a back-off): the
    flag is never left up with nobody to lower it. *)
Theorem registering_flag_live (host : Host) id agreement client caps
    (es : list Device.event) :
  let d0 := Device.fresh id agreement client caps in
  Device.unset_warning_kept host d0 es = true ->
  (Device._registeringWebhooks (Device.run host d0 es) = true
   <-> Device.attempts (Device.run host d0 es) = 1).
Proof.
  intros d0 Hes.
  pose proof (run_single_attempt host es d0
                (single_attempt_fresh id agreement client caps) Hes)
    as [Hle Hdown].
  pose proof (run_live host es d0
                (single_attempt_fresh id agreement client caps)
                ltac:(by intros ?) Hes) as Hlive.
  split; [done|]. intros Hone.
  destruct (Device._registeringWebhooks _); [done|].
  specialize (Hdown eq_refl). lia.
Qed.

(** A subscription that fails once and then succeeds. *)
Lemma registering_flag_live_witness :
  Device._registeringWebhooks
    (Device.run Sample.host Sample.device
       [Device.Invoked; Device.Settled 0 (Failed Sample.failure)])
  = true
  <-> Device.attempts
        (Device.run Sample.host Sample.device
           [Device.Invoked; Device.Settled 0 (Failed Sample.failure)])
      = 1.
Proof.
  apply (registering_flag_live Sample.host "eneco-001-123456" "agreement-1"
           true Sample.thermostat_capabilities
           [Device.Invoked; Device.Settled 0 (Failed Sample.failure)]).
  reflexivity.
Defined.

(** X8.  On a device with a client and the flag down, an invocation whose
    subscribe call and whose [setWarning(null)] both resolve makes one
    subscribe request, holds the flag while the request is pending,
    and leaves the flag down and the warning unset. *)
Theorem subscription_success (host : Host) (d : Device.Device) :
  let t := length (Device.tasks d) in
  let d1 := Device.step host d Device.Invoked in
  let d3 :=
    Device.run host d
      [Device.Invoked; Device.Settled t (Fulfilled ());
       Device.Settled t (Fulfilled ())] in
  Device._registeringWebhooks d = false ->
  Device.oAuth2Client d = true ->
  Device._registeringWebhooks d1 = true
  /\ Device.requests d3
     = (Device.requests d ++ [Device.Subscribe (Device.agreementId d)])%list
  /\ Device._registeringWebhooks d3 = false
  /\ Device.warning d3 = None
  /\ Device.tasks d3 !! t
     = Some {| Device.task_i := 1; Device.task_retries := 0;
               Device.task_pc := Device.Returned (Fulfilled ()) |}.
Proof.
  intros t d1 d3 Hflag Hclient.
  set (tk0 := {| Device.task_i := 0; Device.task_retries := 0;
                 Device.task_pc := Device.Returned (Fulfilled ()) |}).
  assert (Hd1 : d1
            = Device.put_task t
                {| Device.task_i := 1; Device.task_retries := 0;
                   Device.task_pc := Device.AwaitSubscribe |}
                (Device.call (Device.Subscribe (Device.agreementId d))
                   (Device.this_log "registerWebhookSubscription()"
                      (Device.with_registeringWebhooks true
                         (Device.with_tasks (Device.tasks d ++ [tk0]) d))))).
  { subst d1. simpl. unfold Device.registerWebhookSubscription. cbv zeta.
    simpl. rewrite Hflag. unfold Device.method_start. simpl.
    by rewrite Hclient. }
  assert (Hlen : t < length (Device.tasks d ++ [tk0]))
    by (rewrite length_app; simpl; lia).
  assert (Ht1 : Device.tasks d1 !! t
            = Some {| Device.task_i := 1; Device.task_retries := 0;
                      Device.task_pc := Device.AwaitSubscribe |}).
  { rewrite Hd1. simpl. by rewrite list_lookup_insert_eq. }
  set (d2 := Device.step host d1 (Device.Settled t (Fulfilled ()))).
  assert (Hd2 : d2
            = Device.put_task t
                {| Device.task_i := 1; Device.task_retries := 0;
                   Device.task_pc := Device.AwaitUnsetWarning |}
                (Device.with_registeringWebhooks false d1)).
  { subst d2. simpl. unfold Device.resume. by rewrite Ht1. }
  assert (Hlen1 : t < length (Device.tasks d1)).
  { rewrite Hd1. simpl. by rewrite length_insert. }
  assert (Ht2 : Device.tasks d2 !! t
            = Some {| Device.task_i := 1; Device.task_retries := 0;
                      Device.task_pc := Device.AwaitUnsetWarning |}).
  { rewrite Hd2. simpl. by rewrite list_lookup_insert_eq. }
  assert (Hd3 : d3
            = Device.put_task t
                {| Device.task_i := 1; Device.task_retries := 0;
                   Device.task_pc := Device.Returned (Fulfilled ()) |}
                (Device.with_warning None d2)).
  { subst d3. change (Device.run host d _)
      with (Device.step host d2 (Device.Settled t (Fulfilled ()))).
    simpl. unfold Device.resume. by rewrite Ht2. }
  split; [by rewrite Hd1|]. rewrite Hd3, Hd2. simpl.
  repeat split.
  - by rewrite Hd1.
  - rewrite list_lookup_insert_eq; [done|].
    by rewrite length_insert.
Qed.

(** The first subscription of the sample device. *)
Lemma subscription_success_witness :
  Device.requests
    (Device.run Sample.host Sample.device
       [Device.Invoked; Device.Settled 0 (Fulfilled ());
        Device.Settled 0 (Fulfilled ())])
  = [Device.Subscribe "agreement-1"].
Proof.
  pose proof (subscription_success Sample.host Sample.device eq_refl eq_refl)
    as (_ & Hreq & _).
  exact Hreq.
Defined.

(* ================================================================== *)
(** * Removal and polling *)
(* ================================================================== *)

(** X9.  In every state the device reaches, [onOAuth2Deleted] leaves no
    renewal timer pending when the unsubscribe call resolves; when the
    device has no client it makes no request and leaves no timer
    either. *)
Theorem removal_clears_timer (host : Host) id agreement client caps
    (es : list Device.event) (unsubscribe : outcome unit) :
  let d := Device.run host (Device.fresh id agreement client caps) es in
  Device.timers (Device.onOAuth2Deleted (Fulfilled ()) d).2 = []
  /\ (Device.oAuth2Client d = false ->
      Device.onOAuth2Deleted unsubscribe d
      = (Fulfilled (),
         Device.clearTimeout (Device._webhookRegistrationTimeout d)
           (Device.this_log "onOAuth2Deleted()" d))
      /\ Device.timers (Device.onOAuth2Deleted unsubscribe d).2 = []
      /\ Device.requests (Device.onOAuth2Deleted unsubscribe d).2
         = Device.requests d).
Proof.
  intros d.
  assert (Hd : Device.single_slot d)
    by apply run_single_slot, single_slot_fresh.
  split; [by apply onOAuth2Deleted_clears|].
  intros Hclient.
  assert (Hout : Device.onOAuth2Deleted unsubscribe d
            = (Fulfilled (),
               Device.clearTimeout (Device._webhookRegistrationTimeout d)
                 (Device.this_log "onOAuth2Deleted()" d))).
  { unfold Device.onOAuth2Deleted. cbv zeta. simpl. by rewrite Hclient. }
  rewrite Hout. split; [done|]. split.
  - simpl.
    destruct (Device._webhookRegistrationTimeout d) as [h|] eqn:Hh;
      [by apply (clearTimeout_held d h) | by apply single_slot_unheld].
  - simpl. by destruct (Device._webhookRegistrationTimeout d).
Qed.

(** A device without a client that holds a lease. *)
Lemma removal_clears_timer_witness :
  Device.timers
    (Device.onOAuth2Deleted (Failed Sample.failure)
       (Device.run Sample.host
          (Device.fresh "eneco-001-123456" "agreement-1" false
             Sample.thermostat_capabilities)
          [Device.Message Sample.message])).2
  = [].
Proof.
  pose proof (removal_clears_timer Sample.host "eneco-001-123456"
                "agreement-1" false Sample.thermostat_capabilities
                [Device.Message Sample.message] (Failed Sample.failure))
    as [_ Hno].
  exact (proj1 (proj2 (Hno eq_refl))).
Defined.

(** X10.  Polling never touches the renewal timer or the subscription:
    [getStatusUpdate] leaves the pending timers, the held handle, the
    invocations and the flag as they are, whatever [getStatus] answers. *)
Theorem polling_keeps_kernel (host : Host) (status : outcome value)
    (d : Device.Device) :
  kernel (Device.getStatusUpdate host status d) = kernel d.
Proof.
  unfold Device.getStatusUpdate. cbv zeta.
  destruct (Device.oAuth2Client _); [|done].
  destruct status as [data|err]; [|done].
  set (d0 := Device.call _ _).
  pose proof (processStatusUpdate_kernel host
                (VObj [("body", VObj [("updateDataSet", data)])]) d0) as Hk.
  assert (Harm : kernel
                   (Device.arm_renewal
                      (prop (VObj [("body", VObj [("updateDataSet", data)])])
                         "body") d0)
                 = kernel d0) by done.
  rewrite Harm in Hk.
  assert (Hk' : kernel
                  (Device.processStatusUpdate host
                     (VObj [("body", VObj [("updateDataSet", data)])]) d0).2
                = kernel d) by (by destruct (Device.accepted _ d0)).
  by destruct (Device.processStatusUpdate host _ d0) as [[err|] d1].
Qed.

(* ================================================================== *)
(** * Reconciliation *)
(* ================================================================== *)

Section Reconciliation.
Variable host : Host.
Implicit Types (d : Device.Device) (data body root x : value).

Lemma states_set c v d :
  Device.temperatureStatesMap
    (Device.catch_error (Device.setCapabilityValue host c v d))
  = Device.temperatureStatesMap d.
Proof.
  unfold Device.setCapabilityValue.
  by destruct (Device.hasCapability c d && capability_accepts host c v).
Qed.

Lemma states_add c d :
  Device.temperatureStatesMap
    (Device.catch_error (Device.addCapability c d))
  = Device.temperatureStatesMap d.
Proof.
  unfold Device.addCapability. by destruct (Device.hasCapability c d).
Qed.

Lemma states_log a d :
  Device.temperatureStatesMap (Device.this_log a d)
  = Device.temperatureStatesMap d.
Proof. done. Qed.

Ltac frame_states :=
  repeat first [ rewrite states_set | rewrite states_add | rewrite states_log ].

Lemma states_power data d :
  Device.temperatureStatesMap (Device._processPowerUsageData host data d)
  = Device.temperatureStatesMap d.
Proof.
  unfold Device._processPowerUsageData. repeat case_match; by frame_states.
Qed.

Lemma states_gas data d :
  Device.temperatureStatesMap (Device._processGasUsageData host data d)
  = Device.temperatureStatesMap d.
Proof.
  unfold Device._processGasUsageData. repeat case_match; by frame_states.
Qed.

Lemma states_thermostat data d :
  Device.temperatureStatesMap
    (Device._processThermostatInfoData host data d)
  = Device.temperatureStatesMap d.
Proof.
  unfold Device._processThermostatInfoData.
  repeat case_match; by frame_states.
Qed.

Lemma sections_states root d :
  Device.temperatureStatesMap (Device.process_sections host root d)
  = Device.temperatureStatesMap d.
Proof.
  unfold Device.process_sections.
  repeat case_match;
    by rewrite ?states_thermostat, ?states_gas, ?states_power.
Qed.

Lemma arm_renewal_states body d :
  Device.temperatureStatesMap (Device.arm_renewal body d)
  = Device.temperatureStatesMap d.
Proof.
  unfold Device.arm_renewal, Device.setTimeout.
  repeat case_match; simplify_eq; done.
Qed.

Lemma arm_renewal_readings body d :
  readings (Device.arm_renewal body d) = readings d.
Proof.
  unfold Device.arm_renewal, Device.setTimeout.
  repeat case_match; simplify_eq; done.
Qed.

Lemma with_states_id d :
  Device.with_temperatureStatesMap (Device.temperatureStatesMap d) d = d.
Proof. by destruct d. Qed.

(** All the entries are kept when none of them is [undefined] or
    [null]. *)
Lemma store_states_all state :
  forall d,
    Forall (fun x => nullish x = false) state ->
    Device.store_states host state d
    = (None,
       Device.with_temperatureStatesMap
         (foldl (keep_state host) (Device.temperatureStatesMap d) state) d).
Proof.
  induction state as [|x state IH]; intros d Hall; simpl.
  - by rewrite with_states_id.
  - apply Forall_cons in Hall as [Hx Hall]. rewrite Hx.
    by rewrite IH.
Qed.

(** The entries before the first [undefined] or [null] are kept, and the
    loop throws. *)
Lemma store_states_thrown pre :
  forall d x post,
    Forall (fun x => nullish x = false) pre ->
    nullish x = true ->
    Device.store_states host (pre ++ x :: post) d
    = (Some (TypeError "Cannot destructure property 'id'"),
       Device.with_temperatureStatesMap
         (foldl (keep_state host) (Device.temperatureStatesMap d) pre) d).
Proof.
  induction pre as [|y pre IH]; intros d x post Hall Hx; simpl.
  - by rewrite Hx, with_states_id.
  - apply Forall_cons in Hall as [Hy Hall]. rewrite Hy.
    by rewrite IH.
Qed.

Lemma keep_state_other state k :
  forall m,
    Forall (fun x => ToString host (prop x "id") <> k) state ->
    foldl (keep_state host) m state !! k = m !! k.
Proof.
  induction state as [|x state IH]; intros m Hall; simpl; [done|].
  apply Forall_cons in Hall as [Hx Hall]. rewrite IH by done.
  unfold keep_state. by rewrite lookup_insert_ne.
Qed.

Lemma keep_state_last pre x m :
  foldl (keep_state host) m (pre ++ [x]) !! ToString host (prop x "id")
  = Some (prop x "tempValue").
Proof.
  rewrite foldl_app. simpl. unfold keep_state. by rewrite lookup_insert_eq.
Qed.

(** What an accepted payload with an array of preset temperatures
    leaves. *)
Lemma processStatusUpdate_states data d state :
  Device.accepted data d = true ->
  truthy (prop (prop (prop data "body") "updateDataSet") "thermostatStates")
  = true ->
  prop (prop (prop (prop data "body") "updateDataSet") "thermostatStates")
    "state" = VArr state ->
  let d1 :=
    Device.arm_renewal (prop data "body")
      (Device.this_log "data.body"
         (Device.this_log "processStatusUpdate" d)) in
  Device.processStatusUpdate host data d
  = match Device.store_states host state d1 with
    | (Some err, d2) => (Some err, d2)
    | (None, d2) =>
        (None,
         Device.process_sections host
           (prop (prop data "body") "updateDataSet") d2)
    end.
Proof.
  intros Hacc Htruthy Hstate d1. unfold Device.accepted in Hacc.
  apply andb_true_iff in Hacc as [Henv Hown].
  apply negb_true_iff in Hown.
  unfold Device.processStatusUpdate. cbv zeta. rewrite Henv.
  change (Device.from_other_display (prop data "body")
            (Device.this_log "data.body"
               (Device.this_log "processStatusUpdate" d)))
    with (Device.from_other_display (prop data "body") d).
  rewrite Hown. fold d1. unfold Device.keep_thermostatStates.
  by rewrite Htruthy, Hstate.
Qed.
End Reconciliation.

(** X11.  An accepted payload whose [thermostatStates.state] is an array
    without [undefined] or [null] entries is processed without an error
    and stores every entry: the last entry for an id decides its
    temperature, and the temperature of an id the array does not name
    stays. *)
Theorem preset_temperatures_stored (host : Host) (data : value)
    (d : Device.Device) (state : list value) :
  let d' := (Device.processStatusUpdate host data d).2 in
  Device.accepted data d = true ->
  truthy (prop (prop (prop data "body") "updateDataSet") "thermostatStates")
  = true ->
  prop (prop (prop (prop data "body") "updateDataSet") "thermostatStates")
    "state" = VArr state ->
  Forall (fun x => nullish x = false) state ->
  (Device.processStatusUpdate host data d).1 = None
  /\ Device.temperatureStatesMap d'
     = foldl (keep_state host) (Device.temperatureStatesMap d) state
  /\ (forall pre x, state = (pre ++ [x])%list ->
        Device.temperatureStatesMap d' !! ToString host (prop x "id")
        = Some (prop x "tempValue"))
  /\ (forall k,
        Forall (fun x => ToString host (prop x "id") <> k) state ->
        Device.temperatureStatesMap d' !! k
        = Device.temperatureStatesMap d !! k).
Proof.
  intros d' Hacc Htruthy Hstate Hall. subst d'.
  rewrite (processStatusUpdate_states host data d state) by done.
  rewrite store_states_all by done. simpl.
  rewrite sections_states. simpl. rewrite arm_renewal_states. simpl.
  repeat split.
  - intros pre x ->. apply keep_state_last.
  - intros k Hk. by apply keep_state_other.
Qed.

(** The temperature of the preset "home". *)
Lemma preset_temperatures_stored_witness :
  Device.temperatureStatesMap
    (Device.processStatusUpdate Sample.host
       (SampleRest.states_message [SampleRest.home_2150]) Sample.device).2
  !! "1" = Some (VNum (Num 2150)).
Proof.
  pose proof (preset_temperatures_stored Sample.host
                (SampleRest.states_message [SampleRest.home_2150])
                Sample.device [SampleRest.home_2150]
                eq_refl eq_refl eq_refl) as H.
  destruct H as (_ & _ & Hlast & _).
  - repeat constructor.
  - exact (Hlast [] SampleRest.home_2150 eq_refl).
Defined.

(** X12.  An [undefined] or [null] entry in [thermostatStates.state]
    makes [processStatusUpdate] throw a [TypeError]: the entries before
    it are stored and the renewal timer is dealt with as for any accepted
    payload, but the power usage, the gas usage and the thermostat
    information of the payload are not processed. *)
Theorem null_preset_entry_throws (host : Host) (data : value)
    (d : Device.Device) (pre post : list value) (x : value) :
  let d' := (Device.processStatusUpdate host data d).2 in
  Device.accepted data d = true ->
  truthy (prop (prop (prop data "body") "updateDataSet") "thermostatStates")
  = true ->
  prop (prop (prop (prop data "body") "updateDataSet") "thermostatStates")
    "state" = VArr (pre ++ x :: post) ->
  Forall (fun x => nullish x = false) pre ->
  nullish x = true ->
  (Device.processStatusUpdate host data d).1
  = Some (TypeError "Cannot destructure property 'id'")
  /\ Device.temperatureStatesMap d'
     = foldl (keep_state host) (Device.temperatureStatesMap d) pre
  /\ readings d' = readings d
  /\ kernel d' = kernel (Device.arm_renewal (prop data "body") d).
Proof.
  intros d' Hacc Htruthy Hstate Hall Hx. subst d'.
  pose proof (processStatusUpdate_kernel host data d) as Hk.
  rewrite Hacc in Hk.
  rewrite (processStatusUpdate_states host data d (pre ++ x :: post)) in *
    by done.
  rewrite store_states_thrown in * by done. simpl in *.
  rewrite arm_renewal_states.
  repeat split; try done.
  change (readings (Device.with_temperatureStatesMap ?m ?y))
    with (readings y).
  by rewrite arm_renewal_readings.
Qed.

(** A payload whose second preset entry is [null] and that carries a
    power reading. *)
Lemma null_preset_entry_throws_witness :
  (Device.processStatusUpdate Sample.host
     (SampleRest.states_message [SampleRest.home_2150; VNull])
     Sample.device).1
  = Some (TypeError "Cannot destructure property 'id'")
  /\ Device.capabilities
       (Device.processStatusUpdate Sample.host
          (SampleRest.states_message [SampleRest.home_2150; VNull])
          Sample.device).2
     !! "measure_power" = Some VNull.
Proof.
  pose proof (null_preset_entry_throws Sample.host
                (SampleRest.states_message [SampleRest.home_2150; VNull])
                Sample.device [SampleRest.home_2150] [] VNull
                eq_refl eq_refl eq_refl) as H.
  destruct H as (Hthrown & _ & Hread & _).
  - repeat constructor.
  - reflexivity.
  - split; [exact Hthrown|].
    apply (f_equal snd) in Hread. unfold readings in Hread.
    cbn [snd] in Hread. rewrite Hread. by vm_compute.
Defined.

Section Readings.
Variable host : Host.
Implicit Types (d : Device.Device) (data : value) (c : string).

Lemma has_set_other c c' v d :
  c <> c' ->
  Device.hasCapability c'
    (Device.catch_error (Device.setCapabilityValue host c v d))
  = Device.hasCapability c' d.
Proof.
  intros Hne. unfold Device.hasCapability. by rewrite set_other.
Qed.

Lemma set_accepted_lookup c v d :
  Device.hasCapability c d = true ->
  capability_accepts host c v = true ->
  Device.capabilities
    (Device.catch_error (Device.setCapabilityValue host c v d)) !! c
  = Some v.
Proof.
  intros Hhas Hacc. rewrite set_accepted by done. simpl.
  by rewrite lookup_insert_eq.
Qed.

(** A capability update Homey rejects is logged. *)
Lemma set_rejected_logged c v d :
  Device.hasCapability c d = false ->
  Device.catch_error (Device.setCapabilityValue host c v d)
  = Device.this_error "Error: invalid_capability" d.
Proof.
  intros Hhas. unfold Device.setCapabilityValue. by rewrite Hhas.
Qed.

(** The log only grows. *)
Lemma set_keeps_log c v d entry :
  entry ∈ Device.logs d ->
  entry ∈ Device.logs
            (Device.catch_error (Device.setCapabilityValue host c v d)).
Proof.
  intros Hin. unfold Device.setCapabilityValue.
  destruct (_ && _); simpl; [done|]. apply elem_of_app. by left.
Qed.

Lemma add_keeps_log c d entry :
  entry ∈ Device.logs d ->
  entry ∈ Device.logs (Device.catch_error (Device.addCapability c d)).
Proof.
  intros Hin. unfold Device.addCapability.
  by destruct (Device.hasCapability _ _).
Qed.

Lemma add_other c c' d :
  c <> c' ->
  Device.capabilities (Device.catch_error (Device.addCapability c d)) !! c'
  = Device.capabilities d !! c'.
Proof.
  intros Hne. unfold Device.addCapability.
  destruct (Device.hasCapability c d); simpl; [done|].
  by rewrite lookup_insert_ne.
Qed.

Lemma powerUsage_set c v d :
  Device.powerUsage
    (Device.catch_error (Device.setCapabilityValue host c v d))
  = Device.powerUsage d.
Proof. unfold Device.setCapabilityValue. by destruct (_ && _). Qed.

Lemma gasUsage_set c v d :
  Device.gasUsage
    (Device.catch_error (Device.setCapabilityValue host c v d))
  = Device.gasUsage d.
Proof. unfold Device.setCapabilityValue. by destruct (_ && _). Qed.

Lemma powerUsage_log a d :
  Device.powerUsage (Device.this_log a d) = Device.powerUsage d.
Proof. done. Qed.

Lemma gasUsage_log a d :
  Device.gasUsage (Device.this_log a d) = Device.gasUsage d.
Proof. done. Qed.


Lemma preset_id name z :
  (name, z) ∈ Device.TEMPERATURE_STATES ->
  assoc name Device.TEMPERATURE_STATES = Some z
  /\ Device.getKey Device.TEMPERATURE_STATES (num_of_Z z) = VStr name
  /\ Device.stateId_known (Some z) = bool_decide (0 <= z)%Z.
Proof.
  intros Hin. unfold Device.TEMPERATURE_STATES in *.
  repeat (apply elem_of_cons in Hin as [Hin|Hin]; [by simplify_eq|]).
  by apply elem_of_nil in Hin.
Qed.
End Readings.



(** X14.  [_processPowerUsageData] keeps a payload that is not
    [undefined] and sets the cumulative energy to the sum of [dayUsage]
    and [dayLowUsage] divided by 1000 only when both are numbers; with
    either missing it leaves the cumulative energy as it is.
    [_processGasUsageData] sets the cumulative gas to [dayUsage] divided
    by 1000 when that is a number. *)
Theorem usage_readings (host : Host) (data : value) (d : Device.Device) :
  let power := Device._processPowerUsageData host data d in
  let gas := Device._processGasUsageData host data d in
  (data <> VUndefined ->
   Device.powerUsage power = data /\ Device.gasUsage gas = data)
  /\ (forall high low,
        prop data "dayUsage" = VNum high ->
        prop data "dayLowUsage" = VNum low ->
        Device.hasCapability "meter_power" d = true ->
        capability_accepts host "meter_power"
          (VNum (num_div (num_add high low) 1000)) = true ->
        Device.capabilities power !! "meter_power"
        = Some (VNum (num_div (num_add high low) 1000)))
  /\ (is_number (prop data "dayUsage") = false
      \/ is_number (prop data "dayLowUsage") = false ->
      Device.capabilities power !! "meter_power"
      = Device.capabilities d !! "meter_power")
  /\ (forall day,
        prop data "dayUsage" = VNum day ->
        Device.hasCapability "meter_gas" d = true ->
        capability_accepts host "meter_gas" (VNum (num_div day 1000))
        = true ->
        Device.capabilities gas !! "meter_gas"
        = Some (VNum (num_div day 1000))).
Proof.
  intros power gas. subst power gas.
  split; [|split; [|split]].
  - intros _. split.
    + unfold Device._processPowerUsageData. cbv zeta.
      repeat case_match;
        repeat first [ rewrite powerUsage_set | rewrite powerUsage_log ];
        done.
    + unfold Device._processGasUsageData. cbv zeta.
      repeat case_match;
        repeat first [ rewrite gasUsage_set | rewrite gasUsage_log ];
        done.
  - intros high low Hhigh Hlow Hhas Hacc.
    unfold Device._processPowerUsageData. cbv zeta. rewrite Hhigh, Hlow.
    apply set_accepted_lookup; [|done].
    destruct (prop data "value"); try exact Hhas.
    change (Device.hasCapability "meter_power" (Device.this_log ?a ?y))
      with (Device.hasCapability "meter_power" y).
    rewrite has_set_other by done. exact Hhas.
  - intros Hnot. unfold Device._processPowerUsageData. cbv zeta.
    assert (Hfirst : forall d1,
              Device.capabilities
                match prop data "value" with
                | VNum n =>
                    Device.catch_error
                      (Device.setCapabilityValue host "measure_power"
                         (VNum n)
                         (Device.this_log
                            "getThermostatData() -> powerUsage -> measure_power -> value:"
                            d1))
                | _ => d1
                end !! "meter_power"
              = Device.capabilities d1 !! "meter_power").
    { intros d1. destruct (prop data "value"); try done.
      by rewrite set_other. }
    destruct Hnot as [Hnot|Hnot];
      destruct (prop data "dayUsage"), (prop data "dayLowUsage");
      try done; by rewrite Hfirst.
  - intros day Hday Hhas Hacc.
    unfold Device._processGasUsageData. cbv zeta. rewrite Hday.
    by apply set_accepted_lookup.
Qed.

(** Readings of 500 Wh and 300 Wh, and a payload without the low
    tariff. *)
Lemma usage_readings_witness :
  Device.capabilities
    (Device._processPowerUsageData Sample.host
       (VObj [("dayUsage", VNum (Num 500)); ("dayLowUsage", VNum (Num 300))])
       Sample.device)
  !! "meter_power" = Some (VNum (Num (4 # 5)))
  /\ Device.capabilities
       (Device._processPowerUsageData Sample.host
          (VObj [("dayUsage", VNum (Num 500))]) Sample.device)
     !! "meter_power" = Some VNull.
Proof.
  split.
  - exact (proj1 (proj2
             (usage_readings Sample.host
                (VObj [("dayUsage", VNum (Num 500));
                       ("dayLowUsage", VNum (Num 300))]) Sample.device))
             (Num 500) (Num 300) eq_refl eq_refl eq_refl eq_refl).
  - exact (proj1 (proj2 (proj2
             (usage_readings Sample.host
                (VObj [("dayUsage", VNum (Num 500))]) Sample.device)))
             (or_intror eq_refl)).
Defined.

(** X15.  The reverse lookup of a preset id gives back the preset's
    name, and the id of no preset gives [undefined]: [getKey] on
    [TEMPERATURE_STATES] inverts the lookup by name. *)
Theorem getKey_inverts_presets (name : string) (z : Z) :
  ((name, z) ∈ Device.TEMPERATURE_STATES <->
   assoc name Device.TEMPERATURE_STATES = Some z)
  /\ (assoc name Device.TEMPERATURE_STATES = Some z ->
      Device.getKey Device.TEMPERATURE_STATES (num_of_Z z) = VStr name)
  /\ (Device.getKey Device.TEMPERATURE_STATES (num_of_Z z) = VStr name ->
      assoc name Device.TEMPERATURE_STATES = Some z)
  /\ ((z < -1 \/ 3 < z)%Z ->
      Device.getKey Device.TEMPERATURE_STATES (num_of_Z z) = VUndefined)
  /\ Device.getKey Device.TEMPERATURE_STATES NaN = VUndefined.
Proof.
  assert (Heqb : forall a b : Z,
            num_eqb (num_of_Z a) (num_of_Z b) = (a =? b)%Z).
  { intros a b. unfold num_eqb, num_of_Z, Qeq_bool. simpl.
    by rewrite !Z.mul_1_r. }
  assert (Hfwd : forall n, assoc n Device.TEMPERATURE_STATES = Some z ->
            (n, z) ∈ Device.TEMPERATURE_STATES).
  { intros n Hassoc. unfold Device.TEMPERATURE_STATES in *. simpl in Hassoc.
    repeat (destruct (String.eqb n _) eqn:E;
            [apply String.eqb_eq in E; simplify_eq; set_solver|clear E]).
    done. }
  assert (Hget : forall k,
            Device.getKey Device.TEMPERATURE_STATES (num_of_Z z) = VStr k ->
            assoc k Device.TEMPERATURE_STATES = Some z).
  { intros k. unfold Device.getKey, Device.TEMPERATURE_STATES.
    cbn [find snd]. rewrite !Heqb.
    repeat match goal with
           | |- context [(?a =? z)%Z] =>
               destruct (Z.eqb_spec a z) as [<-|_]; [by intros [= <-]|]
           end.
    done. }
  split; [split; [apply preset_id | apply Hfwd]|].
  split; [intros H; by apply preset_id, Hfwd|].
  split; [apply Hget|]. split; [|done].
  intros Hout. unfold Device.getKey, Device.TEMPERATURE_STATES.
  cbn [find snd]. rewrite !Heqb.
  repeat match goal with
         | |- context [(?a =? z)%Z] =>
             destruct (Z.eqb_spec a z) as [<-|_]; [lia|]
         end.
  done.
Qed.

(** The preset "away" and the sentinel. *)
Lemma getKey_inverts_presets_witness :
  Device.getKey Device.TEMPERATURE_STATES (num_of_Z 3) = VStr "away"
  /\ Device.getKey Device.TEMPERATURE_STATES (num_of_Z 99) = VUndefined.
Proof.
  split.
  - apply (proj1 (proj2 (getKey_inverts_presets "away" 3))). reflexivity.
  - apply (proj1 (proj2 (proj2 (proj2 (getKey_inverts_presets "" 99))))).
    right. lia.
Defined.

(** X16.  A capability update Homey rejects does not stop
    [_processThermostatInfoData]: on a device without the capability
    [measure_temperature] the rejection is logged, and the target
    temperature of the same payload is set all the same; the payload is
    kept as the baseline whatever happens. *)
Theorem rejected_update_is_isolated (host : Host) (data : value)
    (d : Device.Device) (display setpoint : number) :
  let d' := Device._processThermostatInfoData host data d in
  prop data "currentDisplayTemp" = VNum display ->
  prop data "currentSetpoint" = VNum setpoint ->
  Device.hasCapability "measure_temperature" d = false ->
  Device.hasCapability "target_temperature" d = true ->
  capability_accepts host "target_temperature"
    (VNum (Device.round_tenth setpoint)) = true ->
  Device.thermostatInfo d' = data
  /\ Device.Err "Error: invalid_capability" ∈ Device.logs d'
  /\ Device.capabilities d' !! "target_temperature"
     = Some (VNum (Device.round_tenth setpoint))
  /\ Device.capabilities d' !! "measure_temperature" = None.
Proof.
  intros d' Hdisplay Hsetpoint Hno Hhas Hacc. subst d'.
  unfold Device._processThermostatInfoData. cbv zeta.
  rewrite Hdisplay, Hsetpoint.
  rewrite (set_rejected_logged host "measure_temperature") by done.
  set (d1 := Device.this_error _ _).
  assert (Hlog : Device.Err "Error: invalid_capability" ∈ Device.logs d1).
  { subst d1. simpl. apply elem_of_app. right. by left. }
  assert (Hinfo : Device.thermostatInfo d1 = data) by done.
  assert (Hnone : Device.capabilities d1 !! "measure_temperature" = None).
  { subst d1. simpl. unfold Device.hasCapability in Hno.
    apply bool_decide_eq_false in Hno.
    by apply eq_None_not_Some. }
  set (d2 := Device.catch_error
               (Device.setCapabilityValue host "target_temperature" _ d1)).
  assert (Htarget : Device.capabilities d2 !! "target_temperature"
                    = Some (VNum (Device.round_tenth setpoint)))
    by (by apply set_accepted_lookup).
  assert (Hlog2 : Device.Err "Error: invalid_capability" ∈ Device.logs d2)
    by (by apply set_keeps_log).
  assert (Hinfo2 : Device.thermostatInfo d2 = data).
  { subst d2. unfold Device.setCapabilityValue.
    by destruct (_ && _). }
  assert (Hnone2 : Device.capabilities d2 !! "measure_temperature" = None)
    by (subst d2; by rewrite set_other).
  clearbody d2. clear d1 Hlog Hinfo Hnone.
  set (d3 := match prop data "activeState" with
             | VNum n => _
             | _ => d2
             end).
  assert (H3 : Device.thermostatInfo d3 = data
               /\ Device.Err "Error: invalid_capability" ∈ Device.logs d3
               /\ Device.capabilities d3 !! "target_temperature"
                  = Some (VNum (Device.round_tenth setpoint))
               /\ Device.capabilities d3 !! "measure_temperature" = None).
  { subst d3. destruct (prop data "activeState"); try done.
    repeat split.
    - unfold Device.setCapabilityValue. by destruct (_ && _).
    - by apply set_keeps_log.
    - by rewrite set_other.
    - by rewrite set_other. }
  clearbody d3. destruct H3 as (Hi3 & Hl3 & Ht3 & Hn3).
  destruct (prop data "currentHumidity"); try done.
  destruct (negb (Device.hasCapability "measure_humidity" d3)).
  - repeat split.
    + unfold Device.addCapability.
      by destruct (Device.hasCapability "measure_humidity" d3).
    + by apply add_keeps_log.
    + by rewrite add_other.
    + by rewrite add_other.
  - repeat split.
    + unfold Device.setCapabilityValue. by destruct (_ && _).
    + by apply set_keeps_log.
    + by rewrite set_other.
    + by rewrite set_other.
Qed.

(** A device without the capability [measure_temperature]. *)
Lemma rejected_update_is_isolated_witness :
  Device.capabilities
    (Device._processThermostatInfoData Sample.host SampleRest.info
       (Device.with_capabilities
          {["target_temperature" := VNull]} Sample.device))
  !! "target_temperature" = Some (VNum (Num 20)).
Proof.
  exact (proj1 (proj2 (proj2
           (rejected_update_is_isolated Sample.host SampleRest.info
              (Device.with_capabilities
                 {["target_temperature" := VNull]} Sample.device)
              (Num 1950) (Num 2000) eq_refl eq_refl eq_refl eq_refl
              eq_refl)))).
Defined.

(* ================================================================== *)
(** * The write path *)
(* ================================================================== *)

Section Writes.
Variable host : Host.
Implicit Types (d : Device.Device) (k : string).

Lemma assoc_assoc_set {A} k k' (x : A) (ps : list (string * A)) :
  assoc k (assoc_set k' x ps)
  = if String.eqb k k' then Some x else assoc k ps.
Proof.
  induction ps as [|[k0 y] ps IH]; simpl.
  - by destruct (String.eqb k k').
  - destruct (String.eqb_spec k' k0) as [->|Hne]; simpl.
    + by destruct (String.eqb k k0).
    + destruct (String.eqb_spec k k0) as [->|Hne'].
      * destruct (String.eqb_spec k0 k'); [congruence | done].
      * by rewrite IH.
Qed.

Lemma prop_object ps k : prop (VObj ps) k = default VUndefined (assoc k ps).
Proof.
  unfold prop. simpl. destruct (assoc k ps); [done|].
  by destruct (String.eqb k "length").
Qed.

Lemma prop_set k k' x ps :
  prop (VObj (assoc_set k' x ps)) k
  = if String.eqb k k' then x else prop (VObj ps) k.
Proof.
  rewrite !prop_object, assoc_assoc_set. by destruct (String.eqb k k').
Qed.

Lemma client_set c v d :
  Device.oAuth2Client
    (Device.catch_error (Device.setCapabilityValue host c v d))
  = Device.oAuth2Client d.
Proof. unfold Device.setCapabilityValue. by destruct (_ && _). Qed.

Lemma agreementId_set c v d :
  Device.agreementId
    (Device.catch_error (Device.setCapabilityValue host c v d))
  = Device.agreementId d.
Proof. unfold Device.setCapabilityValue. by destruct (_ && _). Qed.

Lemma requests_set c v d :
  Device.requests
    (Device.catch_error (Device.setCapabilityValue host c v d))
  = Device.requests d.
Proof. unfold Device.setCapabilityValue. by destruct (_ && _). Qed.
End Writes.

Ltac solve_merged :=
  split;
  [ intros k v; cbn [assoc]; rewrite ?prop_set;
    repeat match goal with
           | |- context [String.eqb k ?s] =>
               destruct (String.eqb_spec k s) as [->|?];
               [simpl; by intros [= <-]|]
           end;
    done
  | intros k; cbn [assoc]; rewrite ?prop_set;
    repeat match goal with
           | |- context [String.eqb k ?s] =>
               destruct (String.eqb k s); [done|]
           end;
    done ].

(** X17.  Every write sends the whole baseline: the PUT of
    [setTargetTemperature], [updateState], [enableProgram] and
    [disableProgram] carries each property of the thermostat information
    the device holds, with only the properties the method sets replaced,
    and each makes exactly one request. *)
Theorem writes_merge_baseline (host : Host) (d : Device.Device) :
  Device.oAuth2Client d = true ->
  (forall t put, exists data,
     Device.requests
       (Device.setTargetTemperature host (VNum t) put d).2
     = (Device.requests d
        ++ [Device.PutThermostat (Device.agreementId d) data])%list
     /\ merged (Device.thermostatInfo d)
          [("currentSetpoint", VNum (num_mul t (Num 100)));
           ("programState", VNum (Num 2));
           ("activeState", VNum (Num (-1)))] data)
  /\ (forall state keepProgram put, exists data,
        Device.requests
          (Device.updateState host state keepProgram put d).2
        = (Device.requests d
           ++ [Device.PutThermostat (Device.agreementId d) data])%list
        /\ merged (Device.thermostatInfo d)
             [("activeState",
               Device.stateId_value
                 (assoc (ToString host state) Device.TEMPERATURE_STATES));
              ("programState",
               VNum (if truthy keepProgram then Num 2 else Num 0))] data)
  /\ (forall put, exists data,
        Device.requests (DeviceRest.enableProgram host put d).2
        = (Device.requests d
           ++ [Device.PutThermostat (Device.agreementId d) data])%list
        /\ merged (Device.thermostatInfo d)
             [("programState", VNum (Num 1))] data)
  /\ (forall put, exists data,
        Device.requests (DeviceRest.disableProgram host put d).2
        = (Device.requests d
           ++ [Device.PutThermostat (Device.agreementId d) data])%list
        /\ merged (Device.thermostatInfo d)
             [("programState", VNum (Num 0))] data).
Proof.
  intros Hclient. split; [|split; [|split]].
  - intros t put.
    exists (VObj (assoc_set "activeState" (VNum (Num (-1)))
                    (assoc_set "programState" (VNum (Num 2))
                       (assoc_set "currentSetpoint"
                          (VNum (num_mul t (Num 100)))
                          (own_props (Device.thermostatInfo d)))))).
    split; [|solve_merged].
    unfold Device.setTargetTemperature. cbv zeta. simpl is_number.
    cbv iota. simpl negb. cbv iota.
    rewrite client_set, agreementId_set.
    change (Device.oAuth2Client (Device.this_log _ d))
      with (Device.oAuth2Client d).
    rewrite Hclient.
    destruct put as [[]|err]; simpl snd.
    + by rewrite requests_set; simpl; rewrite requests_set.
    + by simpl; rewrite requests_set.
  - intros state keepProgram put.
    exists (VObj (assoc_set "programState"
                    (VNum (if truthy keepProgram then Num 2 else Num 0))
                    (assoc_set "activeState"
                       (Device.stateId_value
                          (assoc (ToString host state)
                             Device.TEMPERATURE_STATES))
                       (own_props (Device.thermostatInfo d))))).
    split; [|solve_merged].
    open_updateState Hclient.
    destruct put as [[]|err]; [|done].
    destruct (Device.stateId_known _); [|done].
    unfold Device.setCapabilityValue. by destruct (_ && _).
  - intros put.
    exists (VObj (assoc_set "programState" (VNum (Num 1))
                    (own_props (Device.thermostatInfo d)))).
    split; [|solve_merged].
    unfold DeviceRest.enableProgram. cbv zeta.
    change (Device.oAuth2Client (Device.this_log _ d))
      with (Device.oAuth2Client d).
    rewrite Hclient. by destruct put.
  - intros put.
    exists (VObj (assoc_set "programState" (VNum (Num 0))
                    (own_props (Device.thermostatInfo d)))).
    split; [|solve_merged].
    unfold DeviceRest.disableProgram. cbv zeta.
    change (Device.oAuth2Client (Device.this_log _ d))
      with (Device.oAuth2Client d).
    rewrite Hclient. by destruct put.
Qed.

(** The baseline of the provider keeps its [nextProgram] in a manual
    setpoint. *)
Lemma writes_merge_baseline_witness :
  exists data,
    Device.requests
      (Device.setTargetTemperature Sample.host (VNum (Num 21))
         (Fulfilled ())
         (Device.with_thermostatInfo SampleRest.info Sample.device)).2
    = [Device.PutThermostat "agreement-1" data]
    /\ prop data "nextProgram" = VNum (Num 1)
    /\ prop data "currentSetpoint" = VNum (Num 2100).
Proof.
  destruct (proj1 (writes_merge_baseline Sample.host
                     (Device.with_thermostatInfo SampleRest.info
                        Sample.device) eq_refl)
              (Num 21) (Fulfilled ())) as (data & Hreq & Hset & Hkeep).
  exists data. split; [exact Hreq|]. split.
  - rewrite (Hkeep "nextProgram" eq_refl). reflexivity.
  - exact (Hset "currentSetpoint" _ eq_refl).
Defined.

(** X18.  For a numeric temperature, [setTargetTemperature] sets the
    target temperature before the PUT settles and does not take it back:
    when the PUT fails the method rejects with the translated error, the
    target temperature stays at the new value and the preset indicator
    is not touched; when it succeeds the method resolves with the
    temperature and the preset indicator becomes ["none"]. *)
Theorem setTargetTemperature_optimistic (host : Host) (t : number)
    (d : Device.Device) :
  Device.oAuth2Client d = true ->
  Device.hasCapability "target_temperature" d = true ->
  capability_accepts host "target_temperature" (VNum t) = true ->
  (forall err,
     let failed := Device.setTargetTemperature host (VNum t) (Failed err) d in
     failed.1
     = Failed (Error (translate host "capability.error_set_target_temperature"
                        (Some (message_or_toString err))))
     /\ Device.capabilities failed.2
        = <["target_temperature" := VNum t]> (Device.capabilities d))
  /\ (let done := Device.setTargetTemperature host (VNum t) (Fulfilled ()) d in
      done.1 = Fulfilled (VNum t)
      /\ Device.capabilities done.2 !! "target_temperature" = Some (VNum t)
      /\ (Device.hasCapability "temperature_state" d = true ->
          capability_accepts host "temperature_state" (VStr "none") = true ->
          Device.capabilities done.2 !! "temperature_state"
          = Some (VStr "none"))).
Proof.
  intros Hclient Hhas Hacc.
  assert (Hrun : forall put,
            Device.setTargetTemperature host (VNum t) put d
            = let d1 :=
                Device.call
                  (Device.PutThermostat (Device.agreementId d)
                     (VObj (assoc_set "activeState" (VNum (Num (-1)))
                              (assoc_set "programState" (VNum (Num 2))
                                 (assoc_set "currentSetpoint"
                                    (VNum (num_mul t (Num 100)))
                                    (own_props (Device.thermostatInfo d)))))))
                  (Device.with_capabilities
                     (<["target_temperature" := VNum t]>
                        (Device.capabilities d))
                     (Device.this_log "setTargetTemperature() ->" d)) in
              match put with
              | Fulfilled _ =>
                  (Fulfilled (VNum t),
                   Device.catch_error
                     (Device.setCapabilityValue host "temperature_state"
                        (VStr "none")
                        (Device.this_log
                           "setTargetTemperature() -> success setting temperature"
                           d1)))
              | Failed err =>
                  (Failed (Error (translate host
                                    "capability.error_set_target_temperature"
                                    (Some (message_or_toString err)))),
                   Device.this_error
                     "setTargetTemperature() -> error, failed to set temperature"
                     d1)
              end).
  { intros put. unfold Device.setTargetTemperature. cbv zeta.
    simpl is_number. cbv iota.
    rewrite (set_accepted host "target_temperature" (VNum t)
               (Device.this_log "setTargetTemperature() ->" d))
      by done.
    simpl Device.catch_error. simpl Device.oAuth2Client.
    by rewrite Hclient. }
  split.
  - intros err failed. subst failed. by rewrite Hrun.
  - intros done. subst done. rewrite Hrun. cbv zeta. split; [done|].
    split.
    + cbn [snd]. rewrite set_other by done. simpl.
      by rewrite lookup_insert_eq.
    + intros Hstate Haccs. cbn [snd].
      apply set_accepted_lookup; [|done].
      unfold Device.hasCapability in *. simpl.
      by rewrite lookup_insert_ne.
Qed.

(** A failing PUT on the sample device. *)
Lemma setTargetTemperature_optimistic_witness :
  Device.capabilities
    (Device.setTargetTemperature Sample.host (VNum (Num 21))
       (Failed Sample.failure) Sample.device).2
  !! "target_temperature" = Some (VNum (Num 21)).
Proof.
  destruct (setTargetTemperature_optimistic Sample.host (Num 21)
              Sample.device eq_refl eq_refl eq_refl) as [Hfail _].
  destruct (Hfail Sample.failure) as [_ Hcaps].
  rewrite Hcaps. reflexivity.
Defined.

(* ================================================================== *)
(** * The listener of the target temperature *)
(* ================================================================== *)

From Stdlib Require Import Lqa.

Section HalfDegrees.
Variable host : Host.

Lemma Qred_inject_Z (n : Z) : Qred (inject_Z n) = inject_Z n.
Proof.
  unfold Qred, inject_Z. simpl.
  pose proof (Z.ggcd_gcd n 1) as Hg.
  pose proof (Z.ggcd_correct_divisors n 1) as Hd.
  destruct (Z.ggcd n 1) as [g [a b]]. simpl in *.
  rewrite Z.gcd_1_r in Hg. subst g.
  destruct Hd as [Ha Hb]. rewrite Z.mul_1_l in Ha, Hb. by subst.
Qed.

(** [Math.round(q * 2) / 2] is the nearest half, the upper one of two. *)
Lemma round_half_number (q : Q) :
  let z := Qfloor (Qred (q * 2) + (1 # 2)) in
  DeviceRest.round_half host (VNum (Num q)) = Num (Qred (inject_Z z / 2))
  /\ (q - (1 # 4) < inject_Z z / 2)%Q
  /\ (inject_Z z / 2 <= q + (1 # 4))%Q
  /\ num_mul (DeviceRest.round_half host (VNum (Num q))) (Num 100)
     = num_of_Z (50 * z).
Proof.
  intros z. split; [done|].
  pose proof (Qfloor_le (Qred (q * 2) + (1 # 2))) as H1.
  pose proof (Qlt_floor (Qred (q * 2) + (1 # 2))) as H2.
  fold z in H1, H2. rewrite inject_Z_plus in H2.
  rewrite Qred_correct in H1, H2.
  change (inject_Z 1) with 1%Q in H2.
  assert (Hsetpoint :
            num_mul (DeviceRest.round_half host (VNum (Num q))) (Num 100)
            = num_of_Z (50 * z)).
  { change (num_mul (DeviceRest.round_half host (VNum (Num q))) (Num 100))
      with (Num (Qred (Qred (inject_Z z / 2) * 100))).
    unfold num_of_Z. f_equal. rewrite <- (Qred_inject_Z (50 * z)).
    apply Qred_complete. rewrite Qred_correct, inject_Z_mult.
    unfold Qdiv. change (/ 2)%Q with (1 # 2)%Q.
    change (inject_Z 50) with 50%Q. ring. }
  unfold Qdiv. change (/ 2)%Q with (1 # 2)%Q.
  unfold Qdiv in Hsetpoint.
  generalize dependent (inject_Z z). intros y H1 H2.
  repeat split; try lra. done.
Qed.
End HalfDegrees.

(** X19.  The listener of the target temperature always hands a number
    to [setTargetTemperature], so with a client bound it makes the PUT
    whatever it is given; for a numeric temperature the number is the
    nearest half degree (the upper one of two), and the setpoint sent is
    that many hundredths, a multiple of 50. *)
Theorem target_temperature_half_degrees (host : Host)
    (options : value) (put : outcome unit) (d : Device.Device) :
  Device.oAuth2Client d = true ->
  (forall temperature, exists data,
     Device.requests
       (DeviceRest.onCapabilityTargetTemperature host temperature options
          put d).2
     = (Device.requests d
        ++ [Device.PutThermostat (Device.agreementId d) data])%list
     /\ prop data "currentSetpoint"
        = VNum (num_mul (DeviceRest.round_half host temperature) (Num 100)))
  /\ (forall q, exists z,
        DeviceRest.round_half host (VNum (Num q))
        = Num (Qred (inject_Z z / 2))
        /\ (q - (1 # 4) < inject_Z z / 2)%Q
        /\ (inject_Z z / 2 <= q + (1 # 4))%Q
        /\ num_mul (DeviceRest.round_half host (VNum (Num q))) (Num 100)
           = num_of_Z (50 * z)).
Proof.
  intros Hclient. split.
  - intros temperature.
    exists (VObj (assoc_set "activeState" (VNum (Num (-1)))
                    (assoc_set "programState" (VNum (Num 2))
                       (assoc_set "currentSetpoint"
                          (VNum (num_mul
                                   (DeviceRest.round_half host temperature)
                                   (Num 100)))
                          (own_props (Device.thermostatInfo d)))))).
    split; [|by rewrite !prop_set].
    unfold DeviceRest.onCapabilityTargetTemperature,
      Device.setTargetTemperature. cbv zeta. simpl is_number.
    cbv iota. simpl negb. cbv iota.
    rewrite client_set, agreementId_set.
    change (Device.oAuth2Client (Device.this_log _ (Device.this_log _ d)))
      with (Device.oAuth2Client d).
    rewrite Hclient.
    destruct put as [[]|err]; simpl snd.
    + by rewrite requests_set; simpl; rewrite requests_set.
    + by simpl; rewrite requests_set.
  - intros q. eexists. apply round_half_number.
Qed.

(** The temperature 21.3, and [undefined]. *)
Lemma target_temperature_half_degrees_witness :
  (exists data,
     Device.requests
       (DeviceRest.onCapabilityTargetTemperature Sample.host
          (VNum (Num (213 # 10))) VUndefined (Fulfilled ()) Sample.device).2
     = [Device.PutThermostat "agreement-1" data]
     /\ prop data "currentSetpoint" = VNum (Num 2150))
  /\ (exists data,
        Device.requests
          (DeviceRest.onCapabilityTargetTemperature Sample.host
             VUndefined VUndefined (Fulfilled ()) Sample.device).2
        = [Device.PutThermostat "agreement-1" data]
        /\ prop data "currentSetpoint" = VNum NaN).
Proof.
  split.
  - exact (proj1 (target_temperature_half_degrees Sample.host VUndefined
                    (Fulfilled ()) Sample.device eq_refl)
             (VNum (Num (213 # 10)))).
  - exact (proj1 (target_temperature_half_degrees Sample.host VUndefined
                    (Fulfilled ()) Sample.device eq_refl) VUndefined).
Defined.

(* ================================================================== *)
(** * debounce *)
(* ================================================================== *)

Section DebounceFacts.
Context {Args R W : Type}.
Variable fn : Args -> W -> R * W.
Variable wait : number.
Implicit Types (s : @Debounce.state Args R W) (a : Args) (h : nat).
Implicit Types (e : @Debounce.event Args).

Lemma coalescing_call a s :
  Debounce.coalescing s -> Debounce.coalescing (Debounce.call wait a s).2.
Proof.
  intros Hs.
  assert (Ht : Debounce.timers (Debounce.call wait a s).2
               = [{| Debounce.handle := Debounce.next_handle s;
                     Debounce.delay := wait; Debounce.args := a |}]).
  { simpl. destruct Hs as [[Ht Hr]|(t & Ht & Hh & Hr)].
    - rewrite Ht. by destruct (Debounce.timer_ s).
    - rewrite Hh, Ht.
      by rewrite filter_cons_False by (intros H; by apply H). }
  right. eexists. split; [exact Ht|]. split; [done|].
  simpl. by destruct (Debounce.resolves s).
Qed.

Lemma coalescing_fire h s :
  Debounce.coalescing s -> Debounce.coalescing (Debounce.fire fn h s).
Proof.
  intros Hs. unfold Debounce.fire.
  destruct Hs as [[Ht Hr]|(t & Ht & Hh & Hr)].
  - rewrite Ht. simpl. by left.
  - rewrite Ht. simpl. case_bool_decide as Heq.
    + destruct (fn (Debounce.args t) (Debounce.world s)) as [result w].
      left. simpl. split; [|done].
      rewrite filter_cons_False by (intros H; by apply H). done.
    + right. by exists t.
Qed.

Lemma coalescing_step s e :
  Debounce.coalescing s -> Debounce.coalescing (Debounce.step fn wait s e).
Proof.
  destruct e; simpl; [apply coalescing_call | apply coalescing_fire].
Qed.

(** Every promise handed out is resolved once or waiting, in the order
    of the calls. *)
Lemma accounted_step s e :
  ((Debounce.resolved s).*1 ++ Debounce.resolves s)%list
  = seq 0 (Debounce.next_promise s) ->
  let s' := Debounce.step fn wait s e in
  ((Debounce.resolved s').*1 ++ Debounce.resolves s')%list
  = seq 0 (Debounce.next_promise s').
Proof.
  intros Hs. destruct e as [a|h]; cbv zeta.
  - unfold Debounce.step, Debounce.call.
    cbn [snd Debounce.resolved Debounce.resolves Debounce.next_promise].
    by rewrite seq_S, app_assoc, Hs.
  - simpl. unfold Debounce.fire. destruct (find _ _) as [t|]; [|done].
    destruct (fn (Debounce.args t) (Debounce.world s)) as [result w]. simpl.
    rewrite fmap_app, <- list_fmap_compose, app_nil_r.
    rewrite <- Hs. f_equal. by rewrite list_fmap_id.
Qed.

Lemma promises_step s e :
  Debounce.next_promise (Debounce.step fn wait s e)
  = Debounce.next_promise s + Debounce.calls [e].
Proof.
  destruct e as [a|h]; simpl.
  - lia.
  - unfold Debounce.fire. destruct (find _ _) as [t|]; [|simpl; lia].
    destruct (fn _ _). simpl. lia.
Qed.

Lemma applied_step s e :
  Debounce.coalescing s ->
  let s' := Debounce.step fn wait s e in
  length (Debounce.applied s') + length (Debounce.timers s')
  <= length (Debounce.applied s) + length (Debounce.timers s)
     + Debounce.calls [e].
Proof.
  intros Hs. destruct e as [a|h]; simpl.
  - rewrite length_app. simpl.
    destruct (Debounce.timer_ s); [|lia].
    pose proof (length_filter (fun t => Debounce.handle t ≠ n)
                  (Debounce.timers s)).
    lia.
  - unfold Debounce.fire.
    destruct Hs as [[Ht Hr]|(t & Ht & Hh & Hr)]; rewrite Ht; simpl;
      [rewrite Ht; simpl; lia|].
    case_bool_decide as Heq; [|rewrite Ht; simpl; lia].
    destruct (fn _ _). simpl.
    rewrite filter_cons_False by (intros H; by apply H).
    rewrite length_app. simpl. lia.
Qed.

(** A burst of calls leaves one timer, for the arguments of the last
    call, and changes nothing else but the promises waiting. *)
Lemma run_calls (bs : list Args) :
  forall s a,
    Debounce.coalescing s ->
    let s' := Debounce.run fn wait s (Debounce.Call <$> (bs ++ [a])%list) in
    Debounce.timers s'
    = [{| Debounce.handle := Debounce.next_handle s + length bs;
          Debounce.delay := wait; Debounce.args := a |}]
    /\ Debounce.resolves s'
       = (Debounce.resolves s
          ++ seq (Debounce.next_promise s) (S (length bs)))%list
    /\ Debounce.resolved s' = Debounce.resolved s
    /\ Debounce.applied s' = Debounce.applied s
    /\ Debounce.world s' = Debounce.world s.
Proof.
  induction bs as [|b bs IH]; intros s a Hs.
  - simpl. repeat split; try done.
    destruct Hs as [[Ht Hr]|(t & Ht & Hh & Hr)].
    + rewrite Ht, Nat.add_0_r. by destruct (Debounce.timer_ s).
    + rewrite Hh, Ht, Nat.add_0_r.
      by rewrite filter_cons_False by (intros H; by apply H).
  - pose proof (IH (Debounce.call wait b s).2 a (coalescing_call b s Hs))
      as (Ht & Hr & Hd & Ha & Hw).
    change (Debounce.run fn wait s (Debounce.Call <$> ((b :: bs) ++ [a])%list))
      with (Debounce.run fn wait (Debounce.call wait b s).2
              (Debounce.Call <$> (bs ++ [a])%list)).
    cbv zeta. rewrite Ht, Hr, Hd, Ha, Hw. simpl.
    repeat split; try done.
    + do 3 f_equal. lia.
    + by rewrite <- app_assoc.
Qed.
End DebounceFacts.

(** X20.  Whatever calls and timers follow [debounce(fn, wait)]: at most
    one timer is pending and the closure holds its handle, a promise is
    waiting exactly when a timer is pending, every promise handed out is
    either resolved once or waiting, and [fn] has run at most once for
    each call. *)
Theorem debounce_coalesces {Args R W : Type} (fn : Args -> W -> R * W)
    (wait : number) (w : W) (es : list (@Debounce.event Args)) :
  let s := Debounce.run fn wait (Debounce.debounce w) es in
  Debounce.coalescing s
  /\ ((Debounce.resolved s).*1 ++ Debounce.resolves s)%list
     = seq 0 (Debounce.calls es)
  /\ length (Debounce.applied s) + length (Debounce.timers s)
     <= Debounce.calls es.
Proof.
  cbv zeta.
  cut (Debounce.coalescing (Debounce.run fn wait (Debounce.debounce w) es)
       /\ ((Debounce.resolved
              (Debounce.run fn wait (Debounce.debounce w) es)).*1
           ++ Debounce.resolves
                (Debounce.run fn wait (Debounce.debounce w) es))%list
          = seq 0 (Debounce.next_promise
                     (Debounce.run fn wait (Debounce.debounce w) es))
       /\ Debounce.next_promise
            (Debounce.run fn wait (Debounce.debounce w) es)
          = Debounce.calls es
       /\ length (Debounce.applied
                    (Debounce.run fn wait (Debounce.debounce w) es))
          + length (Debounce.timers
                      (Debounce.run fn wait (Debounce.debounce w) es))
          <= Debounce.calls es).
  { intros (Hc & Ha & Hp & Hn). rewrite Hp in Ha. done. }
  induction es as [|e es IH] using rev_ind.
  - simpl. repeat split; try done. by left.
  - destruct IH as (Hc & Ha & Hp & Hn).
    unfold Debounce.run, Debounce.calls in *.
    rewrite foldl_app, sum_list_with_app. simpl foldl.
    split; [by apply coalescing_step|].
    split; [by apply accounted_step|].
    split; [by rewrite promises_step, Hp|].
    pose proof (applied_step fn wait _ e Hc) as Hstep.
    unfold Debounce.calls in Hstep. cbv zeta in Hstep. lia.
Qed.

(** X21.  A burst of calls before the timer runs is one execution: when
    the timer of the last call runs, [fn] is applied once, to the
    arguments of the last call, and every promise waiting, those of the
    earlier calls of the burst included, is resolved with that one
    result. *)
Theorem debounce_burst {Args R W : Type} (fn : Args -> W -> R * W)
    (wait : number) (s : @Debounce.state Args R W) (bs : list Args)
    (a : Args) :
  let s1 := Debounce.run fn wait s (Debounce.Call <$> (bs ++ [a])%list) in
  let h := Debounce.next_handle s + length bs in
  let s2 := Debounce.fire fn h s1 in
  Debounce.coalescing s ->
  Debounce.timer_ s1 = Some h
  /\ Debounce.applied s2 = (Debounce.applied s ++ [a])%list
  /\ Debounce.resolved s2
     = (Debounce.resolved s
        ++ ((fun p => (p, (fn a (Debounce.world s)).1))
              <$> (Debounce.resolves s
                   ++ seq (Debounce.next_promise s) (S (length bs)))))%list
  /\ Debounce.world s2 = (fn a (Debounce.world s)).2
  /\ Debounce.timers s2 = []
  /\ Debounce.resolves s2 = [].
Proof.
  intros s1 h s2 Hs.
  pose proof (run_calls fn wait bs s a Hs) as (Ht & Hr & Hd & Ha & Hw).
  fold s1 in Ht, Hr, Hd, Ha, Hw.
  assert (Hc : Debounce.coalescing s1).
  { subst s1. unfold Debounce.run. clear -Hs.
    generalize (Debounce.Call <$> (bs ++ [a])%list). intros es.
    induction es as [|e es IH] using rev_ind; [done|].
    rewrite foldl_app. by apply coalescing_step. }
  split.
  { destruct Hc as [[Ht' _]|(t & Ht' & Hh & _)].
    - by rewrite Ht in Ht'.
    - rewrite Ht in Ht'. by simplify_eq. }
  subst s2. unfold Debounce.fire. rewrite Ht. simpl.
  rewrite bool_decide_eq_true_2 by done. rewrite Hw.
  cbn [Debounce.args].
  destruct (fn a (Debounce.world s)) as [result w]. simpl.
  rewrite Hd, Ha, Hr.
  repeat split; try done.
  rewrite filter_cons_False by (intros H; by apply H). done.
Qed.

(** Three settings of the target temperature within the wait. *)
Lemma debounce_burst_witness :
  let s :=
    Debounce.fire SampleRest.echo 2
      (Debounce.run SampleRest.echo (Num 500) (Debounce.debounce ())
         (Debounce.Call <$> [19; 20; 21])) in
  Debounce.applied s = [21]
  /\ Debounce.resolved s = [(0, 21); (1, 21); (2, 21)].
Proof.
  pose proof (debounce_burst SampleRest.echo (Num 500)
                (Debounce.debounce ()) [19; 20] 21
                (or_introl (conj eq_refl eq_refl)))
    as (_ & Ha & Hr & _).
  split; [exact Ha | exact Hr].
Defined.

(* ================================================================== *)
(** * The app and the web API *)
(* ================================================================== *)

Section ApiFacts.
Implicit Types (a : App.ToonApp).

Lemma _getSession_unreadable a err :
  App.read_error a = Some err ->
  App._getSession a
  = (Failed err, App.this_error "isAuthenticated() -> error" a).
Proof.
  intros Hread. unfold App._getSession, App.getSavedOAuth2Sessions.
  by rewrite Hread.
Qed.

Lemma logout_none a :
  App.read_error a = None -> size (App.saved a) = 0 ->
  App.logout a
  = (Failed (TypeError "Cannot convert undefined or null to object"),
     App.this_log "_getSession() ->" (App.this_log "logout()" a)).
Proof. intros Hread Hsize. unfold App.logout. by rewrite _getSession_none. Qed.

Lemma logout_many a :
  App.read_error a = None -> 2 <= size (App.saved a) ->
  App.logout a
  = (Failed (Error "Multiple OAuth2 sessions found, not allowed."),
     App.this_log "logout()" a).
Proof. intros Hread Hsize. unfold App.logout. by rewrite _getSession_many. Qed.

Lemma logout_unreadable a err :
  App.read_error a = Some err ->
  App.logout a
  = (Failed err,
     App.this_error "isAuthenticated() -> error" (App.this_log "logout()" a)).
Proof.
  intros Hread. unfold App.logout.
  by rewrite (_getSession_unreadable _ err).
Qed.

Lemma logout_one a :
  App.read_error a = None -> size (App.saved a) = 1 ->
  (App.logout a).1 = Fulfilled (replicate (length (App.devices a)) ())
  /\ App.saved (App.logout a).2 = ∅
  /\ Forall (fun d => Device.available d = false)
       (App.devices (App.logout a).2).
Proof.
  intros Hread Hsize.
  destruct (size_1_singleton _ Hsize) as (k & s & Hm).
  unfold App.logout. rewrite _getSession_one by done. simpl.
  rewrite Hm, Object_keys_singleton. simpl.
  rewrite Promise_all_setUnavailable, delete_singleton_eq.
  repeat split. apply setUnavailable_all.
Qed.
End ApiFacts.

(** X22.  [logout()] rejects, and changes neither the store nor the
    devices, whenever the store does not hold exactly one readable
    session: with the error of the store when the sessions cannot be
    read, and with the error of [_getSession] for two or more
    sessions. *)
Theorem logout_rejects_unchanged (a : App.ToonApp) :
  App.read_error a <> None \/ size (App.saved a) <> 1 ->
  is_failed (App.logout a).1 = true
  /\ App.saved (App.logout a).2 = App.saved a
  /\ App.devices (App.logout a).2 = App.devices a
  /\ (forall err, App.read_error a = Some err ->
        (App.logout a).1 = Failed err)
  /\ (App.read_error a = None -> 2 <= size (App.saved a) ->
      (App.logout a).1
      = Failed (Error "Multiple OAuth2 sessions found, not allowed.")).
Proof.
  intros Hnot.
  destruct (App.read_error a) as [err|] eqn:Hread.
  - rewrite (logout_unreadable a err) by done.
    repeat split; try done. by intros ? [= <-].
  - destruct Hnot as [Hnot|Hnot]; [done|].
    destruct (decide (size (App.saved a) = 0)) as [Hzero|Hpos].
    + rewrite logout_none by done. repeat split; try done. lia.
    + rewrite logout_many by (done || lia). by repeat split.
Qed.

(** A store of two sessions. *)
Lemma logout_rejects_unchanged_witness :
  (App.logout
     (Sample.app {["s1" := Sample.session; "s2" := Sample.session]})).1
  = Failed (Error "Multiple OAuth2 sessions found, not allowed.").
Proof.
  refine (proj2 (proj2 (proj2 (proj2
            (logout_rejects_unchanged
               (Sample.app {["s1" := Sample.session; "s2" := Sample.session]})
               _)))) _ _).
  - right. vm_compute. lia.
  - reflexivity.
  - vm_compute. lia.
Defined.

(** X23.  [getLogin] answers as [isAuthenticated()] does and never with
    the translated error of its own [catch]: it resolves with whether a
    session is saved for a readable store of at most one session, and
    rejects with "Could not get current OAuth2 session" when the store
    cannot be read or holds more sessions; the store stays as it is. *)
Theorem getLogin_outcome (a : App.ToonApp) :
  (App.read_error a = None -> size (App.saved a) <= 1 ->
   (Api.getLogin a).1 = Fulfilled (bool_decide (size (App.saved a) = 1)))
  /\ (App.read_error a <> None \/ 2 <= size (App.saved a) ->
      (Api.getLogin a).1
      = Failed (Error "Could not get current OAuth2 session"))
  /\ App.saved (Api.getLogin a).2 = App.saved a.
Proof.
  unfold Api.getLogin, App.isAuthenticated. split; [|split].
  - intros Hread Hsize.
    destruct (decide (size (App.saved a) = 0)) as [Hzero|Hpos].
    + rewrite _getSession_none by done. simpl.
      by rewrite bool_decide_eq_false_2 by lia.
    + rewrite _getSession_one by (done || lia). simpl.
      by rewrite bool_decide_eq_true_2 by lia.
  - intros Hnot. destruct (App.read_error a) as [err|] eqn:Hread.
    + by rewrite (_getSession_unreadable a err).
    + destruct Hnot as [Hnot|Hnot]; [done|].
      by rewrite _getSession_many.
  - unfold App._getSession, App.getSavedOAuth2Sessions.
    destruct (App.read_error a); [done|].
    by destruct (1 <? _)%nat.
Qed.

(** A store that cannot be read. *)
Lemma getLogin_outcome_witness :
  (Api.getLogin
     {| App.saved := ∅; App.read_error := Some Sample.failure;
        App.devices := []; App.logs := [] |}).1
  = Failed (Error "Could not get current OAuth2 session").
Proof.
  apply (proj1 (proj2 (getLogin_outcome
          {| App.saved := ∅; App.read_error := Some Sample.failure;
             App.devices := []; App.logs := [] |}))).
  left. simpl. discriminate.
Defined.

(** X24.  [postLogin] with [state: false] is [logout()] behind the API:
    for a readable store of one session it resolves with [true], leaves
    the store empty and every device unavailable; for a store of none or
    of several it rejects with the translation of
    [api.error_logout_failed] that carries the message of the error of
    [logout()], and changes neither the store nor the devices. *)
Theorem postLogin_logout (host : Host)
    (login : App.ToonApp -> outcome unit * App.ToonApp) (body : value)
    (a : App.ToonApp) :
  let r := Api.postLogin host login body a in
  prop body "state" = VBool false ->
  App.read_error a = None ->
  (size (App.saved a) = 1 ->
   r.1 = Fulfilled true
   /\ App.saved r.2 = ∅
   /\ Forall (fun d => Device.available d = false) (App.devices r.2))
  /\ (size (App.saved a) = 0 ->
      r.1 = Failed (Error (translate host "api.error_logout_failed"
                             (Some "Cannot convert undefined or null to object")))
      /\ App.saved r.2 = App.saved a
      /\ App.devices r.2 = App.devices a)
  /\ (2 <= size (App.saved a) ->
      r.1 = Failed (Error (translate host "api.error_logout_failed"
                             (Some "Multiple OAuth2 sessions found, not allowed.")))
      /\ App.saved r.2 = App.saved a
      /\ App.devices r.2 = App.devices a).
Proof.
  intros r Hstate Hread. subst r. unfold Api.postLogin.
  assert (Hbody : match body with VUndefined => VObj [] | _ => body end
                  = body) by (by destruct body).
  rewrite Hbody.
  assert (Hnullish : nullish body = false) by (by destruct body).
  rewrite Hnullish, Hstate.
  split; [|split]; intros Hsize.
  - destruct (logout_one a Hread Hsize) as (Hout & Hsaved & Hdevices).
    destruct (App.logout a) as [[results|err] a']; simpl in *; [done|].
    discriminate.
  - by rewrite logout_none.
  - by rewrite logout_many.
Qed.

(** Logging out of the one session through the API. *)
Lemma postLogin_logout_witness :
  (Api.postLogin Sample.host SampleRest.no_login
     (VObj [("state", VBool false)])
     (Sample.app {["s1" := Sample.session]})).1
  = Fulfilled true.
Proof.
  apply (proj1 (postLogin_logout Sample.host SampleRest.no_login
                  (VObj [("state", VBool false)])
                  (Sample.app {["s1" := Sample.session]})
                  eq_refl eq_refl)).
  reflexivity.
Defined.

(** X25.  [postLogin] rejects a body whose [state] is not a boolean, a
    missing body included, before it reads the store: the app is left as
    it is and neither [login()] nor [logout()] runs. *)
Theorem postLogin_guard (host : Host)
    (login : App.ToonApp -> outcome unit * App.ToonApp) (body : value)
    (a : App.ToonApp) :
  (forall b, prop body "state" <> VBool b) ->
  (exists err, Api.postLogin host login body a = (Failed err, a))
  /\ (body <> VNull ->
      Api.postLogin host login body a
      = (Failed (Error "Body > State should be a boolean"), a)).
Proof.
  intros Hstate. unfold Api.postLogin.
  set (body' := match body with VUndefined => VObj [] | _ => body end).
  assert (Hstate' : forall b, prop body' "state" <> VBool b).
  { subst body'. by destruct body. }
  destruct (nullish body') eqn:Hnullish.
  - split; [by eexists|]. intros Hne. subst body'.
    by destruct body.
  - destruct (prop body' "state") as [| |b| | | |] eqn:Hp;
      try (split; [by eexists | done]).
    by destruct (Hstate' b).
Qed.

(** No body, and a [state] that is a string. *)
Lemma postLogin_guard_witness :
  Api.postLogin Sample.host SampleRest.no_login VUndefined
    (Sample.app {["s1" := Sample.session]})
  = (Failed (Error "Body > State should be a boolean"),
     Sample.app {["s1" := Sample.session]})
  /\ Api.postLogin Sample.host SampleRest.no_login
       (VObj [("state", VStr "false")])
       (Sample.app {["s1" := Sample.session]})
     = (Failed (Error "Body > State should be a boolean"),
        Sample.app {["s1" := Sample.session]}).
Proof.
  split.
  - apply (proj2 (postLogin_guard Sample.host SampleRest.no_login VUndefined
                    (Sample.app {["s1" := Sample.session]})
                    ltac:(intros b; discriminate))).
    discriminate.
  - apply (proj2 (postLogin_guard Sample.host SampleRest.no_login
                    (VObj [("state", VStr "false")])
                    (Sample.app {["s1" := Sample.session]})
                    ltac:(intros b; discriminate))).
    discriminate.
Defined.

(** X26.  The devices the app finds for a common name are the devices
    that read a message of that common name: a device of the app is in
    [getToonDevicesByCommonName(commonName)] exactly when
    [processStatusUpdate] does not take a payload carrying
    [commonName] for the payload of another display. *)
Theorem devices_of_display (commonName : string) (a : App.ToonApp)
    (body : value) (d : Device.Device) :
  prop body "commonName" = VStr commonName ->
  d ∈ Api.getToonDevicesByCommonName commonName a
  <-> d ∈ App.devices a /\ Device.from_other_display body d = false.
Proof.
  intros Hname. unfold Api.getToonDevicesByCommonName,
    Device.from_other_display.
  rewrite Hname, list_elem_of_filter, negb_false_iff, String.eqb_eq.
  split; intros [? ?]; by split.
Qed.

(** The sample message and the sample device. *)
Lemma devices_of_display_witness :
  Sample.device
  ∈ Api.getToonDevicesByCommonName "eneco-001-123456"
      (Sample.app ∅).
Proof.
  apply (devices_of_display "eneco-001-123456" (Sample.app ∅)
           (prop Sample.message "body") Sample.device eq_refl).
  split; [|reflexivity]. unfold Sample.app. simpl. set_solver.
Defined.

(* ================================================================== *)
(** * Pairing, the client switch, the migration and the subscription
      requests *)
(* ================================================================== *)

Section PairingFacts.
Variable host : Host.
Variable toLowerCase : string -> string.
Implicit Types (n : nat) (x : value) (items : list value).

Lemma pair_device_ok n x :
  nullish x = false ->
  (1 < n -> exists city, prop x "city" = VStr city) ->
  exists dev,
    Driver.pair_device host toLowerCase n x = inr dev
    /\ prop (prop dev "data") "id" = prop x "displayCommonName"
    /\ prop (prop dev "data") "agreementId" = prop x "agreementId"
    /\ prop (prop dev "store") "apiVersion" = VNum (Num 3)
    /\ (n <= 1 -> prop dev "name" = VStr "Toon").
Proof.
  intros Hx Hcity. unfold Driver.pair_device, Driver.device_name.
  rewrite Hx. destruct (Nat.ltb_spec 1 n) as [Hn|Hn].
  - destruct (Hcity Hn) as [city ->]. eexists. split; [done|].
    repeat split. lia.
  - eexists. split; [done|]. by repeat split.
Qed.

Lemma pair_device_error n x err :
  Driver.pair_device host toLowerCase n x = inl err ->
  exists msg, err = TypeError msg.
Proof.
  unfold Driver.pair_device, Driver.device_name.
  destruct (nullish x); [intros [= <-]; by eexists|].
  destruct (1 <? n)%nat; [|done].
  destruct (prop x "city"); try done; intros [= <-]; by eexists.
Qed.

Lemma pair_device_bad n x :
  nullish x = true \/ (1 < n /\ forall city, prop x "city" <> VStr city) ->
  exists msg, Driver.pair_device host toLowerCase n x = inl (TypeError msg).
Proof.
  unfold Driver.pair_device, Driver.device_name.
  intros [Hx|[Hn Hcity]].
  - rewrite Hx. by eexists.
  - destruct (nullish x); [by eexists|].
    destruct (Nat.ltb_spec 1 n); [|lia].
    destruct (prop x "city") eqn:Hp; try by eexists.
    by destruct (Hcity s).
Qed.

Lemma pair_devices_ok n items :
  Forall (fun x => nullish x = false) items ->
  (1 < n -> Forall (fun x => exists city, prop x "city" = VStr city) items) ->
  exists devices,
    Driver.pair_devices host toLowerCase n items = inr devices
    /\ length devices = length items
    /\ forall i x, items !! i = Some x ->
         exists dev,
           devices !! i = Some dev
           /\ prop (prop dev "data") "id" = prop x "displayCommonName"
           /\ prop (prop dev "data") "agreementId" = prop x "agreementId"
           /\ prop (prop dev "store") "apiVersion" = VNum (Num 3)
           /\ (n <= 1 -> prop dev "name" = VStr "Toon").
Proof.
  induction items as [|x items IH]; intros Hall Hcity.
  - exists []. by repeat split.
  - apply Forall_cons in Hall as [Hx Hall].
    destruct (pair_device_ok n x Hx) as (dev & Hdev & Hprops).
    { intros Hn. specialize (Hcity Hn).
      by apply Forall_cons in Hcity as [? _]. }
    destruct IH as (devices & Hdevices & Hlength & Hitems); [done| |].
    { intros Hn. specialize (Hcity Hn).
      by apply Forall_cons in Hcity as [_ ?]. }
    exists (dev :: devices). simpl. rewrite Hdev, Hdevices.
    split; [done|]. split; [by rewrite Hlength|].
    intros [|i] y Hy; simpl in *.
    + simplify_eq. by exists dev.
    + by apply Hitems.
Qed.

Lemma pair_devices_bad n pre x post :
  (exists msg, Driver.pair_device host toLowerCase n x = inl (TypeError msg)) ->
  exists msg,
    Driver.pair_devices host toLowerCase n (pre ++ x :: post)%list
    = inl (TypeError msg).
Proof.
  intros [msg Hx]. induction pre as [|y pre IH]; simpl.
  - rewrite Hx. by eexists.
  - destruct (Driver.pair_device host toLowerCase n y) as [err|dev] eqn:Hy.
    + destruct (pair_device_error n y err Hy) as [msg' ->]. by eexists.
    + destruct IH as [msg' ->]. by eexists.
Qed.
End PairingFacts.

Section ResetFacts.
Implicit Types (id : string) (items : list value).

Lemma find_agreement_found id items :
  Forall (fun x => nullish x = false) items ->
  exists b,
    DeviceRest.find_agreement id items = inr b
    /\ (b = true <-> exists x, x ∈ items /\ prop x "agreementId" = VStr id).
Proof.
  induction items as [|x items IH]; intros Hall; simpl.
  - exists false. split; [done|]. split; [done|].
    intros (x & Hx & _). by apply elem_of_nil in Hx.
  - apply Forall_cons in Hall as [Hx Hall]. rewrite Hx.
    destruct (IH Hall) as (b & Hb & Hiff).
    assert (Hrest : prop x "agreementId" <> VStr id ->
              (b = true <->
               exists y, y ∈ x :: items /\ prop y "agreementId" = VStr id)).
    { intros Hne. rewrite Hiff. split.
      - intros (y & Hy & Hid). exists y. split; [by right | done].
      - intros (y & Hy & Hid). apply elem_of_cons in Hy as [->|Hy]; [done|].
        by exists y. }
    destruct (prop x "agreementId") as [| | | |s| |] eqn:Hp;
      try (exists b; split; [done | by apply Hrest]).
    destruct (String.eqb_spec s id) as [->|Hne].
    + exists true. split; [done|]. split; [|done].
      intros _. exists x. split; [by left | done].
    + exists b. split; [done|]. apply Hrest. congruence.
Qed.
End ResetFacts.

(** X27.  [onPairListDevices] lists one device for each agreement, in
    the order of the agreements, each with the [displayCommonName] and
    the [agreementId] of its agreement and the API version 3; a single
    agreement gives the name "Toon", whatever its address.  This holds
    when no agreement is [undefined] or [null] and, for two or more
    agreements, every [city] is a string. *)
Theorem pairing_lists_agreements (host : Host)
    (toLowerCase : string -> string) (items : list value) :
  Forall (fun x => nullish x = false) items ->
  (1 < length items ->
   Forall (fun x => exists city, prop x "city" = VStr city) items) ->
  exists devices,
    Driver.onPairListDevices host toLowerCase (Fulfilled (VArr items))
    = inr devices
    /\ length devices = length items
    /\ forall i x, items !! i = Some x ->
         exists dev,
           devices !! i = Some dev
           /\ prop (prop dev "data") "id" = prop x "displayCommonName"
           /\ prop (prop dev "data") "agreementId" = prop x "agreementId"
           /\ prop (prop dev "store") "apiVersion" = VNum (Num 3)
           /\ (length items <= 1 -> prop dev "name" = VStr "Toon").
Proof.
  intros Hall Hcity. unfold Driver.onPairListDevices. simpl nullish.
  cbv iota. by apply pair_devices_ok.
Qed.

(** One agreement without an address. *)
Lemma pairing_lists_agreements_witness :
  exists devices,
    Driver.onPairListDevices Sample.host (fun s => s)
      (Fulfilled
         (VArr [VObj [("agreementId", VStr "agreement-1");
                      ("displayCommonName", VStr "eneco-001-123456")]]))
    = inr devices
    /\ length devices = 1.
Proof.
  destruct (pairing_lists_agreements Sample.host (fun s => s)
              [VObj [("agreementId", VStr "agreement-1");
                     ("displayCommonName", VStr "eneco-001-123456")]])
    as (devices & Hdevices & Hlength & _).
  - repeat constructor.
  - simpl. lia.
  - by exists devices.
Defined.

(** X28.  Pairing is all or nothing: one agreement that is [undefined]
    or [null], or among two or more agreements one whose [city] is not a
    string, makes [onPairListDevices] reject with a [TypeError] and list
    no device; a rejection of [getAgreements] is replaced by the
    translation of [pairing.agreement_error], and an answer that is
    neither an array nor [undefined] nor [null] gives no device and no
    error. *)
Theorem pairing_all_or_nothing (host : Host)
    (toLowerCase : string -> string) :
  (forall pre x post,
     nullish x = true
     \/ (1 < length (pre ++ x :: post)%list
         /\ forall city, prop x "city" <> VStr city) ->
     exists msg,
       Driver.onPairListDevices host toLowerCase
         (Fulfilled (VArr (pre ++ x :: post)%list))
       = inl (TypeError msg))
  /\ (forall err,
        Driver.onPairListDevices host toLowerCase (Failed err)
        = inl (Error (translate host "pairing.agreement_error" None)))
  /\ (forall v,
        nullish v = false -> (forall items, v <> VArr items) ->
        Driver.onPairListDevices host toLowerCase (Fulfilled v) = inr []).
Proof.
  split; [|split].
  - intros pre x post Hbad. unfold Driver.onPairListDevices.
    simpl nullish. cbv iota.
    by apply pair_devices_bad, pair_device_bad.
  - done.
  - intros v Hv Harr. unfold Driver.onPairListDevices. rewrite Hv.
    destruct v; try done. by destruct (Harr items).
Qed.

(** Two agreements, the second without a city. *)
Lemma pairing_all_or_nothing_witness :
  exists msg,
    Driver.onPairListDevices Sample.host (fun s => s)
      (Fulfilled
         (VArr [SampleRest.agreement "eneco-001-123456" "agreement-1"
                  "AMSTERDAM";
                VObj [("agreementId", VStr "agreement-2")]]))
    = inl (TypeError msg).
Proof.
  apply (proj1 (pairing_all_or_nothing Sample.host (fun s => s))
           [SampleRest.agreement "eneco-001-123456" "agreement-1"
              "AMSTERDAM"]
           (VObj [("agreementId", VStr "agreement-2")]) []).
  right. split; [simpl; lia | intros city; discriminate].
Defined.

(** X29.  [resetOAuth2Client] stores the session id and the config id
    whatever follows.  Without a client for the session the device keeps
    its client and becomes unavailable, and the agreements are not asked
    for.  With one, the device is bound to it before the agreements are
    asked for: for an array without [undefined] or [null] it becomes
    available exactly when an agreement carries the device's
    [agreementId], and unavailable otherwise; when [getAgreements]
    rejects, the method rejects with that error, the new client stays
    bound and the availability is left as it was. *)
Theorem reset_binds_client (sessionId configId : value)
    (hasOAuth2Client : bool) (agreements : outcome value)
    (d : Device.Device) :
  let r :=
    DeviceRest.resetOAuth2Client sessionId configId hasOAuth2Client
      agreements d in
  DeviceRest.stored r.2
  = [("OAuth2SessionId", sessionId); ("OAuth2ConfigId", configId)]
  /\ (hasOAuth2Client = false ->
      r.1.1 = Fulfilled ()
      /\ Device.available r.1.2 = false
      /\ Device.oAuth2Client r.1.2 = Device.oAuth2Client d
      /\ DeviceRest.asked_agreements r.2 = false)
  /\ (hasOAuth2Client = true ->
      Device.oAuth2Client r.1.2 = true
      /\ (forall items,
            agreements = Fulfilled (VArr items) ->
            Forall (fun x => nullish x = false) items ->
            r.1.1 = Fulfilled ()
            /\ (Device.available r.1.2 = true <->
                exists x, x ∈ items
                  /\ prop x "agreementId" = VStr (Device.agreementId d)))
      /\ (forall err,
            agreements = Failed err ->
            r.1.1 = Failed err
            /\ Device.available r.1.2 = Device.available d)).
Proof.
  intros r. subst r. unfold DeviceRest.resetOAuth2Client.
  destruct hasOAuth2Client; [|by repeat split].
  split.
  { destruct agreements as [v|err]; [|done].
    destruct v; try done.
    by destruct (DeviceRest.find_agreement _ _) as [|[]]. }
  split; [done|]. intros _. split.
  { destruct agreements as [v|err]; [|done].
    destruct v; try done.
    by destruct (DeviceRest.find_agreement _ _) as [|[]]. }
  split.
  - intros items -> Hall.
    change (Device.agreementId (DeviceRest.with_oAuth2Client true d))
      with (Device.agreementId d).
    destruct (find_agreement_found (Device.agreementId d) items Hall)
      as (b & -> & Hiff).
    rewrite <- Hiff. by destruct b.
  - by intros err ->.
Qed.

(** The account holds the agreement of the device. *)
Lemma reset_binds_client_witness :
  Device.available
    (DeviceRest.resetOAuth2Client (VStr "s2") (VStr "default") true
       (Fulfilled
          (VArr [SampleRest.agreement "eneco-001-123456" "agreement-1"
                   "AMSTERDAM"]))
       Sample.device).1.2
  = true.
Proof.
  pose proof (proj2 (proj2
                (reset_binds_client (VStr "s2") (VStr "default") true
                   (Fulfilled
                      (VArr [SampleRest.agreement "eneco-001-123456"
                               "agreement-1" "AMSTERDAM"]))
                   Sample.device)) eq_refl) as (_ & Hfound & _).
  apply (Hfound _ eq_refl).
  - repeat constructor.
  - eexists. split; [by left | reflexivity].
Defined.


